(** * rollouts-plugin-metric-ai: the analysis engine of the metric plugin

    A shallow embedding of the Go package [internal/plugin]:
    - [utils.go]: [extractFirstJSON], [concatCandidates],
      [retryWithBackoff], [analyzeLogsWithAI];
    - the A2A client: [findIndex], [splitLogs], [HealthCheck],
      [AnalyzeWithAgent];
    - [ai_mode.go]: [analyzeWithMode], [analyzeWithKubernetesAgent];
    - [kubernetes.go]: [getSecretValue];
    - the plugin: [Run], [markMeasurementError], [getKubeClient],
      [fetchFirstPodLogs].

    Go [string]s are byte sequences and are modelled by [string] (a list
    of 8-bit [ascii]); Go [int], [int64] and [time.Duration] values are
    modelled by [Z]; [float64] arithmetic is the IEEE-754 binary64
    arithmetic of [SpecFloat].  A Go computation that can panic returns
    an [outcome]; one that talks to the cluster, the model, the agent or
    the clock is a function of the [World].  The calls to [log] are left
    out: they change neither the state nor the result.

    The libraries the package calls are not part of the repository.
    Those its control flow depends on are modelled here from their
    documented behaviour: the parts of [strings], [time], [fmt] and
    [encoding/json] in use, and [github.com/cenkalti/backoff/v5].  The
    collaborators (cluster, model, agent, issue tracker) answer through
    the oracles of an [Env]. *)

From Stdlib Require Import ZArith String Ascii List Bool Lia.
From Stdlib Require Import SpecFloat DecimalString.
From stdpp Require Import gmap strings.

Local Open Scope string_scope.
Local Open Scope Z_scope.

Set Warnings "-register-all".

(** ** Outcomes of Go computations *)

(** A Go function either returns, or panics at run time; [OutOfFuel] is
    the model's answer when an unbounded [for] loop was cut short. *)
Inductive outcome (A : Type) : Type :=
| Ret (a : A)
| Panic (msg : string)
| OutOfFuel.
Arguments Ret {A} a.
Arguments Panic {A} msg.
Arguments OutOfFuel {A}.

Definition obind {A B} (x : outcome A) (k : A -> outcome B) : outcome B :=
  match x with
  | Ret a => k a
  | Panic msg => Panic msg
  | OutOfFuel => OutOfFuel
  end.

Declare Scope go_scope.
Delimit Scope go_scope with go.
Notation "'let*' x ':=' c 'in' k" := (obind c (fun x => k))
  (at level 10, x name, c at level 100, k at level 200) : go_scope.
Notation "'let*' ' p ':=' c 'in' k" := (obind c (fun p => k))
  (at level 10, p strict pattern, c at level 100, k at level 200) : go_scope.

(** ** Byte strings *)

Module GoString.

(** [len(s)] *)
Definition len (s : string) : Z := Z.of_nat (String.length s).

Fixpoint take (n : nat) (s : string) : string :=
  match n, s with
  | S n', String c s' => String c (take n' s')
  | _, _ => EmptyString
  end.

Fixpoint drop (n : nat) (s : string) : string :=
  match n, s with
  | S n', String _ s' => drop n' s'
  | _, _ => s
  end.

(** [s[lo:hi]]: Go panics unless [0 <= lo <= hi <= len(s)]. *)
Definition slice (s : string) (lo hi : Z) : outcome string :=
  if (0 <=? lo) && (lo <=? hi) && (hi <=? len s)
  then Ret (take (Z.to_nat (hi - lo)) (drop (Z.to_nat lo) s))
  else Panic "slice bounds out of range".

(** [s[lo:]] *)
Definition slice_from (s : string) (lo : Z) : outcome string :=
  slice s lo (len s).

(** [s[i]]: Go panics unless [0 <= i < len(s)]. *)
Definition index (s : string) (i : Z) : outcome ascii :=
  if (0 <=? i) && (i <? len s)
  then match String.get (Z.to_nat i) s with
       | Some c => Ret c
       | None => Panic "index out of range"
       end
  else Panic "index out of range".

Definition eqb_byte (a b : ascii) : bool := Ascii.eqb a b.

(** [strings.HasPrefix(s, p)] *)
Fixpoint has_prefix (p s : string) : bool :=
  match p, s with
  | EmptyString, _ => true
  | String a p', String b s' => Ascii.eqb a b && has_prefix p' s'
  | String _ _, EmptyString => false
  end.

(** [strings.Index(s, substr)]: the index of the first instance of
    [substr] in [s], or [-1]. *)
Fixpoint Index_from (s substr : string) (i : Z) : Z :=
  if has_prefix substr s then i
  else match s with
       | EmptyString => -1
       | String _ s' => Index_from s' substr (i + 1)
       end.

Definition Index (s substr : string) : Z := Index_from s substr 0.

(** [strings.Contains(s, substr)] *)
Definition Contains (s substr : string) : bool := 0 <=? Index s substr.

End GoString.
Import GoString.

(** ** utils.go: the response extractor *)

Local Open Scope go_scope.

(** The loop [for i := start; i < len(s); i++] of [extractFirstJSON];
    [n] is the number of iterations left, [len(s) - i]. *)
Fixpoint extractFirstJSON_loop (s : string) (start : Z) (n : nat)
    (i depth : Z) : outcome string :=
  match n with
  | O => Ret EmptyString
  | S n' =>
      let* c := index s i in
      if eqb_byte c "{" then
        extractFirstJSON_loop s start n' (i + 1) (depth + 1)
      else if eqb_byte c "}" then
        let depth := depth - 1 in
        if depth =? 0 then slice s start (i + 1)
        else extractFirstJSON_loop s start n' (i + 1) depth
      else extractFirstJSON_loop s start n' (i + 1) depth
  end.

Definition extractFirstJSON (s : string) : outcome string :=
  let start := Index s "{" in
  if start =? -1 then Ret EmptyString
  else extractFirstJSON_loop s start (Z.to_nat (len s - start)) start 0.

(** ** The A2A client: splitting the combined log context *)

Definition stableMarker : string := "--- STABLE LOGS ---".
Definition canaryMarker : string := "--- CANARY LOGS ---".

(** The loop [for i := 0; i <= len(s)-len(substr); i++] of [findIndex];
    [n] is the number of iterations left. *)
Fixpoint findIndex_loop (s substr : string) (n : nat) (i : Z) : outcome Z :=
  match n with
  | O => Ret (-1)
  | S n' =>
      let* w := slice s i (i + len substr) in
      if String.eqb w substr then Ret i
      else findIndex_loop s substr n' (i + 1)
  end.

Definition findIndex (s substr : string) : outcome Z :=
  findIndex_loop s substr (Z.to_nat (len s - len substr + 1)) 0.

Definition splitLogs (logsContext : string) : outcome (string * string) :=
  let* stableIdx := findIndex logsContext stableMarker in
  let* canaryIdx := findIndex logsContext canaryMarker in
  if (stableIdx =? -1) || (canaryIdx =? -1) then
    Ret (logsContext, EmptyString)
  else
    let* stableLogs := slice logsContext (stableIdx + len stableMarker) canaryIdx in
    let* canaryLogs := slice_from logsContext (canaryIdx + len canaryMarker) in
    Ret (stableLogs, canaryLogs).

(** ** Go's numeric types and their formatting *)

(** [fmt.Sprintf("%d", n)] and [strconv.Itoa(n)] *)
Definition itoa (n : Z) : string :=
  DecimalString.NilZero.string_of_int (Z.to_int n).

Module Float64.

Definition prec : Z := 53.
Definition emax : Z := 1024.

Definition float64 : Type := spec_float.

(** The conversion [float64(n)] of an integer. *)
Definition of_int (n : Z) : float64 := binary_normalize prec emax n 0 false.

Definition add : float64 -> float64 -> float64 := SFadd prec emax.
Definition sub : float64 -> float64 -> float64 := SFsub prec emax.
Definition mul : float64 -> float64 -> float64 := SFmul prec emax.
Definition div : float64 -> float64 -> float64 := SFdiv prec emax.
Definition eqb : float64 -> float64 -> bool := SFeqb.
Definition geb (x y : float64) : bool := SFleb y x.

(** A decimal constant [num/den] of the source text, such as [0.1]:
    the compiler rounds it to the nearest [float64]. *)
Definition of_ratio (num den : Z) : float64 := div (of_int num) (of_int den).

(** The conversion [int64(x)] (and [time.Duration(x)]): truncation
    toward zero. *)
Definition to_int (x : float64) : Z :=
  match x with
  | S754_finite s m e =>
      let v := if 0 <=? e then Z.pos m * 2 ^ e else Z.pos m / 2 ^ (- e) in
      if s then - v else v
  | _ => 0
  end.

(** [x * 10^digits] rounded to an integer, ties to even: the rounding
    [strconv] applies to the exact decimal expansion of [x]. *)
Definition round_scaled (digits : Z) (m : positive) (e : Z) : Z :=
  let num := Z.pos m * 10 ^ digits in
  if 0 <=? e then num * 2 ^ e
  else
    let den := 2 ^ (- e) in
    let q := num / den in
    let r := num mod den in
    if den <? 2 * r then q + 1
    else if (2 * r =? den) && Z.odd q then q + 1
    else q.

Definition pad2 (n : Z) : string :=
  if n <? 10 then "0" +:+ itoa n else itoa n.

(** [fmt.Sprintf("%.2f", x)] *)
Definition Sprintf_2f (x : float64) : string :=
  match x with
  | S754_zero s => (if s then "-" else "") +:+ "0.00"
  | S754_infinity s => if s then "-Inf" else "+Inf"
  | S754_nan => "NaN"
  | S754_finite s m e =>
      let n := round_scaled 2 m e in
      (if s then "-" else "") +:+ itoa (n / 100) +:+ "." +:+ pad2 (n mod 100)
  end.

End Float64.

(** ** The Go standard library, as far as the package uses it *)

Module GoLib.

Definition byte_val (c : ascii) : Z := Z.of_N (N_of_ascii c).
Definition byte_of (n : Z) : ascii := ascii_of_N (Z.to_N n).

Definition in_range (lo hi : Z) (c : ascii) : bool :=
  (lo <=? byte_val c) && (byte_val c <=? hi).

Definition is_digit (c : ascii) : bool := in_range 48 57 c.

Fixpoint rev_string (s acc : string) : string :=
  match s with
  | EmptyString => acc
  | String c s' => rev_string s' (String c acc)
  end.

(** *** strings.TrimSpace *)

(** The white space of [unicode.IsSpace], in UTF-8: the six ASCII
    characters, U+0085, U+00A0, U+1680, U+2000..U+200A, U+2028, U+2029,
    U+202F, U+205F and U+3000.  The result is the number of bytes of
    the white-space character the string starts with, [0] when there
    is none. *)
Definition leading_space (s : string) : nat :=
  match s with
  | String c0 r0 =>
      let b0 := byte_val c0 in
      if in_range 9 13 c0 || (b0 =? 32) then 1%nat
      else match r0 with
      | String c1 r1 =>
          let b1 := byte_val c1 in
          if (b0 =? 194) && ((b1 =? 133) || (b1 =? 160)) then 2%nat
          else match r1 with
          | String c2 _ =>
              let b2 := byte_val c2 in
              if (b0 =? 225) && (b1 =? 154) && (b2 =? 128) then 3%nat
              else if (b0 =? 226) && (b1 =? 128)
                      && (in_range 128 138 c2 || in_range 168 169 c2
                          || (b2 =? 175)) then 3%nat
              else if (b0 =? 226) && (b1 =? 129) && (b2 =? 159) then 3%nat
              else if (b0 =? 227) && (b1 =? 128) && (b2 =? 128) then 3%nat
              else 0%nat
          | EmptyString => 0%nat
          end
      | EmptyString => 0%nat
      end
  | EmptyString => 0%nat
  end.

(** The same for the character a string ends with; [r] is the string
    reversed. *)
Definition trailing_space (r : string) : nat :=
  match r with
  | String c0 r0 =>
      if in_range 9 13 c0 || (byte_val c0 =? 32) then 1%nat
      else match r0 with
      | String c1 r1 =>
          if (leading_space (String c1 (String c0 EmptyString)) =? 2)%nat
          then 2%nat
          else match r1 with
          | String c2 _ =>
              if (leading_space
                    (String c2 (String c1 (String c0 EmptyString))) =? 3)%nat
              then 3%nat else 0%nat
          | EmptyString => 0%nat
          end
      | EmptyString => 0%nat
      end
  | EmptyString => 0%nat
  end.

Fixpoint trim_with (space : string -> nat) (fuel : nat) (s : string)
    : string :=
  match fuel with
  | O => s
  | S fuel' =>
      match space s with
      | O => s
      | n => trim_with space fuel' (drop n s)
      end
  end.

Definition TrimLeft (s : string) : string :=
  trim_with leading_space (String.length s) s.

Definition TrimRight (s : string) : string :=
  rev_string
    (trim_with trailing_space (String.length s) (rev_string s "")) "".

Definition TrimSpace (s : string) : string := TrimRight (TrimLeft s).

(** *** time.ParseDuration *)

Definition Nanosecond : Z := 1.
Definition Microsecond : Z := 1000 * Nanosecond.
Definition Millisecond : Z := 1000 * Microsecond.
Definition Second : Z := 1000 * Millisecond.
Definition Minute : Z := 60 * Second.
Definition Hour : Z := 60 * Minute.

Definition two63 : Z := 2 ^ 63.

Definition unitMap (u : string) : option Z :=
  if String.eqb u "ns" then Some Nanosecond
  else if String.eqb u "us" then Some Microsecond
  else if String.eqb u (String (byte_of 194) (String (byte_of 181) "s"))
    then Some Microsecond (* U+00B5 *)
  else if String.eqb u (String (byte_of 206) (String (byte_of 188) "s"))
    then Some Microsecond (* U+03BC *)
  else if String.eqb u "ms" then Some Millisecond
  else if String.eqb u "s" then Some Second
  else if String.eqb u "m" then Some Minute
  else if String.eqb u "h" then Some Hour
  else None.

(** [leadingInt]: the leading digits of [s] as a number, with the rest
    of the string; [None] on overflow. *)
Fixpoint leadingInt (s : string) (x : Z) : option (Z * string) :=
  match s with
  | String c s' =>
      if is_digit c then
        if two63 / 10 <? x then None
        else
          let x := x * 10 + (byte_val c - 48) in
          if two63 <? x then None else leadingInt s' x
      else Some (x, s)
  | EmptyString => Some (x, s)
  end.

(** [leadingFraction]: the leading digits of [s] as the numerator [x]
    of a fraction of denominator [scale]; digits past the precision of
    [x] are dropped. *)
Fixpoint leadingFraction (s : string) (x : Z) (scale : Float64.float64)
    (overflow : bool) : Z * Float64.float64 * string :=
  match s with
  | String c s' =>
      if is_digit c then
        if overflow then leadingFraction s' x scale overflow
        else if (two63 - 1) / 10 <? x then leadingFraction s' x scale true
        else
          let y := x * 10 + (byte_val c - 48) in
          if two63 <? y then leadingFraction s' x scale true
          else leadingFraction s' y
                 (Float64.mul scale (Float64.of_int 10)) false
      else (x, scale, s)
  | EmptyString => (x, scale, s)
  end.

(** The unit of a term: the bytes up to the next digit or period. *)
Fixpoint unit_span (s : string) : string * string :=
  match s with
  | String c s' =>
      if Ascii.eqb c "." || is_digit c then (EmptyString, s)
      else let '(u, r) := unit_span s' in (String c u, r)
  | EmptyString => (EmptyString, EmptyString)
  end.

(** The loop [for s != ...] of [ParseDuration], one term (digits, an
    optional fraction, a unit) an iteration; [d] is the sum so far. *)
Fixpoint ParseDuration_loop (fuel : nat) (s : string) (d : Z) : option Z :=
  match s with
  | EmptyString => Some d
  | String c0 _ =>
      match fuel with
      | O => None
      | S fuel' =>
          if negb (Ascii.eqb c0 "." || is_digit c0) then None
          else
            match leadingInt s 0 with
            | None => None
            | Some (v, s1) =>
                let pre := negb (String.length s =? String.length s1)%nat in
                let '(f, scale, s2, post) :=
                  match s1 with
                  | String "." s1' =>
                      let '(f, scale, s2) :=
                        leadingFraction s1' 0 (Float64.of_int 1) false in
                      (f, scale, s2,
                       negb (String.length s1' =? String.length s2)%nat)
                  | _ => (0, Float64.of_int 1, s1, false)
                  end in
                if negb pre && negb post then None
                else
                  let '(u, s3) := unit_span s2 in
                  if String.eqb u "" then None
                  else
                    match unitMap u with
                    | None => None
                    | Some unit =>
                        if two63 / unit <? v then None
                        else
                          let v := v * unit in
                          let v :=
                            if 0 <? f then
                              v + Float64.to_int
                                    (Float64.mul (Float64.of_int f)
                                       (Float64.div (Float64.of_int unit)
                                          scale))
                            else v in
                          if (0 <? f) && (two63 <? v) then None
                          else
                            let d := d + v in
                            if two63 <? d then None
                            else ParseDuration_loop fuel' s3 d
                    end
            end
      end
  end.

(** [time.ParseDuration(s)]: the duration in nanoseconds, [None] when
    the call returns an error. *)
Definition ParseDuration (s : string) : option Z :=
  let '(neg, s') :=
    match s with
    | String c r =>
        if Ascii.eqb c "-" then (true, r)
        else if Ascii.eqb c "+" then (false, r)
        else (false, s)
    | EmptyString => (false, s)
    end in
  if String.eqb s' "0" then Some 0
  else if String.eqb s' "" then None
  else
    match ParseDuration_loop (String.length s') s' 0 with
    | None => None
    | Some d =>
        if neg then Some (- d)
        else if two63 - 1 <? d then None
        else Some d
    end.

End GoLib.

(** ** encoding/json: the decoder *)

Module GoJSON.
Import GoLib.

(** A JSON value as the decoder sees it: a number keeps its literal
    text, a string is unquoted, an object keeps its members in the
    order of the text (a later duplicate key is decoded last). *)
Inductive json : Type :=
| JNull
| JBool (b : bool)
| JNumber (lit : string)
| JString (s : string)
| JArray (elems : list json)
| JObject (members : list (string * json)).

Definition dquote : ascii := byte_of 34.
Definition backslash : ascii := byte_of 92.

Definition is_ws (c : ascii) : bool :=
  let b := byte_val c in (b =? 32) || (b =? 9) || (b =? 13) || (b =? 10).

Fixpoint skip_ws (s : string) : string :=
  match s with
  | String c s' => if is_ws c then skip_ws s' else s
  | EmptyString => s
  end.

(** *** Strings: [unquote] *)

Definition hex_val (c : ascii) : option Z :=
  if is_digit c then Some (byte_val c - 48)
  else if in_range 97 102 c then Some (byte_val c - 87)
  else if in_range 65 70 c then Some (byte_val c - 55)
  else None.

(** [getu4]: the code unit of the four hexadecimal digits [s] starts
    with. *)
Definition hex4 (s : string) : option (Z * string) :=
  match s with
  | String a (String b (String c (String d r))) =>
      match hex_val a, hex_val b, hex_val c, hex_val d with
      | Some x, Some y, Some z, Some w =>
          Some (((x * 16 + y) * 16 + z) * 16 + w, r)
      | _, _, _, _ => None
      end
  | _ => None
  end.

Definition is_cont (c : ascii) : bool := in_range 128 191 c.

(** [utf8.DecodeRune]: the number of bytes of the well-formed UTF-8
    sequence [s] starts with, [0] when there is none. *)
Definition utf8_len (s : string) : nat :=
  match s with
  | String c0 (String c1 r1) =>
      let b0 := byte_val c0 in
      if in_range 194 223 c0 then (if is_cont c1 then 2 else 0)%nat
      else match r1 with
      | String c2 r2 =>
          if in_range 224 239 c0 then
            if (if b0 =? 224 then in_range 160 191 c1
                else if b0 =? 237 then in_range 128 159 c1
                else is_cont c1) && is_cont c2
            then 3%nat else 0%nat
          else if in_range 240 244 c0 then
            match r2 with
            | String c3 _ =>
                if (if b0 =? 240 then in_range 144 191 c1
                    else if b0 =? 244 then in_range 128 143 c1
                    else is_cont c1) && is_cont c2 && is_cont c3
                then 4%nat else 0%nat
            | EmptyString => 0%nat
            end
          else 0%nat
      | EmptyString => 0%nat
      end
  | _ => 0%nat
  end.

(** [utf8.EncodeRune] *)
Definition utf8_encode (r : Z) : string :=
  if r <? 128 then String (byte_of r) EmptyString
  else if r <? 2048 then
    String (byte_of (192 + r / 64))
      (String (byte_of (128 + r mod 64)) EmptyString)
  else if r <? 65536 then
    String (byte_of (224 + r / 4096))
      (String (byte_of (128 + (r / 64) mod 64))
         (String (byte_of (128 + r mod 64)) EmptyString))
  else
    String (byte_of (240 + r / 262144))
      (String (byte_of (128 + (r / 4096) mod 64))
         (String (byte_of (128 + (r / 64) mod 64))
            (String (byte_of (128 + r mod 64)) EmptyString))).

Definition ReplacementChar : Z := 65533.

Definition is_surrogate (r : Z) : bool := (55296 <=? r) && (r <? 57344).

(** [utf16.DecodeRune] *)
Definition utf16_decode (r1 r2 : Z) : Z :=
  if (55296 <=? r1) && (r1 <? 56320) && (56320 <=? r2) && (r2 <? 57344)
  then (r1 - 55296) * 1024 + (r2 - 56320) + 65536
  else ReplacementChar.

(** The body of a string literal, after the opening quote: the unquoted
    text and the rest past the closing quote; [None] where the scanner
    reports a syntax error. *)
Fixpoint scan_string (fuel : nat) (s : string) : option (string * string) :=
  match fuel with
  | O => None
  | S fuel' =>
      match s with
      | EmptyString => None
      | String c r =>
          if Ascii.eqb c dquote then Some (EmptyString, r)
          else if Ascii.eqb c backslash then
            match r with
            | String e r' =>
                let simple (b : Z) :=
                  match scan_string fuel' r' with
                  | Some (t, rest) => Some (String (byte_of b) t, rest)
                  | None => None
                  end in
                if Ascii.eqb e dquote then simple 34
                else if Ascii.eqb e backslash then simple 92
                else if Ascii.eqb e "/" then simple 47
                else if Ascii.eqb e "b" then simple 8
                else if Ascii.eqb e "f" then simple 12
                else if Ascii.eqb e "n" then simple 10
                else if Ascii.eqb e "r" then simple 13
                else if Ascii.eqb e "t" then simple 9
                else if Ascii.eqb e "u" then
                  match hex4 r' with
                  | None => None
                  | Some (rr, r2) =>
                      let '(rune, r3) :=
                        if is_surrogate rr then
                          match r2 with
                          | String b1 (String u1 r2') =>
                              if Ascii.eqb b1 backslash && Ascii.eqb u1 "u"
                              then
                                match hex4 r2' with
                                | Some (rr1, r4) =>
                                    if utf16_decode rr rr1
                                       =? ReplacementChar
                                    then (ReplacementChar, r2)
                                    else (utf16_decode rr rr1, r4)
                                | None => (ReplacementChar, r2)
                                end
                              else (ReplacementChar, r2)
                          | _ => (ReplacementChar, r2)
                          end
                        else (rr, r2) in
                      match scan_string fuel' r3 with
                      | Some (t, rest) => Some (utf8_encode rune +:+ t, rest)
                      | None => None
                      end
                  end
                else None
            | EmptyString => None
            end
          else if byte_val c <? 32 then None
          else if byte_val c <? 128 then
            match scan_string fuel' r with
            | Some (t, rest) => Some (String c t, rest)
            | None => None
            end
          else
            match utf8_len s with
            | O =>
                match scan_string fuel' r with
                | Some (t, rest) =>
                    Some (utf8_encode ReplacementChar +:+ t, rest)
                | None => None
                end
            | n =>
                match scan_string fuel' (drop n s) with
                | Some (t, rest) => Some (take n s +:+ t, rest)
                | None => None
                end
            end
      end
  end.

(** *** Numbers *)

Fixpoint span_digits (s : string) : string * string :=
  match s with
  | String c s' =>
      if is_digit c then let '(d, r) := span_digits s' in (String c d, r)
      else (EmptyString, s)
  | EmptyString => (EmptyString, EmptyString)
  end.

(** A number literal: an optional minus sign, an integer part with no
    leading zero, an optional fraction and an optional exponent. *)
Definition scan_number (s : string) : option (string * string) :=
  let '(sign, s1) :=
    match s with
    | String "-" r => ("-", r)
    | _ => (EmptyString, s)
    end in
  match s1 with
  | String c r =>
      if negb (is_digit c) then None
      else
        let '(int_part, s2) :=
          if Ascii.eqb c "0" then ("0", r) else span_digits s1 in
        let frac :=
          match s2 with
          | String "." r2 =>
              let '(d, s3) := span_digits r2 in
              if String.eqb d EmptyString then None
              else Some ("." +:+ d, s3)
          | _ => Some (EmptyString, s2)
          end in
        match frac with
        | None => None
        | Some (frac_part, s3) =>
            let exp :=
              match s3 with
              | String e r3 =>
                  if Ascii.eqb e "e" || Ascii.eqb e "E" then
                    let '(esign, r4) :=
                      match r3 with
                      | String "+" r' => ("+", r')
                      | String "-" r' => ("-", r')
                      | _ => (EmptyString, r3)
                      end in
                    let '(d, s4) := span_digits r4 in
                    if String.eqb d EmptyString then None
                    else Some (String e esign +:+ d, s4)
                  else Some (EmptyString, s3)
              | EmptyString => Some (EmptyString, s3)
              end in
            match exp with
            | None => None
            | Some (exp_part, s4) =>
                Some (sign +:+ int_part +:+ frac_part +:+ exp_part, s4)
            end
        end
  | EmptyString => None
  end.

(** *** Values *)

Definition maxNestingDepth : Z := 10000.

(** One JSON value at the start of [s] (after white space), and the
    rest of the text. *)
Fixpoint scan_value (fuel : nat) (depth : Z) (s : string)
    : option (json * string) :=
  match fuel with
  | O => None
  | S fuel' =>
      match skip_ws s with
      | EmptyString => None
      | String c r =>
          if Ascii.eqb c "{" then
            if maxNestingDepth <? depth + 1 then None
            else
              match skip_ws r with
              | String "}" r' => Some (JObject [], r')
              | _ =>
                  match scan_members fuel' (depth + 1) r with
                  | Some (ms, r') => Some (JObject ms, r')
                  | None => None
                  end
              end
          else if Ascii.eqb c "[" then
            if maxNestingDepth <? depth + 1 then None
            else
              match skip_ws r with
              | String "]" r' => Some (JArray [], r')
              | _ =>
                  match scan_elems fuel' (depth + 1) r with
                  | Some (es, r') => Some (JArray es, r')
                  | None => None
                  end
              end
          else if Ascii.eqb c dquote then
            match scan_string (S (String.length r)) r with
            | Some (t, r') => Some (JString t, r')
            | None => None
            end
          else if Ascii.eqb c "-" || is_digit c then
            match scan_number (String c r) with
            | Some (lit, r') => Some (JNumber lit, r')
            | None => None
            end
          else if has_prefix "true" (String c r) then
            Some (JBool true, drop 4 (String c r))
          else if has_prefix "false" (String c r) then
            Some (JBool false, drop 5 (String c r))
          else if has_prefix "null" (String c r) then
            Some (JNull, drop 4 (String c r))
          else None
      end
  end

(** The members of an object, from a key to the closing brace. *)
with scan_members (fuel : nat) (depth : Z) (s : string)
    : option (list (string * json) * string) :=
  match fuel with
  | O => None
  | S fuel' =>
      match skip_ws s with
      | String c r =>
          if Ascii.eqb c dquote then
            match scan_string (S (String.length r)) r with
            | Some (key, r1) =>
                match skip_ws r1 with
                | String ":" r2 =>
                    match scan_value fuel' depth r2 with
                    | Some (v, r3) =>
                        match skip_ws r3 with
                        | String "," r4 =>
                            match scan_members fuel' depth r4 with
                            | Some (ms, r5) => Some ((key, v) :: ms, r5)
                            | None => None
                            end
                        | String "}" r4 => Some ([(key, v)], r4)
                        | _ => None
                        end
                    | None => None
                    end
                | _ => None
                end
            | None => None
            end
          else None
      | EmptyString => None
      end
  end

(** The elements of an array, from a value to the closing bracket. *)
with scan_elems (fuel : nat) (depth : Z) (s : string)
    : option (list json * string) :=
  match fuel with
  | O => None
  | S fuel' =>
      match scan_value fuel' depth s with
      | Some (v, r1) =>
          match skip_ws r1 with
          | String "," r2 =>
              match scan_elems fuel' depth r2 with
              | Some (es, r3) => Some (v :: es, r3)
              | None => None
              end
          | String "]" r2 => Some ([v], r2)
          | _ => None
          end
      | None => None
      end
  end.

Definition scan_fuel (s : string) : nat := (2 * String.length s + 2)%nat.

(** [checkValid] and the scan of [Unmarshal]: the whole of [data] is
    one JSON value, white space around it. *)
Definition parse (data : string) : option json :=
  match scan_value (scan_fuel data) 0 data with
  | Some (v, rest) =>
      match skip_ws rest with
      | EmptyString => Some v
      | String _ _ => None
      end
  | None => None
  end.

(** The first value read by a [Decoder] from a stream. *)
Definition parse_first (data : string) : option json :=
  match scan_value (scan_fuel data) 0 data with
  | Some (v, _) => Some v
  | None => None
  end.

End GoJSON.

Import GoLib GoJSON.

(** ** Errors *)

(** google.golang.org/genai: the pointers of the Go structs are options,
    [None] being [nil]; [Details] is a list of [map[string]any], the
    dynamic values being those of a decoded JSON text. *)
Module genai.
Record APIError : Type := mkAPIError {
  Code : Z;
  Message : string;
  Status : string;
  Details : list (gmap string json)
}.

Record Part : Type := mkPart { Text : string }.
Record Content : Type := mkContent { Parts : list (option Part) }.
Record Candidate : Type := mkCandidate { Content_ : option Content }.
Record GenerateContentResponse : Type := mkResponse {
  Candidates : list (option Candidate)
}.
End genai.

(** The values of the interface [error] that reach this package. *)
Inductive error : Type :=
| ErrAPI (e : genai.APIError)                  (* a [genai.APIError] value *)
| ErrPermanent (inner : error)           (* [*backoff.PermanentError] *)
| ErrWrap (text : string) (inner : error)  (* [fmt.Errorf] with [%w] *)
| ErrNotFound (text : string)            (* a k8s status error, reason NotFound *)
| ErrCanceled                            (* [context.Canceled] *)
| ErrSyntax                              (* [*json.SyntaxError] *)
| ErrUnmarshalType (field : string)      (* [*json.UnmarshalTypeError] *)
| ErrorString (text : string).           (* [errors.New], [fmt.Errorf], any other *)

(** [errors.IsNotFound(err)] of k8s.io/apimachinery: the reason of the
    status error found by unwrapping. *)
Fixpoint IsNotFound (err : error) : bool :=
  match err with
  | ErrNotFound _ => true
  | ErrWrap _ inner => IsNotFound inner
  | ErrPermanent inner => IsNotFound inner
  | _ => false
  end.

(** [backoff.Permanent(err)] *)
Definition Permanent (err : error) : error := ErrPermanent err.

(** ** encoding/json: decoding into the structs of the package *)

(** [foldName]: a key and a field name match when they are equal under
    Unicode simple case folding; of the characters outside ASCII only
    U+017F and U+212A fold to an ASCII letter. *)
Fixpoint foldName (s : string) : string :=
  match s with
  | EmptyString => EmptyString
  | String c0 r0 =>
      if in_range 97 122 c0 then String (byte_of (byte_val c0 - 32)) (foldName r0)
      else
        match r0 with
        | String c1 r1 =>
            if (byte_val c0 =? 197) && (byte_val c1 =? 191)
            then String "S" (foldName r1)
            else
              match r1 with
              | String c2 r2 =>
                  if (byte_val c0 =? 226) && (byte_val c1 =? 132)
                     && (byte_val c2 =? 170)
                  then String "K" (foldName r2)
                  else String c0 (foldName r0)
              | EmptyString => String c0 (foldName r0)
              end
        | EmptyString => String c0 EmptyString
        end
  end.

Definition key_is (key field : string) : bool :=
  String.eqb (foldName key) (foldName field).

(** [strconv.ParseInt(lit, 10, 64)] on a JSON number literal. *)
Definition parse_int (lit : string) : option Z :=
  let '(neg, body) :=
    match lit with
    | String "-" r => (true, r)
    | _ => (false, lit)
    end in
  let '(d, rest) := span_digits body in
  if String.eqb d EmptyString || negb (String.eqb rest EmptyString) then None
  else
    match leadingInt d 0 with
    | Some (n, _) =>
        let v := if neg then - n else n in
        if (- two63 <=? v) && (v <? two63) then Some v else None
    | None => None
    end.

(** A JSON value stored into a field: the new content of the field, and
    whether an [UnmarshalTypeError] was saved.  [null] leaves a field of
    these kinds as it is. *)
Definition store_string (v : json) (cur : string) : string * bool :=
  match v with
  | JString s => (s, false)
  | JNull => (cur, false)
  | _ => (cur, true)
  end.

Definition store_bool (v : json) (cur : bool) : bool * bool :=
  match v with
  | JBool b => (b, false)
  | JNull => (cur, false)
  | _ => (cur, true)
  end.

Definition store_int (v : json) (cur : Z) : Z * bool :=
  match v with
  | JNumber lit =>
      match parse_int lit with
      | Some n => (n, false)
      | None => (cur, true)
      end
  | JNull => (cur, false)
  | _ => (cur, true)
  end.

Section Unmarshal.
Context {T : Type}.
(** [store key v obj]: the member [key: v] decoded into the struct. *)
Variable store : string -> json -> T -> T * bool.

(** The members of an object decoded one after the other; the decoder
    goes on after a type error and reports the first one at the end. *)
Fixpoint decode_members (ms : list (string * json)) (obj : T)
    (err : option error) : T * option error :=
  match ms with
  | [] => (obj, err)
  | (key, v) :: ms' =>
      let '(obj', bad) := store key v obj in
      decode_members ms' obj'
        (match err with
         | Some e => Some e
         | None => if bad then Some (ErrUnmarshalType key) else None
         end)
  end.

Definition decode_value (v : json) (obj : T) : T * option error :=
  match v with
  | JObject ms => decode_members ms obj None
  | JNull => (obj, None)
  | _ => (obj, Some (ErrUnmarshalType EmptyString))
  end.

(** [json.Unmarshal(data, &obj)]: a text that is not valid JSON leaves
    [obj] untouched. *)
Definition Unmarshal (data : string) (obj : T) : T * option error :=
  match parse data with
  | None => (obj, Some ErrSyntax)
  | Some v => decode_value v obj
  end.

(** [json.NewDecoder(r).Decode(&obj)] on a stream whose content is
    [data]. *)
Definition Decode (data : string) (obj : T) : T * option error :=
  match parse_first data with
  | None => (obj, Some ErrSyntax)
  | Some v => decode_value v obj
  end.
End Unmarshal.

(** ** utils.go: the data model *)

Definition typeURLRetryInfo : string :=
  "type.googleapis.com/google.rpc.RetryInfo".
Definition typeURLQuotaFailure : string :=
  "type.googleapis.com/google.rpc.QuotaFailure".

(** [AIAnalysisResult] *)
Record AIAnalysisResult : Type := mkAIAnalysisResult {
  Text : string;
  Promote : bool;
  Confidence : Z
}.

(** The zero value [AIAnalysisResult{}]. *)
Definition AIAnalysisResult_zero : AIAnalysisResult :=
  {| Text := EmptyString; Promote := false; Confidence := 0 |}.

(** [AIAnalysisParams] *)
Record AIAnalysisParams : Type := mkAIAnalysisParams {
  ModelName : string;
  LogsContext : string;
  ExtraPrompt : string
}.

(** The fields of [AIAnalysisResult] by their [json] tags. *)
Definition store_AIAnalysisResult (key : string) (v : json)
    (obj : AIAnalysisResult) : AIAnalysisResult * bool :=
  if key_is key "text" then
    let '(x, bad) := store_string v (Text obj) in
    ({| Text := x; Promote := Promote obj; Confidence := Confidence obj |}, bad)
  else if key_is key "promote" then
    let '(x, bad) := store_bool v (Promote obj) in
    ({| Text := Text obj; Promote := x; Confidence := Confidence obj |}, bad)
  else if key_is key "confidence" then
    let '(x, bad) := store_int v (Confidence obj) in
    ({| Text := Text obj; Promote := Promote obj; Confidence := x |}, bad)
  else (obj, false).

Definition Unmarshal_AIAnalysisResult
  : string -> AIAnalysisResult -> AIAnalysisResult * option error :=
  Unmarshal store_AIAnalysisResult.

(** ** The world outside the process *)

(** The calls that leave the process, in the order they are made. *)
Inductive Event : Type :=
| EvPodsList (namespace selector : string)     (* k8s: list pods *)
| EvPodLogs (namespace pod : string)           (* k8s: read the logs of a pod *)
| EvSecretGet (namespace name : string)        (* k8s: read a secret *)
| EvGenerateContent (model prompt : string)    (* Gemini: one model call *)
| EvHTTPGet (url : string)                     (* agent: health probe *)
| EvHTTPPost (url body : string)               (* agent: analyze request *)
| EvCreateIssue (logs analysis repo : string)  (* GitHub: open an issue *)
| EvSleep (d : Z).                             (* a timer wait *)


(** One answer of [client.Models.GenerateContent]. *)
Record GenResult : Type := mkGenResult {
  gen_resp : option genai.GenerateContentResponse;
  gen_err : option error;
  gen_elapsed : Z
}.

(** What the collaborators answer, and the library functions the model
    leaves uninterpreted. *)
Record Env : Type := mkEnv {
  (* k8s.io/client-go *)
  InClusterConfig : option error;
  BuildConfigFromFlags : option error;
  ClientConfig : option error;
  NewForConfig : option error;
  PodsList : string -> string -> list string * option error;
  PodLogs : string -> string -> string * option error;
  SecretGet : string -> string -> gmap string string * option error;
  (* google.golang.org/genai *)
  NewClient : option error;
  GenerateContent : nat -> string -> string -> GenResult;
  (* math/rand, os, net/http *)
  rand_Float64 : nat -> Float64.float64;
  Getenv : string -> string;
  HTTPGet : string -> Z * option error;
  HTTPPost : string -> string -> Z * string * option error;
  (* the remediation collaborator, [createCanaryFailureIssue] *)
  createIssue : string -> string -> string -> string -> string -> option error;
  (* [json.Marshal] of a value, and the text of a library error *)
  Marshal : json -> string * option error;
  lib_error_text : error -> string
}.

Record World : Type := mkWorld {
  now : Z;                (* the clock, in nanoseconds *)
  trace : list Event;     (* the calls made so far, the latest first *)
  gen_calls : nat;        (* the calls of [GenerateContent] so far *)
  rand_calls : nat        (* the calls of [rand.Float64] so far *)
}.

(** A computation of the package: it reads and changes the world, and
    returns, panics or is cut short. *)
Definition M (A : Type) : Type := World -> outcome (A * World).

Definition mret {A} (a : A) : M A := fun w => Ret (a, w).

Definition mbind {A B} (c : M A) (k : A -> M B) : M B :=
  fun w =>
    match c w with
    | Ret (a, w') => k a w'
    | Panic msg => Panic msg
    | OutOfFuel => OutOfFuel
    end.

(** A pure computation that may panic. *)
Definition lift {A} (x : outcome A) : M A :=
  fun w =>
    match x with
    | Ret a => Ret (a, w)
    | Panic msg => Panic msg
    | OutOfFuel => OutOfFuel
    end.

Declare Scope m_scope.
Delimit Scope m_scope with M.
Notation "'let*' x ':=' c 'in' k" := (mbind c (fun x => k))
  (at level 10, x name, c at level 100, k at level 200) : m_scope.
Notation "'let*' ' p ':=' c 'in' k" := (mbind c (fun p => k))
  (at level 10, p strict pattern, c at level 100, k at level 200) : m_scope.

Definition emit (ev : Event) : M unit :=
  fun w => Ret (tt, {| now := now w; trace := ev :: trace w;
                       gen_calls := gen_calls w; rand_calls := rand_calls w |}).

Definition advance (d : Z) : M unit :=
  fun w => Ret (tt, {| now := now w + Z.max 0 d; trace := trace w;
                       gen_calls := gen_calls w; rand_calls := rand_calls w |}).

(** [time.Now()] *)
Definition time_Now : M Z := fun w => Ret (now w, w).

(** [context.Context]: the time at which the context is cancelled,
    [None] for [context.Background()]. *)
Definition Context : Type := option Z.
Definition Background : Context := None.

(** [ctx.Err()] at time [t] *)
Definition ctx_Err (ctx : Context) (t : Z) : option error :=
  match ctx with
  | Some cancelled => if cancelled <=? t then Some ErrCanceled else None
  | None => None
  end.

(** ** github.com/cenkalti/backoff/v5 *)

Module backoff.
Import Float64.

Record ExponentialBackOff : Type := mkExponentialBackOff {
  InitialInterval : Z;
  RandomizationFactor : float64;
  Multiplier : float64;
  MaxInterval : Z;
  currentInterval : Z
}.

Definition DefaultInitialInterval : Z := 500 * Millisecond.
Definition DefaultRandomizationFactor : float64 := of_ratio 1 2.
Definition DefaultMultiplier : float64 := of_ratio 3 2.
Definition DefaultMaxInterval : Z := 60 * Second.
Definition DefaultMaxElapsedTime : Z := 15 * Minute.
Definition Stop : Z := -1.

Definition NewExponentialBackOff : ExponentialBackOff :=
  {| InitialInterval := DefaultInitialInterval;
     RandomizationFactor := DefaultRandomizationFactor;
     Multiplier := DefaultMultiplier;
     MaxInterval := DefaultMaxInterval;
     currentInterval := 0 |}.

Definition set_InitialInterval (d : Z) (b : ExponentialBackOff) :=
  {| InitialInterval := d;
     RandomizationFactor := RandomizationFactor b;
     Multiplier := Multiplier b;
     MaxInterval := MaxInterval b;
     currentInterval := currentInterval b |}.

Definition set_MaxInterval (d : Z) (b : ExponentialBackOff) :=
  {| InitialInterval := InitialInterval b;
     RandomizationFactor := RandomizationFactor b;
     Multiplier := Multiplier b;
     MaxInterval := d;
     currentInterval := currentInterval b |}.

Definition set_Multiplier (x : float64) (b : ExponentialBackOff) :=
  {| InitialInterval := InitialInterval b;
     RandomizationFactor := RandomizationFactor b;
     Multiplier := x;
     MaxInterval := MaxInterval b;
     currentInterval := currentInterval b |}.

Definition set_RandomizationFactor (x : float64) (b : ExponentialBackOff) :=
  {| InitialInterval := InitialInterval b;
     RandomizationFactor := x;
     Multiplier := Multiplier b;
     MaxInterval := MaxInterval b;
     currentInterval := currentInterval b |}.

Definition set_currentInterval (d : Z) (b : ExponentialBackOff) :=
  {| InitialInterval := InitialInterval b;
     RandomizationFactor := RandomizationFactor b;
     Multiplier := Multiplier b;
     MaxInterval := MaxInterval b;
     currentInterval := d |}.

(** [b.Reset()] *)
Definition Reset (b : ExponentialBackOff) : ExponentialBackOff :=
  set_currentInterval (InitialInterval b) b.

(** [getRandomValueFromInterval]: a value of the interval
    [currentInterval * (1 ± randomizationFactor)]. *)
Definition getRandomValueFromInterval (randomizationFactor random : float64)
    (currentInterval : Z) : Z :=
  if eqb randomizationFactor (of_int 0) then currentInterval
  else
    let delta := mul randomizationFactor (of_int currentInterval) in
    let minInterval := sub (of_int currentInterval) delta in
    let maxInterval := add (of_int currentInterval) delta in
    to_int (add minInterval
              (mul random (add (sub maxInterval minInterval) (of_int 1)))).

(** [b.incrementCurrentInterval()] *)
Definition incrementCurrentInterval (b : ExponentialBackOff)
    : ExponentialBackOff :=
  if geb (of_int (currentInterval b))
         (div (of_int (MaxInterval b)) (Multiplier b))
  then set_currentInterval (MaxInterval b) b
  else set_currentInterval
         (to_int (mul (of_int (currentInterval b)) (Multiplier b))) b.

(** [b.NextBackOff()], given the value drawn from [rand.Float64()]. *)
Definition NextBackOff (random : float64) (b : ExponentialBackOff)
    : Z * ExponentialBackOff :=
  let b := if currentInterval b =? 0
           then set_currentInterval (InitialInterval b) b else b in
  let next := getRandomValueFromInterval (RandomizationFactor b) random
                (currentInterval b) in
  (next, incrementCurrentInterval b).

(** [errors.As(err, &permanent)]: the permanent error in the chain of
    [err], if any. *)
Fixpoint as_permanent (err : error) : option error :=
  match err with
  | ErrPermanent inner => Some inner
  | ErrWrap _ inner => as_permanent inner
  | _ => None
  end.

End backoff.

(** ** The engine *)

Definition nl : string := String (byte_of 10) EmptyString.

(** [concatCandidates]: a [nil] candidate, content or part is
    dereferenced by the loops. *)
Definition concatParts (parts : list (option genai.Part)) (b : string)
    : outcome string :=
  fold_left
    (fun acc part =>
       (let* b := acc in
        match part with
        | None => Panic "nil pointer dereference"
        | Some part =>
            if negb (String.eqb (genai.Text part) EmptyString)
            then Ret (b +:+ genai.Text part) else Ret b
        end)%go)
    parts (Ret b).

Definition concatCandidates (resp : option genai.GenerateContentResponse)
    : outcome string :=
  match resp with
  | None => Ret EmptyString
  | Some resp =>
      fold_left
        (fun acc cand =>
           (let* b := acc in
            match cand with
            | None => Panic "nil pointer dereference"
            | Some cand =>
                match genai.Content_ cand with
                | None => Panic "nil pointer dereference"
                | Some content => concatParts (genai.Parts content) b
                end
            end)%go)
        (genai.Candidates resp) (Ret EmptyString)
  end.

(** The type assertion [v.(string)] on a map entry, in its two-valued
    form. *)
Definition as_string (v : option json) : string * bool :=
  match v with
  | Some (JString s) => (s, true)
  | _ => (EmptyString, false)
  end.

(** The loop over [apiErr.Details] of [retryWithBackoff]: the wait the
    API asks for, [0] when it gives none.  The quota violations are only
    logged. *)
Definition apiWaitTime_of (details : list (gmap string json)) : Z :=
  fold_left
    (fun apiWaitTime detail =>
       let '(detailType, _) := as_string (detail !! "@type") in
       if String.eqb detailType typeURLRetryInfo then
         let '(retryDelayStr, ok) := as_string (detail !! "retryDelay") in
         if ok && negb (String.eqb retryDelayStr EmptyString) then
           match ParseDuration retryDelayStr with
           | Some parsed => parsed
           | None => apiWaitTime
           end
         else apiWaitTime
       else apiWaitTime)
    details 0.

(** The test of [retryWithBackoff] for a rate limit. *)
Definition StatusTooManyRequests : Z := 429.

Definition is_rate_limit (apiErr : genai.APIError) : bool :=
  (genai.Code apiErr =? StatusTooManyRequests)
  || String.eqb (genai.Status apiErr) "RESOURCE_EXHAUSTED".

(** The variables of [retryWithBackoff] its closure captures, next to
    those of the caller the operation captures. *)
Record retryVars (L : Type) : Type := mkRetryVars {
  captured : L;
  backoffConfig : backoff.ExponentialBackOff;
  lastErr : option error;
  attempt : Z
}.
Arguments mkRetryVars {L}.
Arguments captured {L}.
Arguments backoffConfig {L}.
Arguments lastErr {L}.
Arguments attempt {L}.

Definition set_backoffConfig {L} (b : backoff.ExponentialBackOff)
    (v : retryVars L) : retryVars L :=
  mkRetryVars (captured v) b (lastErr v) (attempt v).

(** [AnalysisPhase] of argo-rollouts *)
Inductive AnalysisPhase : Type :=
| AnalysisPhaseUnset
| AnalysisPhaseSuccessful
| AnalysisPhaseFailed
| AnalysisPhaseError.

(** [v1alpha1.Measurement] *)
Record Measurement : Type := mkMeasurement {
  Phase : AnalysisPhase;
  Message : string;
  StartedAt : option Z;
  FinishedAt : option Z;
  Value : string;
  Metadata : option (gmap string string)
}.

(** [aiConfig] *)
Record aiConfig : Type := mkAiConfig {
  Model : string;
  StableLabel : string;
  CanaryLabel : string;
  BaseBranch : string;
  GitHubURL : string;
  AnalysisMode : string;
  Namespace : string;
  PodName : string;
  ExtraPrompt_ : string
}.

Definition aiConfig_zero : aiConfig :=
  mkAiConfig EmptyString EmptyString EmptyString EmptyString EmptyString
    EmptyString EmptyString EmptyString EmptyString.

Definition store_aiConfig (key : string) (v : json) (c : aiConfig)
    : aiConfig * bool :=
  let upd (cur : string) (k : string -> aiConfig) :=
    let '(x, bad) := store_string v cur in (k x, bad) in
  if key_is key "model" then
    upd (Model c) (fun x => mkAiConfig x (StableLabel c) (CanaryLabel c)
      (BaseBranch c) (GitHubURL c) (AnalysisMode c) (Namespace c) (PodName c)
      (ExtraPrompt_ c))
  else if key_is key "stableLabel" then
    upd (StableLabel c) (fun x => mkAiConfig (Model c) x (CanaryLabel c)
      (BaseBranch c) (GitHubURL c) (AnalysisMode c) (Namespace c) (PodName c)
      (ExtraPrompt_ c))
  else if key_is key "canaryLabel" then
    upd (CanaryLabel c) (fun x => mkAiConfig (Model c) (StableLabel c) x
      (BaseBranch c) (GitHubURL c) (AnalysisMode c) (Namespace c) (PodName c)
      (ExtraPrompt_ c))
  else if key_is key "baseBranch" then
    upd (BaseBranch c) (fun x => mkAiConfig (Model c) (StableLabel c)
      (CanaryLabel c) x (GitHubURL c) (AnalysisMode c) (Namespace c)
      (PodName c) (ExtraPrompt_ c))
  else if key_is key "githubUrl" then
    upd (GitHubURL c) (fun x => mkAiConfig (Model c) (StableLabel c)
      (CanaryLabel c) (BaseBranch c) x (AnalysisMode c) (Namespace c)
      (PodName c) (ExtraPrompt_ c))
  else if key_is key "analysisMode" then
    upd (AnalysisMode c) (fun x => mkAiConfig (Model c) (StableLabel c)
      (CanaryLabel c) (BaseBranch c) (GitHubURL c) x (Namespace c)
      (PodName c) (ExtraPrompt_ c))
  else if key_is key "namespace" then
    upd (Namespace c) (fun x => mkAiConfig (Model c) (StableLabel c)
      (CanaryLabel c) (BaseBranch c) (GitHubURL c) (AnalysisMode c) x
      (PodName c) (ExtraPrompt_ c))
  else if key_is key "podName" then
    upd (PodName c) (fun x => mkAiConfig (Model c) (StableLabel c)
      (CanaryLabel c) (BaseBranch c) (GitHubURL c) (AnalysisMode c)
      (Namespace c) x (ExtraPrompt_ c))
  else if key_is key "extraPrompt" then
    upd (ExtraPrompt_ c) (fun x => mkAiConfig (Model c) (StableLabel c)
      (CanaryLabel c) (BaseBranch c) (GitHubURL c) (AnalysisMode c)
      (Namespace c) (PodName c) x)
  else (c, false).

(** [A2AResponse] *)
Record A2AResponse : Type := mkA2AResponse {
  Analysis : string;
  RootCause : string;
  Remediation : string;
  PRLink : string;
  A2APromote : bool;
  A2AConfidence : Z
}.

Definition A2AResponse_zero : A2AResponse :=
  mkA2AResponse EmptyString EmptyString EmptyString EmptyString false 0.

Definition store_A2AResponse (key : string) (v : json) (r : A2AResponse)
    : A2AResponse * bool :=
  if key_is key "analysis" then
    let '(x, bad) := store_string v (Analysis r) in
    (mkA2AResponse x (RootCause r) (Remediation r) (PRLink r) (A2APromote r)
       (A2AConfidence r), bad)
  else if key_is key "rootCause" then
    let '(x, bad) := store_string v (RootCause r) in
    (mkA2AResponse (Analysis r) x (Remediation r) (PRLink r) (A2APromote r)
       (A2AConfidence r), bad)
  else if key_is key "remediation" then
    let '(x, bad) := store_string v (Remediation r) in
    (mkA2AResponse (Analysis r) (RootCause r) x (PRLink r) (A2APromote r)
       (A2AConfidence r), bad)
  else if key_is key "prLink" then
    let '(x, bad) := store_string v (PRLink r) in
    (mkA2AResponse (Analysis r) (RootCause r) (Remediation r) x (A2APromote r)
       (A2AConfidence r), bad)
  else if key_is key "promote" then
    let '(x, bad) := store_bool v (A2APromote r) in
    (mkA2AResponse (Analysis r) (RootCause r) (Remediation r) (PRLink r) x
       (A2AConfidence r), bad)
  else if key_is key "confidence" then
    let '(x, bad) := store_int v (A2AConfidence r) in
    (mkA2AResponse (Analysis r) (RootCause r) (Remediation r) (PRLink r)
       (A2APromote r) x, bad)
  else (r, false).

(** [A2AClient]; the HTTP client it holds has a timeout of five minutes. *)
Record A2AClient : Type := mkA2AClient { baseURL : string }.

Definition NewA2AClient (baseURL : string) : A2AClient := mkA2AClient baseURL.

(** [*kubernetes.Clientset] *)
Inductive Clientset : Type := mkClientset.

(** Analysis modes *)
Definition AnalysisModeDefault : string := "default".
Definition AnalysisModeAgent : string := "agent".

Definition ProviderType : string := "MetricAI".
Definition pluginName : string := "argoproj-labs/metric-ai".

(** [v1alpha1.AnalysisRun] and [v1alpha1.Metric], as far as [Run] reads
    them. *)
Record AnalysisRun : Type := mkAnalysisRun {
  RunName : string;
  RunNamespace : string
}.

Record Metric : Type := mkMetric {
  MetricName : string;
  Plugin : gmap string string
}.

Section Engine.
Variable env : Env.

Local Open Scope m_scope.

(** [err.Error()] *)
Fixpoint Error (err : error) : string :=
  match err with
  | ErrorString text => text
  | ErrWrap text _ => text
  | ErrNotFound text => text
  | ErrPermanent inner => Error inner
  | ErrCanceled => "context canceled"
  | _ => lib_error_text env err
  end.

(** The verb [%v] on an [error] *)
Definition fmt_v (err : option error) : string :=
  match err with
  | Some e => Error e
  | None => "<nil>"
  end.

(** [rand.Float64()] *)
Definition rand : M Float64.float64 :=
  fun w =>
    Ret (rand_Float64 env (rand_calls w),
         {| now := now w; trace := trace w; gen_calls := gen_calls w;
            rand_calls := S (rand_calls w) |}).

(** The wait of [Retry]: the timer runs for [next], unless the context
    is cancelled by then. *)
Definition timer_wait (ctx : Context) (next : Z) : M (option error) :=
  let* t := time_Now in
  match ctx with
  | Some cancelled =>
      if cancelled <=? t + Z.max 0 next then
        let* _ := advance (cancelled - t) in
        mret (Some ErrCanceled)
      else
        let* _ := emit (EvSleep next) in
        let* _ := advance next in
        mret None
  | None =>
      let* _ := emit (EvSleep next) in
      let* _ := advance next in
      mret None
  end.

(** *** backoff.Retry

    [Retry] is called with the one option [WithBackOff(backoffConfig)]:
    no [MaxTries], no [Notify], the default [MaxElapsedTime].  The
    back-off object is shared with the operation, which holds it among
    its variables [L]. *)
Section Retry.
Context {L : Type}.
Variable ctx : Context.
Variable operation : L -> M (option error * L).
Variable get_BackOff : L -> backoff.ExponentialBackOff.
Variable set_BackOff : backoff.ExponentialBackOff -> L -> L.

Definition MaxTries : Z := 0.
Definition MaxElapsedTime : Z := backoff.DefaultMaxElapsedTime.

(** The loop [for numTries := uint(1); ; numTries++]. *)
Fixpoint Retry_loop (fuel : nat) (startedAt numTries : Z) (l : L)
    : M (option error * L) :=
  match fuel with
  | O => fun _ => OutOfFuel
  | S fuel' =>
      let* '(err, l) := operation l in
      match err with
      | None => mret (None, l)
      | Some e =>
          if (0 <? MaxTries) && (MaxTries <=? numTries) then
            mret (Some e, l)
          else
            match backoff.as_permanent e with
            | Some inner => mret (Some inner, l)
            | None =>
                let* t := time_Now in
                match ctx_Err ctx t with
                | Some ce => mret (Some ce, l)
                | None =>
                    let* random := rand in
                    let '(next, b) :=
                      backoff.NextBackOff random (get_BackOff l) in
                    let l := set_BackOff b l in
                    if next =? backoff.Stop then mret (Some e, l)
                    else
                      let* t := time_Now in
                      if (0 <? MaxElapsedTime)
                         && (MaxElapsedTime <? (t - startedAt) + next)
                      then mret (Some e, l)
                      else
                        let* cancelled := timer_wait ctx next in
                        match cancelled with
                        | Some ce => mret (Some ce, l)
                        | None =>
                            Retry_loop fuel' startedAt (numTries + 1) l
                        end
                end
            end
      end
  end.

Definition Retry (fuel : nat) (l : L) : M (option error * L) :=
  let* startedAt := time_Now in
  let l := set_BackOff (backoff.Reset (get_BackOff l)) l in
  Retry_loop fuel startedAt 1 l.
End Retry.

(** *** retryWithBackoff *)

Section retryWithBackoff.
Context {L : Type}.
Variable ctx : Context.
Variable operation : L -> M (option error * L).

(** The closure [operationWithLogging]. *)
Definition operationWithLogging (v : retryVars L)
    : M (option error * retryVars L) :=
  let attempt := attempt v + 1 in
  let* '(err, l) := operation (captured v) in
  match err with
  | Some e =>
      let lastErr := Some e in
      match e with
      | ErrAPI apiErr =>
          if is_rate_limit apiErr then
            let apiWaitTime := apiWaitTime_of (genai.Details apiErr) in
            let backoffConfig :=
              if 0 <? apiWaitTime then
                backoff.set_MaxInterval apiWaitTime
                  (backoff.set_InitialInterval apiWaitTime
                     (backoff.Reset (backoffConfig v)))
              else backoffConfig v in
            mret (Some e, mkRetryVars l backoffConfig lastErr attempt)
          else
            mret (Some (Permanent e),
                  mkRetryVars l (backoffConfig v) lastErr attempt)
      | _ =>
          mret (Some (Permanent e),
                mkRetryVars l (backoffConfig v) lastErr attempt)
      end
  | None => mret (None, mkRetryVars l (backoffConfig v) (lastErr v) attempt)
  end.

(** The configuration [retryWithBackoff] starts from. *)
Definition initial_backoffConfig : backoff.ExponentialBackOff :=
  backoff.Reset
    (backoff.set_RandomizationFactor (Float64.of_ratio 1 10)
       (backoff.set_Multiplier (Float64.of_ratio 2 1)
          (backoff.set_MaxInterval (60 * Second)
             (backoff.set_InitialInterval (1 * Second)
                backoff.NewExponentialBackOff)))).

(** The variables after the call of [backoff.Retry]. *)
Definition retryWithBackoff_vars (fuel : nat) (l : L)
    : M (option error * retryVars L) :=
  Retry ctx operationWithLogging backoffConfig set_backoffConfig fuel
    (mkRetryVars l initial_backoffConfig None 0).

(** [maxRetries] is a parameter of the Go function; its body never
    reads it. *)
Definition retryWithBackoff (maxRetries : Z) (fuel : nat) (l : L)
    : M (option error * L) :=
  let* '(err, v) := retryWithBackoff_vars fuel l in
  match err with
  | Some _ =>
      mret (Some (ErrorString
                    ("max retries exceeded after " +:+ itoa (attempt v)
                     +:+ " attempts, last error: " +:+ fmt_v (lastErr v))),
            captured v)
  | None => mret (None, captured v)
  end.
End retryWithBackoff.

(** *** getSecretValue *)

Definition getSecretValue (namespace key : string)
    : M (string * option error) :=
  match
    (match InClusterConfig env with
     | Some _ =>
         match BuildConfigFromFlags env with
         | Some err =>
             Some (ErrorString ("failed to get kubeconfig: " +:+ Error err))
         | None => None
         end
     | None => None
     end)
  with
  | Some err => mret (EmptyString, Some err)
  | None =>
      match NewForConfig env with
      | Some err =>
          mret (EmptyString,
                Some (ErrorString
                        ("failed to create kubernetes client: " +:+ Error err)))
      | None =>
          let* _ := emit (EvSecretGet namespace "argo-rollouts") in
          let '(data, err) := SecretGet env namespace "argo-rollouts" in
          match err with
          | Some err =>
              if IsNotFound err then
                mret (EmptyString,
                      Some (ErrorString
                              ("secret 'argo-rollouts' not found in namespace '"
                               +:+ namespace +:+ "'")))
              else
                mret (EmptyString,
                      Some (ErrorString
                              ("failed to get secret: " +:+ Error err)))
          | None =>
              if String.eqb key "google_api_key" then
                let apiKey := default EmptyString (data !! "google_api_key") in
                if String.eqb apiKey EmptyString then
                  mret (EmptyString,
                        Some (ErrorString
                                "google API key not loaded at startup"))
                else mret (apiKey, None)
              else if String.eqb key "github_token" then
                let githubToken := default EmptyString (data !! "github_token") in
                if String.eqb githubToken EmptyString then
                  mret (EmptyString,
                        Some (ErrorString "github token not loaded at startup"))
                else mret (githubToken, None)
              else
                mret (EmptyString,
                      Some (ErrorString ("unknown secret key: " +:+ key)))
          end
      end
  end.

(** *** analyzeLogsWithAI *)

Definition system_prompt : string :=
  "Analyze what was this canary behavior based on these logs, compare the stable version vs the canary version. "
  +:+ "Write only a json text with these entries and nothing else: "
  +:+ "one named 'text' with your analysis text; "
  +:+ "one named 'promote' with true or false; "
  +:+ "one named 'confidence' with a number from 0 to 100 representing your confidence in the decision. "
  +:+ "The stable version logs start with '--- STABLE LOGS ---' and the canary version logs start with '--- CANARY LOGS ---'."
  +:+ "In case that you cannot make a determination due to lack of information, default to promote: true.".

(** [client.Models.GenerateContent]: one call to the model. *)
Definition Models_GenerateContent (model prompt : string)
    : M (option genai.GenerateContentResponse * option error) :=
  fun w =>
    let r := GenerateContent env (gen_calls w) model prompt in
    Ret ((gen_resp r, gen_err r),
         {| now := now w + Z.max 0 (gen_elapsed r);
            trace := EvGenerateContent model prompt :: trace w;
            gen_calls := S (gen_calls w);
            rand_calls := rand_calls w |}).

(** The text of the one part sent to the model. *)
Definition request_text (params : AIAnalysisParams) : string :=
  let system :=
    if negb (String.eqb (ExtraPrompt params) EmptyString)
    then system_prompt +:+ nl +:+ nl +:+ "Additional context: "
         +:+ ExtraPrompt params
    else system_prompt in
  system +:+ nl +:+ nl +:+ LogsContext params.

(** The closure passed to [retryWithBackoff]; it assigns the variable
    [resp] of [analyzeLogsWithAI]. *)
Definition generate_operation (params : AIAnalysisParams)
    (_ : option genai.GenerateContentResponse)
    : M (option error * option genai.GenerateContentResponse) :=
  let* '(resp, apiErr) :=
    Models_GenerateContent (ModelName params) (request_text params) in
  mret (apiErr, resp).

(** The end of [analyzeLogsWithAI], from the comment "attempt to
    parse" on: the text and the record it returns. *)
Definition parse_result (rawJSON : string)
    : outcome (string * AIAnalysisResult) :=
  let '(obj, e) :=
    Unmarshal_AIAnalysisResult rawJSON AIAnalysisResult_zero in
  match e with
  | Some _ =>
      (let* j := extractFirstJSON rawJSON in
       if negb (String.eqb j EmptyString) then
         let rawJSON := j in
         let '(obj, _) := Unmarshal_AIAnalysisResult rawJSON obj in
         Ret (rawJSON, obj)
       else Ret (rawJSON, obj))%go
  | None => Ret (rawJSON, obj)
  end.

(** The function the variable [analyzeLogsWithAI] holds. *)
Definition analyzeLogsWithAI (fuel : nat) (params : AIAnalysisParams)
    : M (string * AIAnalysisResult * option error) :=
  let* '(apiKey, err) := getSecretValue "argo-rollouts" "google_api_key" in
  match err with
  | Some err =>
      mret (EmptyString, AIAnalysisResult_zero,
            Some (ErrorString
                    ("failed to get Google API key from secret: "
                     +:+ Error err)))
  | None =>
      let ctx := Background in
      match NewClient env with
      | Some err => mret (EmptyString, AIAnalysisResult_zero, Some err)
      | None =>
          let* '(err, resp) :=
            retryWithBackoff ctx (generate_operation params) 3 fuel None in
          match err with
          | Some err => mret (EmptyString, AIAnalysisResult_zero, Some err)
          | None =>
              let* txt := lift (concatCandidates resp) in
              let rawJSON := TrimSpace txt in
              let* '(rawJSON, obj) := lift (parse_result rawJSON) in
              mret (rawJSON, obj, None)
          end
      end
  end.

(** *** The A2A client *)

(** [c.HealthCheck()]: any response means the agent is reachable. *)
Definition HealthCheck (c : A2AClient) : M (option error) :=
  let url := baseURL c +:+ "/" in
  let* _ := emit (EvHTTPGet url) in
  let '(_, err) := HTTPGet env url in
  match err with
  | Some err =>
      mret (Some (ErrorString ("health check failed: " +:+ Error err)))
  | None => mret None
  end.

Definition StatusOK : Z := 200.

(** [c.AnalyzeWithAgent(namespace, podName, stableLogs, canaryLogs)] *)
Definition AnalyzeWithAgent (c : A2AClient)
    (namespace podName stableLogs canaryLogs : string)
    : M (option A2AResponse * option error) :=
  let req :=
    JObject
      [("userId", JString "argo-rollouts");
       ("prompt",
        JString ("Analyze canary deployment issue. Namespace: " +:+ namespace
                 +:+ ", Pod: " +:+ podName
                 +:+ ". Compare stable vs canary behavior and determine if canary should be promoted."));
       ("context",
        JObject [("namespace", JString namespace);
                 ("podName", JString podName);
                 ("stableLogs", JString stableLogs);
                 ("canaryLogs", JString canaryLogs)])] in
  let '(body, err) := Marshal env req in
  match err with
  | Some err =>
      mret (None,
            Some (ErrorString ("failed to marshal request: " +:+ Error err)))
  | None =>
      let url := baseURL c +:+ "/a2a/analyze" in
      let* _ := emit (EvHTTPPost url body) in
      let '(status, respBody, err) := HTTPPost env url body in
      match err with
      | Some err =>
          mret (None,
                Some (ErrorString ("failed to send request: " +:+ Error err)))
      | None =>
          if negb (status =? StatusOK) then
            mret (None,
                  Some (ErrorString
                          ("agent returned status " +:+ itoa status)))
          else
            let '(result, err) :=
              Decode store_A2AResponse respBody A2AResponse_zero in
            match err with
            | Some err =>
                mret (None,
                      Some (ErrorString
                              ("failed to decode response: " +:+ Error err)))
            | None => mret (Some result, None)
            end
      end
  end.

(** *** ai_mode.go *)

(** [analyzeWithKubernetesAgent] *)
Definition analyzeWithKubernetesAgent (namespace podName logsContext : string)
    : M (string * AIAnalysisResult * option error) :=
  let agentURL := Getenv env "K8S_AGENT_URL" in
  let agentURL :=
    if String.eqb agentURL EmptyString
    then "http://kubernetes-agent.argo-rollouts.svc.cluster.local:8080"
    else agentURL in
  let client := NewA2AClient agentURL in
  let* err := HealthCheck client in
  match err with
  | Some err => mret (EmptyString, AIAnalysisResult_zero, Some err)
  | None =>
      let* '(stableLogs, canaryLogs) := lift (splitLogs logsContext) in
      let* '(resp, err) :=
        AnalyzeWithAgent client namespace podName stableLogs canaryLogs in
      match err, resp with
      | Some err, _ => mret (EmptyString, AIAnalysisResult_zero, Some err)
      | None, None => lift (Panic "nil pointer dereference")
      | None, Some resp =>
          let result :=
            {| Text := Analysis resp;
               Promote := A2APromote resp;
               Confidence := A2AConfidence resp |} in
          let jsonResp : gmap string json :=
            {[ "text" := JString (Analysis resp);
               "promote" := JBool (A2APromote resp);
               "confidence" := JNumber (itoa (A2AConfidence resp));
               "rootCause" := JString (RootCause resp);
               "remediation" := JString (Remediation resp) ]} in
          let jsonResp :=
            if negb (String.eqb (PRLink resp) EmptyString)
            then <["prLink" := JString (PRLink resp)]> jsonResp
            else jsonResp in
          let '(rawJSON, err) :=
            Marshal env (JObject (map_to_list jsonResp)) in
          match err with
          | Some err => mret (EmptyString, AIAnalysisResult_zero, Some err)
          | None => mret (rawJSON, result, None)
          end
      end
  end.

(** The package-level function variables, which the tests replace. *)
Record Vars : Type := mkVars {
  var_analyzeLogsWithAI
    : AIAnalysisParams -> M (string * AIAnalysisResult * option error);
  var_getKubeClient : M (option Clientset * option error);
  var_acquireKubeClient : M (option Clientset * option error);
  var_readFirstPodLogs
    : Context -> option Clientset -> string -> string
      -> M (string * option error)
}.

(** [analyzeWithMode] *)
Definition analyzeWithMode (vars : Vars)
    (mode modelName logsContext namespace podName extraPrompt : string)
    : M (string * AIAnalysisResult * option error) :=
  if String.eqb mode AnalysisModeAgent then
    analyzeWithKubernetesAgent namespace podName logsContext
  else
    let params :=
      {| ModelName := modelName;
         LogsContext := logsContext;
         ExtraPrompt := extraPrompt |} in
    var_analyzeLogsWithAI vars params.

(** *** The plugin *)

(** [getKubeClient] *)
Definition getKubeClient : M (option Clientset * option error) :=
  match InClusterConfig env with
  | None =>
      match NewForConfig env with
      | Some err => mret (None, Some err)
      | None => mret (Some mkClientset, None)
      end
  | Some _ =>
      match ClientConfig env with
      | Some err => mret (None, Some err)
      | None =>
          match NewForConfig env with
          | Some err => mret (None, Some err)
          | None => mret (Some mkClientset, None)
          end
      end
  end.

(** [client.CoreV1().Pods(namespace).List(ctx, options)] *)
Definition Pods_List (client : option Clientset)
    (namespace labelSelector : string) : M (list string * option error) :=
  match client with
  | None => lift (Panic "nil pointer dereference")
  | Some _ =>
      let* _ := emit (EvPodsList namespace labelSelector) in
      mret (PodsList env namespace labelSelector)
  end.

(** [fetchFirstPodLogs] *)
Definition fetchFirstPodLogs (ctx : Context) (client : option Clientset)
    (namespace labelSelector : string) : M (string * option error) :=
  let* '(pods, err) := Pods_List client namespace labelSelector in
  match err with
  | Some err =>
      mret (EmptyString,
            Some (ErrWrap ("failed to list pods for selector " +:+ labelSelector
                           +:+ " in namespace " +:+ namespace +:+ ": "
                           +:+ Error err) err))
  | None =>
      match pods with
      | [] =>
          mret (EmptyString,
                Some (ErrNotFound ("pods " +:+ String (byte_of 34) labelSelector
                                   +:+ String (byte_of 34) " not found")))
      | pod :: _ =>
          let* _ := emit (EvPodLogs namespace pod) in
          let '(bytes, err) := PodLogs env namespace pod in
          match err with
          | Some err =>
              mret (EmptyString,
                    Some (ErrWrap ("failed to fetch logs for pod " +:+ pod
                                   +:+ " in namespace " +:+ namespace +:+ ": "
                                   +:+ Error err) err))
          | None => mret (bytes, None)
          end
      end
  end.

(** The variables as the package initialises them. *)
Definition initial_vars (fuel : nat) : Vars :=
  {| var_analyzeLogsWithAI := analyzeLogsWithAI fuel;
     var_getKubeClient := getKubeClient;
     var_acquireKubeClient := getKubeClient;
     var_readFirstPodLogs := fetchFirstPodLogs |}.

(** [createCanaryFailureIssue], the remediation collaborator.  Its body
    is not among the sources: its answer is the parameter [createIssue]
    of the environment, and the call is recorded in the trace. *)
Definition createCanaryFailureIssue
    (logsContext analysis baseBranch githubURL modelName : string)
    : M (option error) :=
  let* _ := emit (EvCreateIssue logsContext analysis githubURL) in
  mret (createIssue env logsContext analysis baseBranch githubURL modelName).

(** [markMeasurementError] *)
Definition markMeasurementError (m : Measurement) (err : error)
    : M Measurement :=
  let* finishedTime := time_Now in
  mret {| Phase := AnalysisPhaseError;
          Message := Error err;
          StartedAt := StartedAt m;
          FinishedAt := Some finishedTime;
          Value := Value m;
          Metadata := Metadata m |}.

Definition with_result (m : Measurement) (phase : AnalysisPhase)
    (value : string) (finishedTime : Z) : Measurement :=
  {| Phase := phase;
     Message := Message m;
     StartedAt := StartedAt m;
     FinishedAt := Some finishedTime;
     Value := value;
     Metadata := Metadata m |}.

(** The arguments [Run] has computed when it calls [analyzeWithMode]. *)
Record AnalysisInputs : Type := mkAnalysisInputs {
  in_measurement : Measurement;
  in_cfg : aiConfig;
  in_modelName : string;
  in_logsContext : string;
  in_analysisMode : string;
  in_namespace : string;
  in_podName : string
}.

(** [Run] up to its call of [analyzeWithMode]: the measurement of an
    early [return], or the arguments of the call. *)
Definition Run_inputs (vars : Vars) (analysisRun : AnalysisRun)
    (metric : Metric) : M (Measurement + AnalysisInputs) :=
  let* startTime := time_Now in
  let newMeasurement :=
    {| Phase := AnalysisPhaseUnset;
       Message := EmptyString;
       StartedAt := Some startTime;
       FinishedAt := None;
       Value := EmptyString;
       Metadata := None |} in
  let fail (err : error) : M (Measurement + AnalysisInputs) :=
    let* m := markMeasurementError newMeasurement err in mret (inl m) in
  let '(cfg, cfgErr) :=
    match Plugin metric !! pluginName with
    | Some pluginCfg => Unmarshal store_aiConfig pluginCfg aiConfig_zero
    | None => (aiConfig_zero, None)
    end in
  match cfgErr with
  | Some err => fail err
  | None =>
      let stableSelector :=
        if String.eqb (StableLabel cfg) EmptyString then "role=stable"
        else StableLabel cfg in
      let canarySelector :=
        if String.eqb (CanaryLabel cfg) EmptyString then "role=canary"
        else CanaryLabel cfg in
      let modelName :=
        if String.eqb (Model cfg) EmptyString then "gemini-2.0-flash"
        else Model cfg in
      let* '(kubeClient, err) := var_acquireKubeClient vars in
      match err with
      | Some err => fail err
      | None =>
          let ns := RunNamespace analysisRun in
          let* '(stableLogs, err) :=
            var_readFirstPodLogs vars Background kubeClient ns stableSelector in
          match err with
          | Some err => fail err
          | None =>
              let* '(canaryLogs, err) :=
                var_readFirstPodLogs vars Background kubeClient ns
                  canarySelector in
              match err with
              | Some err =>
                  if IsNotFound err then
                    let* finishedTime := time_Now in
                    mret (inl (with_result newMeasurement
                                 AnalysisPhaseSuccessful "1" finishedTime))
                  else fail err
              | None =>
                  let logsContext :=
                    "--- STABLE LOGS ---" +:+ nl +:+ stableLogs +:+ nl +:+ nl
                    +:+ "--- CANARY LOGS ---" +:+ nl +:+ canaryLogs in
                  let analysisMode := AnalysisMode cfg in
                  let analysisMode :=
                    if String.eqb analysisMode EmptyString
                    then AnalysisModeDefault else analysisMode in
                  let namespace := Namespace cfg in
                  let podName := PodName cfg in
                  if String.eqb analysisMode AnalysisModeAgent
                     && (String.eqb namespace EmptyString
                         || String.eqb podName EmptyString)
                  then
                    fail (ErrorString
                            "agent mode requires namespace and podName to be configured")
                  else if String.eqb analysisMode AnalysisModeAgent
                          && negb (Contains podName "-")
                  then
                    let* '(k8sClient, err) := var_getKubeClient vars in
                    match err with
                    | Some err =>
                        fail (ErrWrap ("failed to create k8s client: "
                                       +:+ Error err) err)
                    | None =>
                        let* '(pods, err) :=
                          Pods_List k8sClient namespace
                            ("rollouts-pod-template-hash=" +:+ podName) in
                        match err with
                        | Some err =>
                            fail (ErrWrap
                                    ("failed to find pod with template hash "
                                     +:+ podName +:+ ": " +:+ Error err) err)
                        | None =>
                            match pods with
                            | [] =>
                                fail (ErrorString
                                        ("no pods found with template hash "
                                         +:+ podName))
                            | resolvedPodName :: _ =>
                                mret (inr (mkAnalysisInputs newMeasurement cfg
                                             modelName logsContext analysisMode
                                             namespace resolvedPodName))
                            end
                        end
                    end
                  else
                    mret (inr (mkAnalysisInputs newMeasurement cfg modelName
                                 logsContext analysisMode namespace podName))
              end
          end
      end
  end.

(** [Run] after its call of [analyzeWithMode]: the verdict. *)
Definition Run_verdict (a : AnalysisInputs) (analysisJSON : string)
    (result : AIAnalysisResult) (aiErr : option error) : M Measurement :=
  let newMeasurement := in_measurement a in
  let cfg := in_cfg a in
  match aiErr with
  | Some aiErr => markMeasurementError newMeasurement aiErr
  | None =>
      let metadata :=
        match Metadata newMeasurement with
        | None => ∅
        | Some m => m
        end in
      let metadata :=
        <["confidence" := itoa (Confidence result)]>
          (<["analysisJSON" := analysisJSON]>
             (<["analysis" := Text result]> metadata)) in
      let newMeasurement :=
        {| Phase := Phase newMeasurement;
           Message := Message newMeasurement;
           StartedAt := StartedAt newMeasurement;
           FinishedAt := FinishedAt newMeasurement;
           Value := Value newMeasurement;
           Metadata := Some metadata |} in
      if Promote result then
        let value :=
          Float64.Sprintf_2f
            (Float64.div (Float64.of_int (Confidence result))
               (Float64.of_int 100)) in
        let* finishedTime := time_Now in
        mret (with_result newMeasurement AnalysisPhaseSuccessful value
                finishedTime)
      else
        let* _ :=
          createCanaryFailureIssue (in_logsContext a) (Text result)
            (BaseBranch cfg) (GitHubURL cfg) (in_modelName a) in
        let* finishedTime := time_Now in
        mret (with_result newMeasurement AnalysisPhaseFailed "0" finishedTime)
  end.

(** The method [Run] of [RpcPlugin] *)
Definition Run (vars : Vars) (analysisRun : AnalysisRun) (metric : Metric)
    : M Measurement :=
  let* r := Run_inputs vars analysisRun metric in
  match r with
  | inl m => mret m
  | inr a =>
      let* '(analysisJSON, result, aiErr) :=
        analyzeWithMode vars (in_analysisMode a) (in_modelName a)
          (in_logsContext a) (in_namespace a) (in_podName a)
          (ExtraPrompt_ (in_cfg a)) in
      Run_verdict a analysisJSON result aiErr
  end.
End Engine.

(** * Specifications *)

(** ** The response extractor *)

(** The change of the nesting count at one byte. *)
Definition brace_step (c : ascii) : Z :=
  if eqb_byte c "{" then 1 else if eqb_byte c "}" then -1 else 0.

(** The nesting count after a scan of [s], from zero. *)
Fixpoint depth_of (s : string) : Z :=
  match s with
  | EmptyString => 0
  | String c s' => brace_step c + depth_of s'
  end.

(** [s] holds no opening brace. *)
Fixpoint no_open_brace (s : string) : bool :=
  match s with
  | EmptyString => true
  | String c s' => negb (eqb_byte c "{") && no_open_brace s'
  end.

(** [first_object s r]: [r] is what the extractor is to return on [s].
    - no opening brace: the empty string;
    - the nesting count never returns to zero after the first opening
      brace: the empty string;
    - otherwise the bytes from the first opening brace to the first
      point where the nesting count is back at zero. *)
Inductive first_object (s : string) : string -> Prop :=
| fo_no_brace :
    no_open_brace s = true ->
    first_object s EmptyString
| fo_unbalanced (pre rest : string) :
    s = pre +:+ String "{" rest ->
    no_open_brace pre = true ->
    (forall n, (1 <= n <= S (String.length rest))%nat ->
               depth_of (take n (String "{" rest)) <> 0) ->
    first_object s EmptyString
| fo_found (pre body post : string) :
    s = pre +:+ String "{" body +:+ post ->
    no_open_brace pre = true ->
    depth_of (String "{" body) = 0 ->
    (forall n, (1 <= n <= String.length body)%nat ->
               depth_of (take n (String "{" body)) <> 0) ->
    first_object s (String "{" body).

(** The loop of [extractFirstJSON] on the bytes still to scan: the
    offset of the closing brace it returns at. *)
Fixpoint scan_close (r : string) (depth : Z) : option nat :=
  match r with
  | EmptyString => None
  | String c r' =>
      if eqb_byte c "{" then option_map S (scan_close r' (depth + 1))
      else if eqb_byte c "}" then
        if depth - 1 =? 0 then Some O
        else option_map S (scan_close r' (depth - 1))
      else option_map S (scan_close r' depth)
  end.

(** ** The split of the log context *)

(** [sub] occurs in [s] at offset [i]. *)
Definition occurs_at (sub s : string) (i : nat) : Prop :=
  has_prefix sub (drop i s) = true.

(** The first occurrence of [sub] in [s] is at offset [i]. *)
Definition first_at (sub s : string) (i : nat) : Prop :=
  occurs_at sub s i /\ forall j, (j < i)%nat -> ~ occurs_at sub s j.

(** [sub] does not occur in [s]. *)
Definition absent (sub s : string) : Prop :=
  forall j, ~ occurs_at sub s j.


Definition absentb (sub s : string) : bool :=
  forallb (fun j => negb (has_prefix sub (drop j s)))
    (seq 0 (S (String.length s))).

(** ** The verdict *)

Definition decimal_digit (d : Z) : string :=
  String (byte_of (48 + d)) EmptyString.

(** [c/100] written with two decimal places, for [c >= 0]. *)
Definition two_decimals (c : Z) : string :=
  itoa (c / 100) +:+ "." +:+ decimal_digit ((c / 10) mod 10)
  +:+ decimal_digit (c mod 10).

(** The confidence values of a [DecisionRecord]. *)
Definition confidence_range : list Z := map Z.of_nat (seq 0 101).

(** ** Example environments *)

(** A JSON text written with single quotes in place of the double
    ones. *)
Fixpoint json_text (s : string) : string :=
  match s with
  | EmptyString => EmptyString
  | String c r => String (if Ascii.eqb c "'" then dquote else c) (json_text r)
  end.

(** A model response of one candidate with one text part. *)
Definition text_response (t : string) : genai.GenerateContentResponse :=
  genai.mkResponse
    [Some (genai.mkCandidate (Some (genai.mkContent [Some (genai.mkPart t)])))].

(** The model answers every call with the text [t]. *)
Definition model_says (t : string) (n : nat) : GenResult :=
  mkGenResult (Some (text_response t)) None 0.

(** A rate-limit error of the model API, with its detail entries. *)
Definition rate_limit_error (details : list (gmap string json)) : error :=
  ErrAPI (genai.mkAPIError 429 "quota exceeded" "RESOURCE_EXHAUSTED" details).

(** A [RetryInfo] detail entry carrying the retry hint [d]. *)
Definition retry_hint (d : string) : gmap string json :=
  {[ "@type" := JString typeURLRetryInfo; "retryDelay" := JString d ]}.

(** The model fails every call with a rate-limit error and no hint. *)
Definition always_rate_limited (n : nat) : GenResult :=
  mkGenResult None (Some (rate_limit_error [])) 0.

(** The first failure carries the hint [d], the later ones none. *)
Definition hinted_once (d : string) (n : nat) : GenResult :=
  mkGenResult None
    (Some (rate_limit_error (match n with
                             | O => [retry_hint d]
                             | S _ => []
                             end))) 0.

(** A cluster with one pod for every selector. *)
Definition one_pod (namespace selector : string) : list string * option error :=
  (["pod-1"], None).

(** A cluster with no canary pod. *)
Definition no_canary_pod (namespace selector : string)
    : list string * option error :=
  if String.eqb selector "role=canary" then ([], None) else (["pod-1"], None).

(** An environment in which every collaborator answers; the model
    answers by [gen], the agent with the body [agent_body], the cluster
    lists the pods [pods], and [rand.Float64] returns one half. *)
Definition example_env (gen : nat -> GenResult)
    (pods : string -> string -> list string * option error)
    (agent_body : string) : Env :=
  {| InClusterConfig := None;
     BuildConfigFromFlags := None;
     ClientConfig := None;
     NewForConfig := None;
     PodsList := pods;
     PodLogs := fun _ _ => ("log line", None);
     SecretGet := fun _ _ => ({[ "google_api_key" := "key" ]}, None);
     NewClient := None;
     GenerateContent := fun n _ _ => gen n;
     rand_Float64 := fun _ => Float64.of_ratio 1 2;
     Getenv := fun _ => EmptyString;
     HTTPGet := fun _ => (404, None);
     HTTPPost := fun _ _ => (200, agent_body, None);
     createIssue := fun _ _ _ _ _ => None;
     Marshal := fun _ => ("<json>", None);
     lib_error_text := fun _ => "<error>" |}.

Definition initial_world : World := mkWorld 0 [] 0 0.

(** The doubles of [plugin_test.go]: the analysis returns [r], the
    cluster is not contacted. *)
Definition test_vars (env : Env) (r : string * AIAnalysisResult * option error)
    : Vars :=
  {| var_analyzeLogsWithAI := fun _ => mret r;
     var_getKubeClient := getKubeClient env;
     var_acquireKubeClient := mret (None, None);
     var_readFirstPodLogs := fun _ _ _ _ => mret ("dummy", None) |}.

Definition test_run : AnalysisRun := mkAnalysisRun "test-analysis" "default".

Definition test_metric (config : string) : Metric :=
  mkMetric "ai-test" {[ pluginName := json_text config ]}.

(** The timer waits of a run, the first one first. *)
Definition sleeps (w : World) : list Z :=
  flat_map (fun ev => match ev with
                      | EvSleep d => [d]
                      | _ => []
                      end) (List.rev (trace w)).

(** ** The retry controller *)

(** The error is a rate-limit signal: a [genai.APIError] with code 429
    or status [RESOURCE_EXHAUSTED]. *)
Definition rate_limited (err : error) : bool :=
  match err with
  | ErrAPI apiErr => is_rate_limit apiErr
  | _ => false
  end.

(** The model fails every call with an internal error. *)
Definition always_internal_error (n : nat) : GenResult :=
  mkGenResult None
    (Some (ErrAPI (genai.mkAPIError 500 "internal" "INTERNAL" []))) 0.

Definition example_params : AIAnalysisParams :=
  {| ModelName := "gemini-2.0-flash";
     LogsContext := "--- STABLE LOGS ---";
     ExtraPrompt := EmptyString |}.

(** Both the initial and the max interval of [b] are [d]. *)
Definition pinned (d : Z) (b : backoff.ExponentialBackOff) : Prop :=
  backoff.InitialInterval b = d /\ backoff.MaxInterval b = d.

(** Every retry hint the operation returns is the duration [d]. *)
Definition hints_are {L : Type} (d : Z)
    (operation : L -> M (option error * L)) : Prop :=
  forall l w apiErr l' w',
    operation l w = Ret ((Some (ErrAPI apiErr), l'), w') ->
    is_rate_limit apiErr = true ->
    0 < apiWaitTime_of (genai.Details apiErr) ->
    apiWaitTime_of (genai.Details apiErr) = d.

(** The model fails every call with a rate-limit error carrying the
    hint [d]. *)
Definition always_hinted (d : string) (n : nat) : GenResult :=
  mkGenResult None (Some (rate_limit_error [retry_hint d])) 0.

(** ** The records the engine produces *)

(** [result] is what [json.Unmarshal] has stored from the text [t], or
    from the block extracted from it. *)
Definition stored_by_decoder (t : string) (result : AIAnalysisResult) : Prop :=
  result = fst (Unmarshal_AIAnalysisResult t AIAnalysisResult_zero)
  \/ exists j,
       extractFirstJSON t = Ret j
       /\ result
          = fst (Unmarshal_AIAnalysisResult j
                   (fst (Unmarshal_AIAnalysisResult t AIAnalysisResult_zero))).

(** The answer of an agent that is too sure of itself. *)
Definition overconfident_agent_body : string :=
  json_text
    "{'analysis':'fine','rootCause':'none','remediation':'none','promote':true,'confidence':150}".



(** ** The mode dispatch of [Run] *)

(** A call to the cluster for the logs of a pod. *)
Definition is_log_retrieval (ev : Event) : bool :=
  match ev with
  | EvPodsList _ _ | EvPodLogs _ _ => true
  | _ => false
  end.

(** From [w] to [w'] the process has only read pod logs: no call to the
    model, to the agent or to the remediation collaborator. *)
Definition only_log_retrieval (w w' : World) : Prop :=
  exists events,
    trace w' = (events ++ trace w)%list
    /\ Forall (fun ev => is_log_retrieval ev = true) events
    /\ gen_calls w' = gen_calls w.

Definition stable_selector (cfg : aiConfig) : string :=
  if String.eqb (StableLabel cfg) EmptyString then "role=stable"
  else StableLabel cfg.

Definition canary_selector (cfg : aiConfig) : string :=
  if String.eqb (CanaryLabel cfg) EmptyString then "role=canary"
  else CanaryLabel cfg.

(** The cluster has a pod for the selector and gives its logs. *)
Definition logs_available (env : Env) (namespace selector : string) : Prop :=
  exists pod rest logs,
    PodsList env namespace selector = (pod :: rest, None)
    /\ PodLogs env namespace pod = (logs, None).


Definition agent_config_error : string :=
  "agent mode requires namespace and podName to be configured".


(** ** The tables of the unit tests of the repository *)

Definition candidate (parts : list string) : option genai.Candidate :=
  Some (genai.mkCandidate
          (Some (genai.mkContent (map (fun t => Some (genai.mkPart t)) parts)))).

(** [TestConcatCandidates] *)
Definition concatCandidates_tests
  : list (option genai.GenerateContentResponse * string) :=
  [ (None, EmptyString);
    (Some (genai.mkResponse []), EmptyString);
    (Some (genai.mkResponse [candidate ["Hello world"]]), "Hello world");
    (Some (genai.mkResponse [candidate ["First part"; " second part"]]),
     "First part second part");
    (Some (genai.mkResponse [candidate ["First candidate"];
                             candidate ["Second candidate"]]),
     "First candidateSecond candidate");
    (Some (genai.mkResponse [candidate [EmptyString; "Not empty"; EmptyString]]),
     "Not empty") ].

(** [TestExtractFirstJSON] *)
Definition extractFirstJSON_tests : list (string * string) :=
  [ (EmptyString, EmptyString);
    ("just some text", EmptyString);
    (json_text "{'key': 'value'}", json_text "{'key': 'value'}");
    ("Here's the result: " +:+ json_text "{'key': 'value'}",
     json_text "{'key': 'value'}");
    (json_text "{'key': 'value'} and more text", json_text "{'key': 'value'}");
    (json_text "Prefix text {'key': 'value'} suffix text",
     json_text "{'key': 'value'}");
    (json_text "{'outer': {'inner': 'value'}}",
     json_text "{'outer': {'inner': 'value'}}");
    (json_text "{'level1': {'level2': {'level3': 'value'}}}",
     json_text "{'level1': {'level2': {'level3': 'value'}}}");
    (json_text "{'first': 'value'} and {'second': 'value'}",
     json_text "{'first': 'value'}");
    (json_text "{'key': 'value'", EmptyString);
    (json_text "{'key': 'value'}}", json_text "{'key': 'value'}");
    ("{" +:+ nl +:+ json_text "  'key': 'value'" +:+ nl +:+ "}",
     "{" +:+ nl +:+ json_text "  'key': 'value'" +:+ nl +:+ "}");
    (json_text "{'items': [1, 2, 3]}", json_text "{'items': [1, 2, 3]}") ].

Definition outcome_is (x : outcome string) (expected : string) : bool :=
  match x with
  | Ret s => String.eqb s expected
  | _ => false
  end.

(** * Further parts of the package *)

(** ** utils.go: [truncate] *)

(** [truncate(s, n)]: the slice [s[:n]] panics when [n] is negative. *)
Definition truncate (s : string) (n : Z) : outcome string :=
  if len s <=? n then Ret s
  else
    (let* head := slice s 0 n in
     Ret (head +:+ "..."))%go.

(** ** The plugin: [GetMetadata] *)

Definition GetMetadata (metric : Metric) : gmap string string :=
  let metadata : gmap string string := <["provider" := ProviderType]> ∅ in
  match Plugin metric !! pluginName with
  | Some pluginCfg =>
      let '(cfg, err) := Unmarshal store_aiConfig pluginCfg aiConfig_zero in
      match err with
      | None =>
          let metadata :=
            if negb (String.eqb (Model cfg) EmptyString)
            then <["model" := Model cfg]> metadata else metadata in
          let metadata :=
            if negb (String.eqb (StableLabel cfg) EmptyString)
            then <["stableLabel" := StableLabel cfg]> metadata else metadata in
          let metadata :=
            if negb (String.eqb (CanaryLabel cfg) EmptyString)
            then <["canaryLabel" := CanaryLabel cfg]> metadata else metadata in
          metadata
      | Some _ => metadata
      end
  | None => metadata
  end.

(** ** The plugin: the configuration loaded at startup *)

(** The package variables [googleAPIKey], [googleCloudProject] and
    [githubToken]. *)
Record Globals : Type := mkGlobals {
  googleAPIKey : string;
  googleCloudProject : string;
  githubToken : string
}.

Section Startup.
Variable env : Env.

(** [os.ReadFile] *)
Variable ReadFile : string -> string * option error.

Definition secretsDir : string := "/etc/secrets".

(** [filepath.Join(secretsDir, name)], for the file names in use. *)
Definition secret_file (name : string) : string := secretsDir +:+ "/" +:+ name.

(** [loadConfigFromFiles]: the error it returns and the package
    variables it leaves. *)
Definition loadConfigFromFiles (g : Globals) : option error * Globals :=
  let apiKeyFile := secret_file "google_api_key" in
  let '(data, err) := ReadFile apiKeyFile in
  match err with
  | Some err =>
      (Some (ErrorString ("failed to read Google API key from " +:+ apiKeyFile
                          +:+ ": " +:+ Error env err)), g)
  | None =>
      let g := mkGlobals (TrimSpace data) (googleCloudProject g)
                 (githubToken g) in
      if String.eqb (googleAPIKey g) EmptyString then
        (Some (ErrorString ("google API key is empty in " +:+ apiKeyFile)), g)
      else
        let projectFile := secret_file "google_cloud_project" in
        let '(data, err) := ReadFile projectFile in
        let g :=
          match err with
          | Some _ => g
          | None => mkGlobals (googleAPIKey g) (TrimSpace data) (githubToken g)
          end in
        let tokenFile := secret_file "github_token" in
        let '(data, err) := ReadFile tokenFile in
        match err with
        | Some err =>
            (Some (ErrorString ("failed to read GitHub token from "
                                +:+ tokenFile +:+ ": " +:+ Error env err)), g)
        | None =>
            let g := mkGlobals (googleAPIKey g) (googleCloudProject g)
                       (TrimSpace data) in
            if String.eqb (githubToken g) EmptyString then
              (Some (ErrorString ("github token is empty in " +:+ tokenFile)),
               g)
            else (None, g)
        end
  end.

(** [validateConfig] *)
Definition validateConfig (g : Globals) : option error :=
  if String.eqb (googleAPIKey g) EmptyString then
    Some (ErrorString "google API key is required but not configured")
  else if String.eqb (githubToken g) EmptyString then
    Some (ErrorString "github token is required but not configured")
  else None.

End Startup.

(** * Further specifications *)

(** ** The log context *)

(** The context [Run] builds from the logs of the two pods. *)
Definition logs_context (stableLogs canaryLogs : string) : string :=
  "--- STABLE LOGS ---" +:+ nl +:+ stableLogs +:+ nl +:+ nl
  +:+ "--- CANARY LOGS ---" +:+ nl +:+ canaryLogs.

(** The byte [c] occurs in [s]. *)
Fixpoint mentions (c : ascii) (s : string) : bool :=
  match s with
  | EmptyString => false
  | String a s' => Ascii.eqb a c || mentions c s'
  end.

(** ** The model response *)

Definition part_present (part : option genai.Part) : bool :=
  match part with
  | Some _ => true
  | None => false
  end.

(** The candidate, its content and all its parts are there. *)
Definition candidate_present (cand : option genai.Candidate) : bool :=
  match cand with
  | Some cand =>
      match genai.Content_ cand with
      | Some content => forallb part_present (genai.Parts content)
      | None => false
      end
  | None => false
  end.

(** No pointer of the response is [nil]. *)
Definition no_nil_pointer (resp : genai.GenerateContentResponse) : bool :=
  forallb candidate_present (genai.Candidates resp).

Definition part_texts (parts : list (option genai.Part)) : list string :=
  flat_map (fun part => match part with
                        | Some part => [genai.Text part]
                        | None => []
                        end) parts.

Definition candidate_texts (cand : option genai.Candidate) : list string :=
  match cand with
  | Some cand =>
      match genai.Content_ cand with
      | Some content => part_texts (genai.Parts content)
      | None => []
      end
  | None => []
  end.

(** The texts of the parts of all candidates, in order. *)
Definition response_texts (resp : genai.GenerateContentResponse)
    : list string :=
  flat_map candidate_texts (genai.Candidates resp).

(** The strings of [l] one after the other, with nothing between. *)
Definition joined (l : list string) : string :=
  fold_right String.append EmptyString l.

(** ** The retry hints of an API error *)

(** The delay a detail entry asks for: that of a [RetryInfo] entry whose
    [retryDelay] is a non-empty string [time.ParseDuration] accepts. *)
Definition retry_delay_of (detail : gmap string json) : option Z :=
  match detail !! "@type", detail !! "retryDelay" with
  | Some (JString t), Some (JString d) =>
      if String.eqb t typeURLRetryInfo && negb (String.eqb d EmptyString)
      then ParseDuration d else None
  | _, _ => None
  end.

Definition retry_delays (details : list (gmap string json)) : list Z :=
  flat_map (fun detail => match retry_delay_of detail with
                          | Some d => [d]
                          | None => []
                          end) details.

(** A [QuotaFailure] detail entry. *)
Definition quota_failure (violations : json) : gmap string json :=
  {[ "@type" := JString typeURLQuotaFailure; "violations" := violations ]}.

(** ** The calls of one analysis *)

(** The URL of the agent: the environment variable [K8S_AGENT_URL], or
    the service of the cluster. *)
Definition agent_url (env : Env) : string :=
  if String.eqb (Getenv env "K8S_AGENT_URL") EmptyString
  then "http://kubernetes-agent.argo-rollouts.svc.cluster.local:8080"
  else Getenv env "K8S_AGENT_URL".

(** The calls the direct analysis with [params] can make: the read of
    the secret, the model call with the one request, a timer wait. *)
Definition is_direct_call (params : AIAnalysisParams) (ev : Event) : bool :=
  match ev with
  | EvSecretGet namespace name =>
      String.eqb namespace "argo-rollouts" && String.eqb name "argo-rollouts"
  | EvGenerateContent model prompt =>
      String.eqb model (ModelName params)
      && String.eqb prompt (request_text params)
  | EvSleep _ => true
  | _ => false
  end.

(** The calls made from [w0] on are those of the direct analysis, and
    [n] of them are model calls. *)
Definition direct_calls_since (params : AIAnalysisParams) (w0 : World)
    (n : Z) (w : World) : Prop :=
  n = Z.of_nat (gen_calls w) - Z.of_nat (gen_calls w0)
  /\ exists events,
       trace w = (events ++ trace w0)%list
       /\ forallb (is_direct_call params) events = true.

(** The answer of the model to the call number [n] of this process,
    made with the parameters [params]. *)
Definition model_answer (env : Env) (params : AIAnalysisParams) (n : nat)
    : GenResult :=
  GenerateContent env n (ModelName params) (request_text params).


(** The calls made from [w] to [w'], the latest first. *)
Definition calls_between (w w' : World) (events : list Event) : Prop :=
  trace w' = (events ++ trace w)%list.

(** The configuration [Run] reads from the metric. *)
Definition plugin_config (metric : Metric) : aiConfig * option error :=
  match Plugin metric !! pluginName with
  | Some pluginCfg => Unmarshal store_aiConfig pluginCfg aiConfig_zero
  | None => (aiConfig_zero, None)
  end.

(** The mode of analysis a configuration asks for. *)
Definition analysis_mode (cfg : aiConfig) : string :=
  if String.eqb (AnalysisMode cfg) EmptyString then AnalysisModeDefault
  else AnalysisMode cfg.

(** The measurement [Run] starts from at time [t]. *)
Definition new_measurement (t : Z) : Measurement :=
  {| Phase := AnalysisPhaseUnset;
     Message := EmptyString;
     StartedAt := Some t;
     FinishedAt := None;
     Value := EmptyString;
     Metadata := None |}.

(** ** Further example environments *)

(** The model fails the first call with a rate-limit error and answers
    the later ones with the text [t]. *)
Definition rate_limited_once (t : string) (n : nat) : GenResult :=
  match n with
  | O => mkGenResult None (Some (rate_limit_error [])) 0
  | S _ => mkGenResult (Some (text_response t)) None 0
  end.

(** Agent mode, with a namespace and the name of a pod. *)
Definition agent_metric : Metric :=
  test_metric "{'analysisMode':'agent','namespace':'ns','podName':'pod-1'}".

(** The metadata [Run] stores with a verdict. *)
Definition verdict_metadata (analysisJSON : string)
    (result : AIAnalysisResult) : gmap string string :=
  <["confidence" := itoa (Confidence result)]>
    (<["analysisJSON" := analysisJSON]>
       (<["analysis" := Text result]> ∅)).

(** A cluster with no stable pod. *)
Definition no_stable_pod (namespace selector : string)
    : list string * option error :=
  if String.eqb selector "role=stable" then ([], None) else (["pod-1"], None).

(** The files of the secret volume. *)
Definition example_files (path : string) : string * option error :=
  if String.eqb path "/etc/secrets/google_api_key" then (" key " +:+ nl, None)
  else if String.eqb path "/etc/secrets/github_token" then ("token" +:+ nl, None)
  else (EmptyString, Some (ErrorString "no such file")).

(** The agent cannot be reached. *)
Definition unreachable_agent (env : Env) : Env :=
  {| InClusterConfig := InClusterConfig env;
     BuildConfigFromFlags := BuildConfigFromFlags env;
     ClientConfig := ClientConfig env;
     NewForConfig := NewForConfig env;
     PodsList := PodsList env;
     PodLogs := PodLogs env;
     SecretGet := SecretGet env;
     NewClient := NewClient env;
     GenerateContent := GenerateContent env;
     rand_Float64 := rand_Float64 env;
     Getenv := Getenv env;
     HTTPGet := fun _ => (0, Some (ErrorString "connection refused"));
     HTTPPost := HTTPPost env;
     createIssue := createIssue env;
     Marshal := Marshal env;
     lib_error_text := lib_error_text env |}.



(** * Properties *)

(** ** Byte strings *)

Lemma app_cons (c : ascii) (s t : string) :
  String c s +:+ t = String c (s +:+ t).
Proof. reflexivity. Qed.

Lemma app_nil_l (s : string) : EmptyString +:+ s = s.
Proof. reflexivity. Qed.

Lemma app_nil_r (s : string) : s +:+ EmptyString = s.
Proof. induction s as [|c s IH]; [reflexivity|]. rewrite app_cons, IH. reflexivity. Qed.

Lemma app_assoc_s (a b c : string) : (a +:+ b) +:+ c = a +:+ (b +:+ c).
Proof.
  induction a as [|x a IH]; [reflexivity|].
  rewrite !app_cons, IH. reflexivity.
Qed.

Lemma length_app (a b : string) :
  String.length (a +:+ b) = (String.length a + String.length b)%nat.
Proof.
  induction a as [|x a IH]; [reflexivity|].
  rewrite app_cons. simpl. rewrite IH. reflexivity.
Qed.

Lemma len_nonneg (s : string) : 0 <= len s.
Proof. unfold len. lia. Qed.

Lemma len_cons (c : ascii) (s : string) : len (String c s) = len s + 1.
Proof. unfold len. simpl. lia. Qed.

Lemma len_app (a b : string) : len (a +:+ b) = len a + len b.
Proof. unfold len. rewrite length_app. lia. Qed.

Lemma take_drop (n : nat) (s : string) : take n s +:+ drop n s = s.
Proof.
  revert s. induction n as [|n IH]; intros [|c s]; simpl; try reflexivity.
  rewrite app_cons, IH. reflexivity.
Qed.

Lemma take_0 (s : string) : take 0 s = EmptyString.
Proof. destruct s; reflexivity. Qed.

Lemma drop_0 (s : string) : drop 0 s = s.
Proof. destruct s; reflexivity. Qed.

Lemma length_take (n : nat) (s : string) :
  String.length (take n s) = Nat.min n (String.length s).
Proof.
  revert s. induction n as [|n IH]; intros [|c s]; simpl; try reflexivity.
  rewrite IH. reflexivity.
Qed.

Lemma length_drop (n : nat) (s : string) :
  String.length (drop n s) = (String.length s - n)%nat.
Proof.
  revert s. induction n as [|n IH]; intros [|c s]; simpl; try reflexivity.
  apply IH.
Qed.

Lemma take_all (n : nat) (s : string) :
  (String.length s <= n)%nat -> take n s = s.
Proof.
  revert s. induction n as [|n IH]; intros [|c s] H; simpl in *;
    try reflexivity; try lia.
  rewrite IH by lia. reflexivity.
Qed.

Lemma drop_all (n : nat) (s : string) :
  (String.length s <= n)%nat -> drop n s = EmptyString.
Proof.
  revert s. induction n as [|n IH]; intros [|c s] H; simpl in *;
    try reflexivity; try lia.
  apply IH. lia.
Qed.

Lemma take_app_length (a b : string) : take (String.length a) (a +:+ b) = a.
Proof.
  induction a as [|x a IH]; simpl.
  - reflexivity.
  - rewrite IH. reflexivity.
Qed.

Lemma drop_app_length (a b : string) : drop (String.length a) (a +:+ b) = b.
Proof.
  induction a as [|x a IH]; simpl.
  - reflexivity.
  - exact IH.
Qed.

Lemma drop_drop (n m : nat) (s : string) : drop n (drop m s) = drop (m + n) s.
Proof.
  revert s. induction m as [|m IH]; intros s.
  - rewrite drop_0. reflexivity.
  - destruct s as [|c s]; simpl.
    + destruct n; reflexivity.
    + apply IH.
Qed.

Lemma drop_cons_S (n : nat) (s r : string) (c : ascii) :
  drop n s = String c r -> drop (S n) s = r.
Proof.
  intros H. replace (S n) with (n + 1)%nat by lia.
  rewrite <- drop_drop, H. simpl. apply drop_0.
Qed.

Lemma drop_cons_length (n : nat) (s r : string) (c : ascii) :
  drop n s = String c r -> (n < String.length s)%nat.
Proof.
  intros H.
  destruct (Nat.lt_ge_cases n (String.length s)) as [Hlt|Hge]; [exact Hlt|].
  rewrite drop_all in H by exact Hge. discriminate.
Qed.

Lemma get_drop (n : nat) (s r : string) (c : ascii) :
  drop n s = String c r -> String.get n s = Some c.
Proof.
  revert s. induction n as [|n IH]; intros [|x s] H; simpl in *;
    try discriminate.
  - injection H as -> _. reflexivity.
  - apply IH. exact H.
Qed.

Lemma take_S_drop (n : nat) (s r : string) (c : ascii) :
  drop n s = String c r -> take (S n) s = take n s +:+ String c EmptyString.
Proof.
  revert s. induction n as [|n IH]; intros s H.
  - destruct s as [|x s]; simpl in H; [discriminate|].
    injection H as -> _. reflexivity.
  - destruct s as [|x s]; simpl in H; [discriminate|].
    change (take (S (S n)) (String x s)) with (String x (take (S n) s)).
    rewrite (IH s H). reflexivity.
Qed.

Lemma take_take (n m : nat) (s : string) :
  (n <= m)%nat -> take n (take m s) = take n s.
Proof.
  revert m s. induction n as [|n IH]; intros m s H.
  - reflexivity.
  - destruct m as [|m]; [lia|]. destruct s as [|c s]; simpl; [reflexivity|].
    rewrite IH by lia. reflexivity.
Qed.

Lemma take_app_le (n : nat) (a b : string) :
  (n <= String.length a)%nat -> take n (a +:+ b) = take n a.
Proof.
  revert a. induction n as [|n IH]; intros a H.
  - reflexivity.
  - destruct a as [|c a]; simpl in H; [lia|].
    simpl. rewrite IH by lia. reflexivity.
Qed.

(** The checked operations of Go, inside their bounds. *)
Lemma index_in_range (s r : string) (c : ascii) (i : Z) :
  0 <= i -> drop (Z.to_nat i) s = String c r -> index s i = Ret c.
Proof.
  intros Hi H. unfold index.
  pose proof (drop_cons_length _ _ _ _ H) as Hlt.
  assert (Hb : (0 <=? i) && (i <? len s) = true).
  { unfold len. apply andb_true_intro. split; [apply Z.leb_le|apply Z.ltb_lt]; lia. }
  rewrite Hb, (get_drop _ _ _ _ H). reflexivity.
Qed.

Lemma slice_in_range (s : string) (lo hi : Z) :
  0 <= lo <= hi -> hi <= len s ->
  slice s lo hi = Ret (take (Z.to_nat (hi - lo)) (drop (Z.to_nat lo) s)).
Proof.
  intros H1 H2. unfold slice.
  assert (Hb : (0 <=? lo) && (lo <=? hi) && (hi <=? len s) = true).
  { repeat (apply andb_true_intro; split); apply Z.leb_le; lia. }
  rewrite Hb. reflexivity.
Qed.

Lemma slice_out_of_range (s : string) (lo hi : Z) :
  hi < lo -> slice s lo hi = Panic "slice bounds out of range".
Proof.
  intros H. unfold slice.
  assert (Hb : (lo <=? hi) = false) by (apply Z.leb_gt; lia).
  rewrite Hb, andb_false_r. reflexivity.
Qed.

(** ** The unit tests of the repository, run on the model *)

Example TestConcatCandidates :
  forallb (fun t => outcome_is (concatCandidates (fst t)) (snd t))
    concatCandidates_tests = true.
Proof. vm_compute. reflexivity. Qed.

Example TestExtractFirstJSON :
  forallb (fun t => outcome_is (extractFirstJSON (fst t)) (snd t))
    extractFirstJSON_tests = true.
Proof. vm_compute. reflexivity. Qed.

Example TestRun_ParsesConfigAndReturnsResult :
  let env := example_env (model_says EmptyString) one_pod EmptyString in
  exists m w,
    Run env
      (test_vars env
         (json_text "{'text':'ok','promote':true,'confidence':100}",
          mkAIAnalysisResult "ok" true 100, None))
      test_run (test_metric "{'model':'gemini-1.5-pro-latest'}") initial_world
    = Ret (m, w)
    /\ Phase m = AnalysisPhaseSuccessful
    /\ Value m = "1.00"
    /\ (Metadata m ≫= lookup "confidence") = Some "100".
Proof.
  intros env.
  match eval vm_compute in
        (Run env
           (test_vars env
              (json_text "{'text':'ok','promote':true,'confidence':100}",
               mkAIAnalysisResult "ok" true 100, None))
           test_run (test_metric "{'model':'gemini-1.5-pro-latest'}")
           initial_world)
  with
  | Ret (?m, ?w) => exists m, w
  end.
  vm_compute. repeat split; reflexivity.
Qed.

Example TestRun_FailureCreatesIssue :
  let env := example_env (model_says EmptyString) one_pod EmptyString in
  exists m w,
    Run env
      (test_vars env
         (json_text "{'text':'canary is bad','promote':false,'confidence':90}",
          mkAIAnalysisResult "canary is bad" false 90, None))
      test_run
      (test_metric
         "{'model':'gemini-1.5-pro-latest','githubUrl':'https://github.com/owner/repo'}")
      initial_world
    = Ret (m, w)
    /\ Phase m = AnalysisPhaseFailed
    /\ Value m = "0"
    /\ exists logs, trace w
                    = [EvCreateIssue logs "canary is bad"
                         "https://github.com/owner/repo"].
Proof.
  intros env.
  match eval vm_compute in
        (Run env
           (test_vars env
              (json_text
                 "{'text':'canary is bad','promote':false,'confidence':90}",
               mkAIAnalysisResult "canary is bad" false 90, None))
           test_run
           (test_metric
              "{'model':'gemini-1.5-pro-latest','githubUrl':'https://github.com/owner/repo'}")
           initial_world)
  with
  | Ret (?m, ?w) => exists m, w
  end.
  vm_compute. repeat split; try reflexivity.
  eexists. reflexivity.
Qed.

(** The fourth scenario of the specification: a model text with prose
    around the record. *)
Example extraction_scenario :
  parse_result
    (json_text
       "Here is the result: {'text':'ok','promote':true,'confidence':80} thanks")
  = Ret (json_text "{'text':'ok','promote':true,'confidence':80}",
         mkAIAnalysisResult "ok" true 80).
Proof. vm_compute. reflexivity. Qed.

(** ** The response extractor *)

Lemma has_prefix_brace (s : string) :
  has_prefix "{" s = match s with
                     | String c _ => eqb_byte c "{"
                     | EmptyString => false
                     end.
Proof.
  destruct s as [|c s]; [reflexivity|].
  change (has_prefix "{" (String c s))
    with (Ascii.eqb "{" c && has_prefix EmptyString s).
  change (has_prefix EmptyString s) with true.
  unfold eqb_byte. rewrite andb_true_r. apply Ascii.eqb_sym.
Qed.

Lemma Index_from_no_brace (s : string) (i : Z) :
  no_open_brace s = true -> Index_from s "{" i = -1.
Proof.
  revert i. induction s as [|c s IH]; intros i H.
  - reflexivity.
  - simpl in H. apply andb_true_iff in H as [Hc Hs].
    change (Index_from (String c s) "{" i)
      with (if has_prefix "{" (String c s) then i
            else Index_from s "{" (i + 1)).
    rewrite has_prefix_brace. apply negb_true_iff in Hc. rewrite Hc.
    apply IH. exact Hs.
Qed.

Lemma Index_from_first_brace (pre rest : string) (i : Z) :
  no_open_brace pre = true ->
  Index_from (pre +:+ String "{" rest) "{" i = i + len pre.
Proof.
  revert i. induction pre as [|c pre IH]; intros i H.
  - change (EmptyString +:+ String "{" rest) with (String "{" rest).
    change (Index_from (String "{" rest) "{" i)
      with (if has_prefix "{" (String "{" rest) then i
            else Index_from rest "{" (i + 1)).
    rewrite has_prefix_brace. unfold len. simpl. lia.
  - simpl in H. apply andb_true_iff in H as [Hc Hs].
    rewrite app_cons.
    change (Index_from (String c (pre +:+ String "{" rest)) "{" i)
      with (if has_prefix "{" (String c (pre +:+ String "{" rest)) then i
            else Index_from (pre +:+ String "{" rest) "{" (i + 1)).
    rewrite has_prefix_brace. apply negb_true_iff in Hc. rewrite Hc.
    rewrite IH by exact Hs. rewrite len_cons. lia.
Qed.

Lemma first_brace_split (s : string) :
  no_open_brace s = false ->
  exists pre rest, s = pre +:+ String "{" rest /\ no_open_brace pre = true.
Proof.
  induction s as [|c s IH]; intros H; [discriminate|].
  simpl in H. destruct (eqb_byte c "{") eqn:Hc.
  - exists EmptyString, s. split; [|reflexivity].
    unfold eqb_byte in Hc. apply Ascii.eqb_eq in Hc. subst c. reflexivity.
  - simpl in H. destruct (IH H) as (pre & rest & -> & Hpre).
    exists (String c pre), rest. split; [reflexivity|].
    simpl. rewrite Hc. exact Hpre.
Qed.

(** The loop over indices is the scan of the bytes that are left. *)
Lemma extractFirstJSON_loop_scan (s : string) (start : Z) (n : nat)
    (i depth : Z) :
  0 <= start <= i ->
  Z.of_nat n = len s - i ->
  extractFirstJSON_loop s start n i depth =
    match scan_close (drop (Z.to_nat i) s) depth with
    | Some k =>
        Ret (take (Z.to_nat (i + Z.of_nat k + 1 - start))
               (drop (Z.to_nat start) s))
    | None => Ret EmptyString
    end.
Proof.
  revert i depth. induction n as [|n IH]; intros i depth Hi Hn.
  - rewrite drop_all by (unfold len in Hn; lia). reflexivity.
  - destruct (drop (Z.to_nat i) s) as [|c r] eqn:Hd.
    { exfalso. pose proof (length_drop (Z.to_nat i) s) as Hl.
      rewrite Hd in Hl. unfold len in Hn. simpl in Hl. lia. }
    simpl extractFirstJSON_loop.
    rewrite (index_in_range s r c i) by (lia || exact Hd).
    simpl obind.
    assert (Hnext : drop (Z.to_nat (i + 1)) s = r).
    { replace (Z.to_nat (i + 1)) with (S (Z.to_nat i)) by lia.
      apply (drop_cons_S _ _ _ _ Hd). }
    assert (Hstep : forall d,
      extractFirstJSON_loop s start n (i + 1) d =
        match option_map S (scan_close r d) with
        | Some k =>
            Ret (take (Z.to_nat (i + Z.of_nat k + 1 - start))
                   (drop (Z.to_nat start) s))
        | None => Ret EmptyString
        end).
    { intros d. rewrite IH by lia. rewrite Hnext.
      destruct (scan_close r d) as [k|]; simpl; [|reflexivity].
      do 2 f_equal. lia. }
    simpl scan_close.
    destruct (eqb_byte c "{"); [apply Hstep|].
    destruct (eqb_byte c "}"); [|apply Hstep].
    destruct (depth - 1 =? 0); [|apply Hstep].
    pose proof (drop_cons_length _ _ _ _ Hd) as Hlt.
    rewrite slice_in_range by (unfold len; lia).
    do 2 f_equal. lia.
Qed.

Lemma depth_of_take_S (c : ascii) (r : string) (j : nat) :
  depth_of (take (S j) (String c r)) = brace_step c + depth_of (take j r).
Proof. reflexivity. Qed.

(** The scan returns at the first point where the count is back at
    zero. *)
Lemma scan_close_spec (r : string) (d : Z) :
  0 < d ->
  match scan_close r d with
  | Some k =>
      (k < String.length r)%nat
      /\ d + depth_of (take (S k) r) = 0
      /\ forall j, (j <= k)%nat -> 0 < d + depth_of (take j r)
  | None => forall j, 0 < d + depth_of (take j r)
  end.
Proof.
  revert d. induction r as [|c r IH]; intros d Hd.
  - simpl. intros j. destruct j; simpl; lia.
  - assert (Hrec : forall d',
      0 < d' -> d' = d + brace_step c ->
      match option_map S (scan_close r d') with
      | Some k =>
          (k < String.length (String c r))%nat
          /\ d + depth_of (take (S k) (String c r)) = 0
          /\ forall j, (j <= k)%nat -> 0 < d + depth_of (take j (String c r))
      | None => forall j, 0 < d + depth_of (take j (String c r))
      end).
    { intros d' Hd' Heq. specialize (IH d' Hd').
      destruct (scan_close r d') as [k|]; simpl option_map.
      - destruct IH as (Hk & Hz & Hpos). split; [simpl; lia|]. split.
        + rewrite depth_of_take_S. lia.
        + intros [|j] Hj; [simpl; lia|].
          rewrite depth_of_take_S. specialize (Hpos j). lia.
      - intros [|j]; [simpl; lia|].
        rewrite depth_of_take_S. specialize (IH j). lia. }
    simpl scan_close. unfold brace_step in Hrec.
    destruct (eqb_byte c "{") eqn:Ho; [apply Hrec; lia|].
    destruct (eqb_byte c "}") eqn:Hc; [|apply Hrec; lia].
    destruct (d - 1 =? 0) eqn:Hz0.
    + apply Z.eqb_eq in Hz0. split; [simpl; lia|]. split.
      * rewrite depth_of_take_S. unfold brace_step. rewrite Ho, Hc.
        simpl. lia.
      * intros j Hj. replace j with 0%nat by lia. simpl. lia.
    + apply Z.eqb_neq in Hz0. apply Hrec; lia.
Qed.

(** [extractFirstJSON] by cases on the first opening brace. *)
Lemma extractFirstJSON_no_brace (s : string) :
  no_open_brace s = true -> extractFirstJSON s = Ret EmptyString.
Proof.
  intros Hs. unfold extractFirstJSON, Index.
  rewrite Index_from_no_brace by exact Hs. reflexivity.
Qed.

Lemma extractFirstJSON_from_brace (pre rest : string) :
  no_open_brace pre = true ->
  extractFirstJSON (pre +:+ String "{" rest) =
    match scan_close rest 1 with
    | Some k => Ret (String "{" (take (S k) rest))
    | None => Ret EmptyString
    end.
Proof.
  intros Hpre. unfold extractFirstJSON, Index.
  rewrite Index_from_first_brace by exact Hpre.
  pose proof (len_nonneg pre) as Hlen.
  replace (0 + len pre =? -1) with false by (symmetry; apply Z.eqb_neq; lia).
  rewrite extractFirstJSON_loop_scan;
    [|lia|rewrite len_app, len_cons; pose proof (len_nonneg rest); lia].
  replace (Z.to_nat (0 + len pre)) with (String.length pre)
    by (unfold len; lia).
  rewrite drop_app_length.
  change (scan_close (String "{" rest) 0)
    with (option_map S (scan_close rest (0 + 1))).
  change (0 + 1) with 1.
  destruct (scan_close rest 1) as [k|]; simpl option_map; cbn iota;
    [|reflexivity].
  replace (Z.to_nat (0 + len pre + Z.of_nat (S k) + 1 - (0 + len pre)))
    with (S (S k)) by lia.
  reflexivity.
Qed.

(** [extractFirstJSON] returns on every input: its index and slice
    expressions stay inside their bounds. *)
Lemma extractFirstJSON_total (s : string) :
  exists r, extractFirstJSON s = Ret r.
Proof.
  destruct (no_open_brace s) eqn:Hs.
  - exists EmptyString. apply extractFirstJSON_no_brace. exact Hs.
  - destruct (first_brace_split s Hs) as (pre & rest & -> & Hpre).
    rewrite extractFirstJSON_from_brace by exact Hpre.
    destruct (scan_close rest 1); eauto.
Qed.

(** C6. For every input, [extractFirstJSON] returns, without a panic,
    the bytes from the first opening brace to the first point where the
    nesting count is back at zero; it returns the empty string when the
    input holds no opening brace, and when the count never returns to
    zero after the first one. *)
Theorem extractFirstJSON_first_object (s : string) :
  exists r, extractFirstJSON s = Ret r /\ first_object s r.
Proof.
  destruct (no_open_brace s) eqn:Hs.
  - exists EmptyString. split; [apply extractFirstJSON_no_brace; exact Hs|].
    apply fo_no_brace. exact Hs.
  - destruct (first_brace_split s Hs) as (pre & rest & -> & Hpre).
    rewrite extractFirstJSON_from_brace by exact Hpre.
    pose proof (scan_close_spec rest 1 ltac:(lia)) as Hspec.
    destruct (scan_close rest 1) as [k|].
    + destruct Hspec as (Hk & Hz & Hpos).
      exists (String "{" (take (S k) rest)). split; [reflexivity|].
      apply (fo_found _ pre (take (S k) rest) (drop (S k) rest)).
      * rewrite app_cons, take_drop. reflexivity.
      * exact Hpre.
      * change (depth_of (String "{" (take (S k) rest)))
          with (1 + depth_of (take (S k) rest)). lia.
      * intros n Hn. rewrite length_take in Hn.
        destruct n as [|n]; [lia|].
        rewrite depth_of_take_S. rewrite take_take by lia.
        specialize (Hpos n). change (brace_step "{") with 1. lia.
    + exists EmptyString. split; [reflexivity|].
      apply (fo_unbalanced _ pre rest); [reflexivity|exact Hpre|].
      intros n Hn. destruct n as [|n]; [lia|].
      rewrite depth_of_take_S. specialize (Hspec n).
      change (brace_step "{") with 1. lia.
Qed.

(** The specification determines the result: whatever it allows is what
    [extractFirstJSON] returns. *)
Lemma first_object_complete (s r : string) :
  first_object s r -> extractFirstJSON s = Ret r.
Proof.
  intros H. destruct H as [Hs|pre rest -> Hpre Hnz|pre body post -> Hpre Hz Hnz].
  - apply extractFirstJSON_no_brace. exact Hs.
  - rewrite extractFirstJSON_from_brace by exact Hpre.
    pose proof (scan_close_spec rest 1 ltac:(lia)) as Hspec.
    destruct (scan_close rest 1) as [k|]; [|reflexivity].
    destruct Hspec as (Hk & Hzero & _). exfalso.
    apply (Hnz (S (S k))); [lia|].
    rewrite depth_of_take_S. change (brace_step "{") with 1. lia.
  - rewrite app_cons.
    rewrite extractFirstJSON_from_brace by exact Hpre.
    change (depth_of (String "{" body)) with (1 + depth_of body) in Hz.
    assert (Hbody : depth_of (take (String.length body) (body +:+ post))
                    = depth_of body) by (rewrite take_app_length; reflexivity).
    pose proof (scan_close_spec (body +:+ post) 1 ltac:(lia)) as Hspec.
    destruct (scan_close (body +:+ post) 1) as [k|].
    + destruct Hspec as (Hk & Hzero & Hpos).
      assert (Hlen : S k = String.length body).
      { destruct (Nat.lt_trichotomy (S k) (String.length body))
          as [Hlt|[Heq|Hgt]]; [|exact Heq|].
        - exfalso. apply (Hnz (S (S k))); [lia|].
          rewrite depth_of_take_S. change (brace_step "{") with 1.
          rewrite <- (take_app_le (S k) body post) by lia. lia.
        - exfalso. specialize (Hpos (String.length body) ltac:(lia)). lia. }
      rewrite Hlen, take_app_length. reflexivity.
    + exfalso. specialize (Hspec (String.length body)). lia.
Qed.

Lemma first_object_unique (s r1 r2 : string) :
  first_object s r1 -> first_object s r2 -> r1 = r2.
Proof.
  intros H1 H2.
  apply first_object_complete in H1. apply first_object_complete in H2.
  congruence.
Qed.

(** ** The split of the log context *)

Lemma has_prefix_take (sub r : string) :
  has_prefix sub r = String.eqb (take (String.length sub) r) sub.
Proof.
  revert r. induction sub as [|a sub IH]; intros r.
  - reflexivity.
  - destruct r as [|b r]; [reflexivity|].
    change (has_prefix (String a sub) (String b r))
      with (Ascii.eqb a b && has_prefix sub r).
    change (take (String.length (String a sub)) (String b r))
      with (String b (take (String.length sub) r)).
    change (String.eqb (String b (take (String.length sub) r)) (String a sub))
      with (Ascii.eqb b a && String.eqb (take (String.length sub) r) sub).
    rewrite IH, (Ascii.eqb_sym a b). reflexivity.
Qed.

Lemma has_prefix_short (sub r : string) :
  (String.length r < String.length sub)%nat -> has_prefix sub r = false.
Proof.
  revert r. induction sub as [|a sub IH]; intros r H; simpl in H; [lia|].
  destruct r as [|b r]; [reflexivity|].
  change (has_prefix (String a sub) (String b r))
    with (Ascii.eqb a b && has_prefix sub r).
  rewrite IH by (simpl in H; lia). apply andb_false_r.
Qed.

Lemma Index_from_unfold (s sub : string) (i : Z) :
  Index_from s sub i =
    if has_prefix sub s then i
    else match s with
         | EmptyString => -1
         | String _ s' => Index_from s' sub (i + 1)
         end.
Proof. destruct s; reflexivity. Qed.

Lemma Index_from_short (sub r : string) (i : Z) :
  (String.length r < String.length sub)%nat -> Index_from r sub i = -1.
Proof.
  revert i. induction r as [|c r IH]; intros i H.
  - rewrite Index_from_unfold, has_prefix_short by exact H. reflexivity.
  - rewrite Index_from_unfold, has_prefix_short by exact H.
    apply IH. simpl in H. lia.
Qed.

(** [findIndex] never panics and computes [strings.Index]. *)
Lemma findIndex_loop_Index (sub s : string) (n : nat) (i : Z) :
  0 <= i <= len s ->
  Z.of_nat n = Z.max 0 (len s - len sub + 1 - i) ->
  findIndex_loop s sub n i = Ret (Index_from (drop (Z.to_nat i) s) sub i).
Proof.
  revert i. induction n as [|n IH]; intros i Hi Hn.
  - rewrite Index_from_short; [reflexivity|].
    rewrite length_drop. unfold len in *. lia.
  - simpl findIndex_loop. pose proof (len_nonneg sub) as Hsub.
    rewrite slice_in_range by lia.
    replace (Z.to_nat (i + len sub - i)) with (String.length sub)
      by (unfold len; lia).
    simpl obind. rewrite <- has_prefix_take.
    rewrite (Index_from_unfold (drop (Z.to_nat i) s)).
    destruct (has_prefix sub (drop (Z.to_nat i) s)) eqn:Hp; [reflexivity|].
    destruct (drop (Z.to_nat i) s) as [|c r] eqn:Hd.
    + exfalso. pose proof (length_drop (Z.to_nat i) s) as Hl.
      rewrite Hd in Hl. simpl in Hl.
      assert (String.length sub = 0)%nat by (unfold len in *; lia).
      destruct sub; [discriminate Hp|discriminate].
    + pose proof (drop_cons_length _ _ _ _ Hd) as Hlt.
      rewrite IH by (unfold len in *; lia).
      replace (Z.to_nat (i + 1)) with (S (Z.to_nat i)) by lia.
      rewrite (drop_cons_S _ _ _ _ Hd). reflexivity.
Qed.

Lemma findIndex_Index (s sub : string) : findIndex s sub = Ret (Index s sub).
Proof.
  unfold findIndex, Index.
  rewrite findIndex_loop_Index.
  - reflexivity.
  - pose proof (len_nonneg s). lia.
  - pose proof (len_nonneg s). lia.
Qed.

Lemma Index_from_absent (sub s : string) (i : Z) :
  absent sub s -> Index_from s sub i = -1.
Proof.
  unfold absent, occurs_at. revert i.
  induction s as [|c s IH]; intros i H.
  - rewrite Index_from_unfold.
    destruct (has_prefix sub EmptyString) eqn:Hp; [|reflexivity].
    exfalso. exact (H 0%nat Hp).
  - rewrite Index_from_unfold.
    destruct (has_prefix sub (String c s)) eqn:Hp.
    + exfalso. exact (H 0%nat Hp).
    + apply IH. intros j. exact (H (S j)).
Qed.

Lemma Index_from_first_at (sub s : string) (k : nat) (i : Z) :
  first_at sub s k -> Index_from s sub i = i + Z.of_nat k.
Proof.
  unfold first_at, occurs_at. revert s i.
  induction k as [|k IH]; intros s i [Hk Hmin].
  - rewrite Index_from_unfold. rewrite drop_0 in Hk. rewrite Hk. lia.
  - rewrite Index_from_unfold.
    destruct (has_prefix sub s) eqn:Hp.
    { exfalso. apply (Hmin 0%nat); [lia|]. rewrite drop_0. exact Hp. }
    destruct s as [|c s].
    { simpl in Hk. congruence. }
    rewrite IH; [lia|]. split; [exact Hk|].
    intros j Hj. apply (Hmin (S j)). lia.
Qed.


Lemma absentb_sound (sub s : string) : absentb sub s = true -> absent sub s.
Proof.
  unfold absentb, absent, occurs_at. intros H j Hocc.
  rewrite forallb_forall in H.
  destruct (Nat.le_gt_cases j (String.length s)) as [Hle|Hgt].
  - specialize (H j). rewrite Hocc in H.
    assert (Hin : In j (seq 0 (S (String.length s)))) by (apply in_seq; lia).
    specialize (H Hin). discriminate.
  - rewrite drop_all in Hocc by lia.
    specialize (H (String.length s)).
    rewrite drop_all in H by lia. rewrite Hocc in H.
    assert (Hin : In (String.length s) (seq 0 (S (String.length s))))
      by (apply in_seq; lia).
    specialize (H Hin). discriminate.
Qed.

(** Where the first canary marker starts before the end of the first
    stable marker, the slice expression of the stable logs panics. *)
Lemma splitLogs_panics (s : string) (i j : nat) :
  first_at stableMarker s i -> first_at canaryMarker s j ->
  (j < i + String.length stableMarker)%nat ->
  splitLogs s = Panic "slice bounds out of range".
Proof.
  intros Hs Hc Hlt. unfold splitLogs.
  rewrite !findIndex_Index. unfold Index. cbn [obind].
  rewrite (Index_from_first_at _ _ _ _ Hs), (Index_from_first_at _ _ _ _ Hc).
  replace ((0 + Z.of_nat i =? -1) || (0 + Z.of_nat j =? -1)) with false.
  2:{ symmetry. apply orb_false_iff. split; apply Z.eqb_neq; lia. }
  rewrite slice_out_of_range; [reflexivity|].
  unfold len. lia.
Qed.


(** Outside the contexts [Run] builds: an input in which a canary
    marker comes before the stable marker. *)
Example splitLogs_reversed_markers :
  splitLogs (canaryMarker +:+ nl +:+ "canary line" +:+ nl +:+ stableMarker
             +:+ nl +:+ "stable line")
    = Panic "slice bounds out of range".
Proof. vm_compute. reflexivity. Qed.

(** ** The verdict *)

Lemma Sprintf_2f_confidence_range :
  forallb
    (fun c => String.eqb
                (Float64.Sprintf_2f
                   (Float64.div (Float64.of_int c) (Float64.of_int 100)))
                (two_decimals c))
    confidence_range = true.
Proof. vm_compute. reflexivity. Qed.

(** The float division and the verb [%.2f] give the two decimals of
    [c/100] for each of the 101 confidence values. *)
Lemma Sprintf_2f_confidence (c : Z) :
  0 <= c <= 100 ->
  Float64.Sprintf_2f (Float64.div (Float64.of_int c) (Float64.of_int 100))
    = two_decimals c.
Proof.
  intros Hc. pose proof Sprintf_2f_confidence_range as H.
  rewrite forallb_forall in H. apply String.eqb_eq. apply H.
  unfold confidence_range. apply in_map_iff.
  exists (Z.to_nat c). split; [lia|]. apply in_seq. lia.
Qed.

Lemma mbind_Ret {A B} (c : M A) (k : A -> M B) (w w' : World) (a : A) :
  c w = Ret (a, w') -> mbind c k w = k a w'.
Proof. intros H. unfold mbind. rewrite H. reflexivity. Qed.

(** [Run], once its inputs are computed and the analysis has returned. *)
Lemma Run_after_analysis (env : Env) (vars : Vars) (ar : AnalysisRun)
    (metric : Metric) (w w1 w2 : World) (a : AnalysisInputs)
    (analysisJSON : string) (result : AIAnalysisResult)
    (aiErr : option error) :
  Run_inputs env vars ar metric w = Ret (inr a, w1) ->
  analyzeWithMode env vars (in_analysisMode a) (in_modelName a)
    (in_logsContext a) (in_namespace a) (in_podName a)
    (ExtraPrompt_ (in_cfg a)) w1 = Ret ((analysisJSON, result, aiErr), w2) ->
  Run env vars ar metric w = Run_verdict env a analysisJSON result aiErr w2.
Proof.
  intros Hin Han. unfold Run.
  rewrite (mbind_Ret _ _ _ _ _ Hin). cbn beta iota.
  rewrite (mbind_Ret _ _ _ _ _ Han). reflexivity.
Qed.

(** C1. When the analysis of a run returns a record with [promote]
    true and a confidence [c] of [0..100], [Run] returns a successful
    measurement whose value is [c/100] with two decimal places; when it
    returns a record with [promote] false, the value is the string 0,
    whatever the confidence. *)
Theorem Run_value (env : Env) (vars : Vars) (ar : AnalysisRun)
    (metric : Metric) (w w1 w2 : World) (a : AnalysisInputs)
    (analysisJSON : string) (result : AIAnalysisResult) :
  Run_inputs env vars ar metric w = Ret (inr a, w1) ->
  analyzeWithMode env vars (in_analysisMode a) (in_modelName a)
    (in_logsContext a) (in_namespace a) (in_podName a)
    (ExtraPrompt_ (in_cfg a)) w1 = Ret ((analysisJSON, result, None), w2) ->
  (Promote result = true -> 0 <= Confidence result <= 100 ->
   exists m w3,
     Run env vars ar metric w = Ret (m, w3)
     /\ Phase m = AnalysisPhaseSuccessful
     /\ Value m = two_decimals (Confidence result))
  /\ (Promote result = false ->
      exists m w3,
        Run env vars ar metric w = Ret (m, w3)
        /\ Phase m = AnalysisPhaseFailed
        /\ Value m = "0").
Proof.
  intros Hin Han.
  rewrite (Run_after_analysis _ _ _ _ _ _ _ _ _ _ _ Hin Han).
  unfold Run_verdict. split.
  - intros Hp Hc. rewrite Hp, (Sprintf_2f_confidence _ Hc).
    eexists _, _. split; [reflexivity|]. split; reflexivity.
  - intros Hp. rewrite Hp.
    eexists _, _. split; [reflexivity|]. split; reflexivity.
Qed.

Lemma Run_value_witness :
  (exists m w3,
     Run (example_env (model_says EmptyString) one_pod EmptyString)
       (test_vars (example_env (model_says EmptyString) one_pod EmptyString)
          (json_text "{'text':'ok','promote':true,'confidence':100}",
           mkAIAnalysisResult "ok" true 100, None))
       test_run (test_metric "{'model':'gemini-1.5-pro-latest'}")
       initial_world = Ret (m, w3)
     /\ Phase m = AnalysisPhaseSuccessful
     /\ Value m = "1.00").
Proof.
  pose (env := example_env (model_says EmptyString) one_pod EmptyString).
  pose (vars := test_vars env
                  (json_text "{'text':'ok','promote':true,'confidence':100}",
                   mkAIAnalysisResult "ok" true 100, None)).
  pose (metric := test_metric "{'model':'gemini-1.5-pro-latest'}").
  let x := eval vm_compute in (Run_inputs env vars test_run metric initial_world) in
  match x with
  | Ret (inr ?a, ?w1) =>
      let y := eval vm_compute in
        (analyzeWithMode env vars (in_analysisMode a) (in_modelName a)
           (in_logsContext a) (in_namespace a) (in_podName a)
           (ExtraPrompt_ (in_cfg a)) w1) in
      match y with
      | Ret ((?j, ?r, None), ?w2) =>
          apply (proj1 (Run_value env vars test_run metric initial_world
                          w1 w2 a j r
                          ltac:(vm_compute; reflexivity)
                          ltac:(vm_compute; reflexivity)));
          [reflexivity | simpl; lia]
      end
  end.
Defined.

(** ** The retry controller *)

Section RetryFacts.
Context {L : Type}.
Variable env : Env.
Variable ctx : Context.
Variable operation : L -> M (option error * L).

(** One attempt that fails with an error that is no rate-limit signal:
    the closure counts it, records it and marks it permanent. *)
Lemma operationWithLogging_permanent (v : retryVars L) (w w' : World)
    (e : error) (l' : L) :
  operation (captured v) w = Ret ((Some e, l'), w') ->
  rate_limited e = false ->
  operationWithLogging operation v w
    = Ret ((Some (Permanent e),
            mkRetryVars l' (backoffConfig v) (Some e) (attempt v + 1)), w').
Proof.
  intros Hop Hrl. unfold operationWithLogging.
  rewrite (mbind_Ret _ _ _ _ _ Hop). cbn beta iota.
  destruct e; try reflexivity.
  simpl in Hrl. rewrite Hrl. reflexivity.
Qed.

(** [backoff.Retry] stops at a permanent error of the first attempt. *)
Lemma Retry_permanent (fuel : nat) (v : retryVars L) (w w' : World)
    (e : error) (l' : L) :
  operation (captured v) w = Ret ((Some e, l'), w') ->
  rate_limited e = false ->
  Retry env ctx (operationWithLogging operation) backoffConfig
    set_backoffConfig (S fuel) v w
    = Ret ((Some e,
            mkRetryVars l' (backoff.Reset (backoffConfig v)) (Some e)
              (attempt v + 1)), w').
Proof.
  intros Hop Hrl. unfold Retry.
  rewrite (mbind_Ret _ _ w w (now w)) by reflexivity.
  cbn [Retry_loop].
  erewrite mbind_Ret.
  2:{ apply operationWithLogging_permanent; [exact Hop|exact Hrl]. }
  reflexivity.
Qed.

(** C4. An operation whose first attempt fails with an error that is
    no rate-limit signal is attempted once: the attempt counter is one,
    the state is the one the first attempt left, and the failure is
    returned, whatever [maxRetries] and the budget left. *)
Theorem retryWithBackoff_permanent (maxRetries : Z) (fuel : nat) (l l' : L)
    (w w' : World) (e : error) :
  operation l w = Ret ((Some e, l'), w') ->
  rate_limited e = false ->
  (exists v,
     retryWithBackoff_vars env ctx operation (S fuel) l w
       = Ret ((Some e, v), w')
     /\ attempt v = 1 /\ lastErr v = Some e /\ captured v = l')
  /\ retryWithBackoff env ctx operation maxRetries (S fuel) l w
     = Ret ((Some (ErrorString
                     ("max retries exceeded after 1 attempts, last error: "
                      +:+ Error env e)), l'), w').
Proof.
  intros Hop Hrl.
  assert (Hvars := Retry_permanent fuel
                     (mkRetryVars l (initial_backoffConfig) None 0)
                     w w' e l' Hop Hrl).
  split.
  - eexists. split; [exact Hvars|]. repeat split.
  - unfold retryWithBackoff, retryWithBackoff_vars.
    rewrite (mbind_Ret _ _ _ _ _ Hvars). reflexivity.
Qed.

End RetryFacts.

Lemma retryWithBackoff_permanent_witness :
  let env := example_env always_internal_error one_pod EmptyString in
  exists w',
    retryWithBackoff env Background (generate_operation env example_params)
      3 100 None initial_world
    = Ret ((Some (ErrorString
                    "max retries exceeded after 1 attempts, last error: <error>"),
            None), w')
    /\ gen_calls w' = 1%nat.
Proof.
  intros env.
  pose proof (retryWithBackoff_permanent env Background
                (generate_operation env example_params) 3 99 None None
                initial_world) as H.
  match eval vm_compute in
        (generate_operation env example_params None initial_world) with
  | Ret ((Some ?e, _), ?w1) =>
      specialize (H w1 e ltac:(vm_compute; reflexivity)
                    ltac:(vm_compute; reflexivity));
      exists w1; split; [exact (proj2 H)|vm_compute; reflexivity]
  end.
Defined.

(** *** An invariant of the variables of [backoff.Retry] *)

Section RetryInvariant.
Context {L : Type}.
Variable env : Env.
Variable ctx : Context.
Variable operation : L -> M (option error * L).
Variable get_BackOff : L -> backoff.ExponentialBackOff.
Variable set_BackOff : backoff.ExponentialBackOff -> L -> L.
Variable P : L -> Prop.

Hypothesis operation_keeps :
  forall l w err l' w',
    P l -> operation l w = Ret ((err, l'), w') -> P l'.
Hypothesis NextBackOff_keeps :
  forall l random,
    P l -> P (set_BackOff (snd (backoff.NextBackOff random (get_BackOff l))) l).

Lemma timer_wait_returns (next : Z) (w : World) :
  exists c w', timer_wait ctx next w = Ret (c, w').
Proof.
  unfold timer_wait, mbind, time_Now, emit, advance, mret.
  destruct ctx as [cancelled|]; [|eauto].
  destruct (cancelled <=? now w + Z.max 0 next); eauto.
Qed.

Lemma Retry_loop_invariant (fuel : nat) :
  forall startedAt numTries l w err l' w',
    P l ->
    Retry_loop env ctx operation get_BackOff set_BackOff fuel startedAt
      numTries l w = Ret ((err, l'), w') ->
    P l'.
Proof.
  induction fuel as [|fuel IH]; intros startedAt numTries l w err l' w' Hl Hrun.
  - discriminate Hrun.
  - cbn [Retry_loop] in Hrun. unfold mbind at 1 in Hrun.
    destruct (operation l w) as [[[r l1] w1]| |] eqn:Hop; try discriminate.
    pose proof (operation_keeps _ _ _ _ _ Hl Hop) as Hl1.
    destruct r as [e|]; [|injection Hrun as _ <- _; exact Hl1].
    destruct ((0 <? MaxTries) && (MaxTries <=? numTries));
      [injection Hrun as _ <- _; exact Hl1|].
    destruct (backoff.as_permanent e);
      [injection Hrun as _ <- _; exact Hl1|].
    unfold mbind at 1 in Hrun. unfold time_Now at 1 in Hrun.
    destruct (ctx_Err ctx (now w1));
      [injection Hrun as _ <- _; exact Hl1|].
    unfold mbind at 1 in Hrun. unfold rand at 1 in Hrun.
    pose proof (NextBackOff_keeps l1 (rand_Float64 env (rand_calls w1)) Hl1)
      as Hl2.
    destruct (backoff.NextBackOff (rand_Float64 env (rand_calls w1))
                (get_BackOff l1)) as [next b].
    cbn [snd] in Hl2.
    destruct (next =? backoff.Stop);
      [injection Hrun as _ <- _; exact Hl2|].
    unfold mbind at 1 in Hrun. unfold time_Now at 1 in Hrun.
    cbn beta iota in Hrun.
    match type of Hrun with
    | (if ?c then _ else _) _ = _ => destruct c
    end; [injection Hrun as _ <- _; exact Hl2|].
    unfold mbind at 1 in Hrun.
    match type of Hrun with
    | match timer_wait ctx next ?w2 with _ => _ end = _ =>
        destruct (timer_wait_returns next w2) as (c & w3 & Hw);
        rewrite Hw in Hrun
    end.
    destruct c; [injection Hrun as _ <- _; exact Hl2|].
    exact (IH _ _ _ _ _ _ _ Hl2 Hrun).
Qed.

End RetryInvariant.

Lemma NextBackOff_intervals (random : Float64.float64)
    (b : backoff.ExponentialBackOff) :
  backoff.InitialInterval (snd (backoff.NextBackOff random b))
    = backoff.InitialInterval b
  /\ backoff.MaxInterval (snd (backoff.NextBackOff random b))
     = backoff.MaxInterval b.
Proof.
  unfold backoff.NextBackOff, backoff.incrementCurrentInterval. cbn [snd].
  destruct (backoff.currentInterval b =? 0);
    match goal with
    | |- context [if ?c then _ else _] => destruct c
    end; split; reflexivity.
Qed.

(** An attempt leaves a pin in place, or replaces it by the hint it
    carries. *)
Lemma operationWithLogging_pinned {L : Type}
    (operation : L -> M (option error * L)) (d : Z) (v v' : retryVars L)
    (w w' : World) (err : option error) :
  hints_are d operation ->
  pinned d (backoffConfig v) ->
  operationWithLogging operation v w = Ret ((err, v'), w') ->
  pinned d (backoffConfig v').
Proof.
  intros Hh Hp Hrun. unfold operationWithLogging, mbind in Hrun.
  destruct (operation (captured v) w) as [[[r l1] w1]| |] eqn:Hop;
    try discriminate.
  destruct r as [e|]; [|injection Hrun as _ <- _; exact Hp].
  destruct e as [apiErr| | | | | | |];
    try (injection Hrun as _ <- _; exact Hp).
  destruct (is_rate_limit apiErr) eqn:Hrl;
    [|injection Hrun as _ <- _; exact Hp].
  destruct (0 <? apiWaitTime_of (genai.Details apiErr)) eqn:Hpos;
    injection Hrun as _ <- _; [|exact Hp].
  apply Z.ltb_lt in Hpos.
  rewrite <- (Hh _ _ _ _ _ Hop Hrl Hpos). split; reflexivity.
Qed.

(** C3. For an operation that always fails with a rate-limit error,
    [retryWithBackoff] does not stop at [maxRetries] attempts: called
    with [maxRetries = 3] it makes twenty attempts, waiting 1s, 2s, ...,
    32s and then 60s thirteen times, until the fifteen minutes of
    [backoff.Retry] are used up; its result is the same for every value
    of [maxRetries]. *)
Theorem retryWithBackoff_exceeds_maxRetries :
  let env := example_env always_rate_limited one_pod EmptyString in
  (exists w',
     retryWithBackoff env Background (generate_operation env example_params)
       3 100 None initial_world
     = Ret ((Some (ErrorString
                     "max retries exceeded after 20 attempts, last error: <error>"),
             None), w')
     /\ gen_calls w' = 20%nat
     /\ sleeps w'
        = map (fun s => s * Second)
            [1; 2; 4; 8; 16; 32; 60; 60; 60; 60; 60; 60; 60; 60; 60; 60; 60;
             60; 60])
  /\ (forall maxRetries fuel l w,
        retryWithBackoff env Background
          (generate_operation env example_params) maxRetries fuel l w
        = retryWithBackoff env Background
            (generate_operation env example_params) 3 fuel l w).
Proof.
  intros env. split; [|reflexivity].
  match eval vm_compute in
        (retryWithBackoff env Background
           (generate_operation env example_params) 3 100 None initial_world)
  with
  | Ret (_, ?w1) => exists w1
  end.
  vm_compute. repeat split; reflexivity.
Qed.

(** The first failure carries the hint of two seconds and the later
    ones none: the wait before the next attempt is one second, and
    every later wait is two seconds. *)
Example retry_hint_two_seconds :
  let env := example_env (hinted_once "2s") one_pod EmptyString in
  exists r w',
    retryWithBackoff env Background (generate_operation env example_params)
      3 1000 None initial_world = Ret (r, w')
    /\ firstn 8 (sleeps w')
       = map (fun s => s * Second) [1; 2; 2; 2; 2; 2; 2; 2].
Proof.
  intros env.
  match eval vm_compute in
        (retryWithBackoff env Background
           (generate_operation env example_params) 3 1000 None initial_world)
  with
  | Ret (?r1, ?w1) => exists r1, w1
  end.
  vm_compute. split; reflexivity.
Qed.

(** An attempt that fails with a rate-limit error carrying a parseable
    positive retry hint [d] pins both the initial and the max interval
    of the back-off to [d]; the pin is not undone after the next
    attempt: as long as no other hint arrives, the intervals are still
    [d] when [backoff.Retry] returns. *)
Lemma retry_hint_pins_intervals {L : Type} (env : Env) (ctx : Context)
    (operation : L -> M (option error * L)) (d : Z) :
  (forall v w w' apiErr l',
      operation (captured v) w = Ret ((Some (ErrAPI apiErr), l'), w') ->
      is_rate_limit apiErr = true ->
      apiWaitTime_of (genai.Details apiErr) = d ->
      0 < d ->
      exists v',
        operationWithLogging operation v w
          = Ret ((Some (ErrAPI apiErr), v'), w')
        /\ pinned d (backoffConfig v'))
  /\ (forall fuel startedAt numTries v w err v' w',
        hints_are d operation ->
        pinned d (backoffConfig v) ->
        Retry_loop env ctx (operationWithLogging operation) backoffConfig
          set_backoffConfig fuel startedAt numTries v w = Ret ((err, v'), w') ->
        pinned d (backoffConfig v')).
Proof.
  split.
  - intros v w w' apiErr l' Hop Hrl Hd Hpos.
    unfold operationWithLogging. rewrite (mbind_Ret _ _ _ _ _ Hop).
    cbn beta iota. rewrite Hrl, Hd.
    replace (0 <? d) with true by (symmetry; apply Z.ltb_lt; exact Hpos).
    eexists. split; [reflexivity|]. split; reflexivity.
  - intros fuel startedAt numTries v w err v' w' Hh Hp Hrun.
    refine (Retry_loop_invariant env ctx (operationWithLogging operation)
              backoffConfig set_backoffConfig
              (fun v => pinned d (backoffConfig v)) _ _
              fuel startedAt numTries v w err v' w' Hp Hrun).
    + intros l w0 err0 l'0 w'0 Hl Hrun0.
      exact (operationWithLogging_pinned operation d _ _ _ _ _ Hh Hl Hrun0).
    + intros l random Hl. destruct Hl as [Hi Hm].
      destruct (NextBackOff_intervals random (backoffConfig l)) as [Hi' Hm'].
      split; cbn [backoffConfig set_backoffConfig]; congruence.
Qed.

Lemma always_hinted_hints_are :
  hints_are (30 * Second)
    (generate_operation
       (example_env (always_hinted "30s") one_pod EmptyString) example_params).
Proof.
  intros l w apiErr l' w' Hop _ _.
  unfold generate_operation, Models_GenerateContent, mbind, mret in Hop.
  cbn in Hop. injection Hop as <- _ _.
  vm_compute. reflexivity.
Qed.

Example retry_hint_pins_intervals_example :
  let env := example_env (always_hinted "30s") one_pod EmptyString in
  let op := generate_operation env example_params in
  exists v1 w1,
    operationWithLogging op (mkRetryVars None initial_backoffConfig None 0)
      initial_world
    = Ret ((Some (rate_limit_error [retry_hint "30s"]), v1), w1)
    /\ pinned (30 * Second) (backoffConfig v1)
    /\ exists err v2 w2,
         Retry_loop env Background (operationWithLogging op) backoffConfig
           set_backoffConfig 100 0 2 v1 w1 = Ret ((err, v2), w2)
         /\ pinned (30 * Second) (backoffConfig v2).
Proof.
  intros env op.
  pose proof (retry_hint_pins_intervals env Background op (30 * Second))
    as [Hpin Hkeep].
  match eval vm_compute in (op None initial_world) with
  | Ret ((Some (ErrAPI ?apiErr), ?l1), ?w) =>
      pose (w1 := w);
      destruct (Hpin (mkRetryVars None initial_backoffConfig None 0)
                  initial_world w1 apiErr l1
                  ltac:(vm_compute; reflexivity)
                  ltac:(vm_compute; reflexivity)
                  ltac:(vm_compute; reflexivity)
                  ltac:(vm_compute; reflexivity))
        as (v1 & Hv1 & Hp1)
  end.
  exists v1, w1. split; [exact Hv1|]. split; [exact Hp1|].
  assert (Hv : v1 = mkRetryVars None
                      (backoff.set_MaxInterval (30 * Second)
                         (backoff.set_InitialInterval (30 * Second)
                            (backoff.Reset initial_backoffConfig)))
                      (Some (rate_limit_error [retry_hint "30s"])) 1).
  { unfold operationWithLogging, mbind in Hv1. cbn in Hv1.
    injection Hv1 as <-. reflexivity. }
  destruct (Retry_loop env Background (operationWithLogging op)
              backoffConfig set_backoffConfig 100 0 2 v1 w1)
    as [[[err v2] w2]| |] eqn:Hrun.
  - exists err, v2, w2. split; [reflexivity|].
    exact (Hkeep 100%nat 0 2 v1 w1 err v2 w2 always_hinted_hints_are Hp1 Hrun).
  - exfalso. revert Hrun. rewrite Hv. vm_compute. discriminate.
  - exfalso. revert Hrun. rewrite Hv. vm_compute. discriminate.
Defined.

(** ** The direct analyzer *)

Lemma decode_members_not_syntax {T : Type} (store : string -> json -> T -> T * bool)
    (ms : list (string * json)) (obj obj' : T) (err : option error) :
  decode_members store ms obj err = (obj', Some ErrSyntax) ->
  err = Some ErrSyntax.
Proof.
  revert obj err. induction ms as [|[key v] ms IH]; intros obj err H.
  - simpl in H. injection H as _ ->. reflexivity.
  - simpl in H. destruct (store key v obj) as [obj1 bad].
    apply IH in H. destruct err as [e|]; [exact H|].
    destruct bad; discriminate H.
Qed.

(** A text that is not valid JSON leaves the target of [Unmarshal]
    untouched. *)
Lemma Unmarshal_syntax_error {T : Type} (store : string -> json -> T -> T * bool)
    (data : string) (obj obj' : T) :
  Unmarshal store data obj = (obj', Some ErrSyntax) -> obj' = obj.
Proof.
  unfold Unmarshal, decode_value. intros H.
  destruct (parse data) as [v|]; [|injection H as <-; reflexivity].
  destruct v; try (injection H as <-; reflexivity); try discriminate H.
  apply decode_members_not_syntax in H. discriminate H.
Qed.

(** [analyzeLogsWithAI] once the model call has succeeded. *)
Lemma analyzeLogsWithAI_after_call (env : Env) (fuel : nat)
    (params : AIAnalysisParams) (w w1 w2 : World) (apiKey : string)
    (resp : option genai.GenerateContentResponse) (txt : string) :
  getSecretValue env "argo-rollouts" "google_api_key" w
    = Ret ((apiKey, None), w1) ->
  NewClient env = None ->
  retryWithBackoff env Background (generate_operation env params) 3 fuel
    None w1 = Ret ((None, resp), w2) ->
  concatCandidates resp = Ret txt ->
  analyzeLogsWithAI env fuel params w =
    match parse_result (TrimSpace txt) with
    | Ret (rawJSON, obj) => Ret ((rawJSON, obj, None), w2)
    | Panic msg => Panic msg
    | OutOfFuel => OutOfFuel
    end.
Proof.
  intros Hsecret Hclient Hretry Htxt. unfold analyzeLogsWithAI.
  rewrite (mbind_Ret _ _ _ _ _ Hsecret). cbn beta iota.
  rewrite Hclient.
  rewrite (mbind_Ret _ _ _ _ _ Hretry). cbn beta iota.
  rewrite Htxt. unfold mbind, lift, mret.
  destruct (parse_result (TrimSpace txt)) as [[rawJSON obj]| |]; reflexivity.
Qed.

(** C2, as amended. When the model call succeeds but its text, trimmed
    of white space, fails to parse as a record, and fails again after
    the extraction, [analyzeLogsWithAI] returns a nil error; the text
    it returns is the extracted block when the extractor found one and
    the trimmed text when it found none; the record is what the failed
    parses have stored, the zero value when they are syntax errors. *)
Theorem analyzeLogsWithAI_unparsable (env : Env) (fuel : nat)
    (params : AIAnalysisParams) (w w1 w2 : World) (apiKey : string)
    (resp : option genai.GenerateContentResponse) (txt : string)
    (obj1 : AIAnalysisResult) (e1 : error) :
  getSecretValue env "argo-rollouts" "google_api_key" w
    = Ret ((apiKey, None), w1) ->
  NewClient env = None ->
  retryWithBackoff env Background (generate_operation env params) 3 fuel
    None w1 = Ret ((None, resp), w2) ->
  concatCandidates resp = Ret txt ->
  Unmarshal_AIAnalysisResult (TrimSpace txt) AIAnalysisResult_zero
    = (obj1, Some e1) ->
  exists j,
    extractFirstJSON (TrimSpace txt) = Ret j
    /\ (j = EmptyString ->
        analyzeLogsWithAI env fuel params w
          = Ret ((TrimSpace txt, obj1, None), w2)
        /\ (e1 = ErrSyntax -> obj1 = AIAnalysisResult_zero))
    /\ (j <> EmptyString ->
        forall obj2 e2,
          Unmarshal_AIAnalysisResult j obj1 = (obj2, Some e2) ->
          analyzeLogsWithAI env fuel params w = Ret ((j, obj2, None), w2)
          /\ (e1 = ErrSyntax -> e2 = ErrSyntax ->
              obj2 = AIAnalysisResult_zero)).
Proof.
  intros Hsecret Hclient Hretry Htxt Hfail.
  destruct (extractFirstJSON_total (TrimSpace txt)) as (j & Hj).
  exists j. split; [exact Hj|].
  rewrite (analyzeLogsWithAI_after_call _ _ _ _ _ _ _ _ _
             Hsecret Hclient Hretry Htxt).
  unfold parse_result. rewrite Hfail, Hj. cbn [obind].
  split.
  - intros ->. split; [reflexivity|].
    intros ->. apply (Unmarshal_syntax_error _ _ _ _ Hfail).
  - intros Hne obj2 e2 Hfail2.
    apply String.eqb_neq in Hne. rewrite Hne. cbn [negb].
    rewrite Hfail2. split; [reflexivity|].
    intros -> ->.
    rewrite (Unmarshal_syntax_error _ _ _ _ Hfail2).
    apply (Unmarshal_syntax_error _ _ _ _ Hfail).
Qed.

Lemma analyzeLogsWithAI_unparsable_witness :
  let env := example_env (model_says "  see {x} ok ") one_pod EmptyString in
  exists w',
    analyzeLogsWithAI env 100 example_params initial_world
    = Ret (("{x}", AIAnalysisResult_zero, None), w').
Proof.
  intros env.
  match eval vm_compute in
        (getSecretValue env "argo-rollouts" "google_api_key" initial_world)
  with
  | Ret ((?apiKey, None), ?w1) =>
      match eval vm_compute in
            (retryWithBackoff env Background
               (generate_operation env example_params) 3 100 None w1)
      with
      | Ret ((None, ?resp), ?w2) =>
          destruct (analyzeLogsWithAI_unparsable env 100 example_params
                      initial_world w1 w2 apiKey resp "  see {x} ok "
                      AIAnalysisResult_zero ErrSyntax
                      ltac:(vm_compute; reflexivity)
                      ltac:(vm_compute; reflexivity)
                      ltac:(vm_compute; reflexivity)
                      ltac:(vm_compute; reflexivity)
                      ltac:(vm_compute; reflexivity))
            as (j & Hj & _ & Hfound);
          exists w2
      end
  end.
  assert (Hx : j = "{x}").
  { assert (He : extractFirstJSON (TrimSpace "  see {x} ok ") = Ret "{x}")
      by (vm_compute; reflexivity).
    rewrite He in Hj. injection Hj as <-. reflexivity. }
  subst j.
  exact (proj1 (Hfound ltac:(discriminate) AIAnalysisResult_zero ErrSyntax
                  ltac:(vm_compute; reflexivity))).
Defined.

(** C2 as stated fails on both counts.  The model text [see {x} ok]
    fails to parse, and so does the extracted block: the text returned
    is the block, not the text of the model.  A text whose [promote]
    member is a string fails to parse before and after the extraction,
    and the record returned is not the zero value: it holds the text and
    the confidence stored before and after the type error. *)
Lemma analyzeLogsWithAI_unparsable_counterexample :
  (let env := example_env (model_says "see {x} ok") one_pod EmptyString in
   exists w',
     analyzeLogsWithAI env 100 example_params initial_world
     = Ret (("{x}", AIAnalysisResult_zero, None), w')
     /\ Unmarshal_AIAnalysisResult "see {x} ok" AIAnalysisResult_zero
        = (AIAnalysisResult_zero, Some ErrSyntax)
     /\ Unmarshal_AIAnalysisResult "{x}" AIAnalysisResult_zero
        = (AIAnalysisResult_zero, Some ErrSyntax))
  /\ (let txt := json_text "{'text':'x','promote':'yes','confidence':50}" in
      let env := example_env (model_says txt) one_pod EmptyString in
      exists w',
        analyzeLogsWithAI env 100 example_params initial_world
        = Ret ((txt, mkAIAnalysisResult "x" false 50, None), w')
        /\ Unmarshal_AIAnalysisResult txt AIAnalysisResult_zero
           = (mkAIAnalysisResult "x" false 50,
              Some (ErrUnmarshalType "promote"))
        /\ extractFirstJSON txt = Ret txt).
Proof.
  split.
  - intros env.
    match eval vm_compute in
          (analyzeLogsWithAI env 100 example_params initial_world) with
    | Ret (_, ?w1) => exists w1
    end.
    vm_compute. repeat split; reflexivity.
  - intros txt env.
    match eval vm_compute in
          (analyzeLogsWithAI env 100 example_params initial_world) with
    | Ret (_, ?w1) => exists w1
    end.
    vm_compute. repeat split; reflexivity.
Qed.

(** ** The records the engine produces *)

Lemma parse_result_stored (t raw : string) (result : AIAnalysisResult) :
  parse_result t = Ret (raw, result) -> stored_by_decoder t result.
Proof.
  unfold parse_result, stored_by_decoder. intros H.
  destruct (Unmarshal_AIAnalysisResult t AIAnalysisResult_zero)
    as [obj e] eqn:Hu.
  destruct e as [e|]; [|injection H as _ <-; left; reflexivity].
  destruct (extractFirstJSON t) as [j| |] eqn:Hj; try discriminate H.
  cbn [obind] in H.
  destruct (negb (String.eqb j EmptyString)).
  - destruct (Unmarshal_AIAnalysisResult j obj) as [obj2 e2] eqn:Hu2.
    injection H as _ <-. right. exists j. split; [reflexivity|].
    cbn [fst]. rewrite Hu2. reflexivity.
  - injection H as _ <-. left. reflexivity.
Qed.

(** The record of the direct analyzer is the one the decoder stored. *)
Lemma analyzeLogsWithAI_record (env : Env) (fuel : nat)
    (params : AIAnalysisParams) (w w' : World) (raw : string)
    (result : AIAnalysisResult) :
  analyzeLogsWithAI env fuel params w = Ret ((raw, result, None), w') ->
  exists resp txt,
    concatCandidates resp = Ret txt
    /\ stored_by_decoder (TrimSpace txt) result.
Proof.
  unfold analyzeLogsWithAI. intros H. unfold mbind at 1 in H.
  destruct (getSecretValue env "argo-rollouts" "google_api_key" w)
    as [[[apiKey err] w1]| |]; try discriminate H.
  destruct err; [discriminate H|].
  destruct (NewClient env); [discriminate H|].
  unfold mbind at 1 in H.
  destruct (retryWithBackoff env Background (generate_operation env params)
              3 fuel None w1) as [[[err resp] w2]| |]; try discriminate H.
  destruct err; [discriminate H|].
  unfold mbind, lift, mret in H.
  destruct (concatCandidates resp) as [txt| |] eqn:Htxt; try discriminate H.
  destruct (parse_result (TrimSpace txt)) as [[raw' obj]| |] eqn:Hp;
    try discriminate H.
  injection H as _ <- _.
  exists resp, txt. split; [exact Htxt|].
  exact (parse_result_stored _ _ _ Hp).
Qed.

(** The record of the delegated analysis is the decoded response of the
    agent. *)
Lemma analyzeWithKubernetesAgent_record (env : Env)
    (namespace podName logsContext : string) (w w' : World) (raw : string)
    (result : AIAnalysisResult) :
  analyzeWithKubernetesAgent env namespace podName logsContext w
    = Ret ((raw, result, None), w') ->
  exists url body respBody resp,
    HTTPPost env url body = (StatusOK, respBody, None)
    /\ Decode store_A2AResponse respBody A2AResponse_zero = (resp, None)
    /\ result = {| Text := Analysis resp;
                   Promote := A2APromote resp;
                   Confidence := A2AConfidence resp |}.
Proof.
  unfold analyzeWithKubernetesAgent. intros H.
  unfold mbind at 1 in H. unfold HealthCheck, mbind, emit in H.
  destruct (HTTPGet env _) as [st0 err0]. destruct err0; [discriminate H|].
  unfold mret at 1 in H. unfold lift at 1 in H.
  destruct (splitLogs logsContext) as [[stableLogs canaryLogs]| |];
    try discriminate H.
  unfold AnalyzeWithAgent in H.
  destruct (Marshal env _) as [body err1] in H.
  destruct err1; [discriminate H|].
  unfold mbind, emit in H.
  match type of H with
  | context [HTTPPost env ?u ?b] =>
      destruct (HTTPPost env u b) as [[status respBody] err2] eqn:Hpost
  end.
  destruct err2; [discriminate H|].
  destruct (status =? StatusOK) eqn:Hst; cbn [negb] in H; [|discriminate H].
  destruct (Decode store_A2AResponse respBody A2AResponse_zero)
    as [resp err3] eqn:Hdec.
  destruct err3; [discriminate H|].
  unfold mret at 1 in H.
  destruct (Marshal env _) as [rawJSON err4] in H.
  destruct err4; [discriminate H|].
  injection H as _ <- _.
  apply Z.eqb_eq in Hst. subst status.
  eexists _, _, respBody, resp. split; [exact Hpost|]. split; [exact Hdec|].
  reflexivity.
Qed.


(** ** The mode dispatch of [Run] *)



Lemma getKubeClient_result (env : Env) (w : World) :
  (getKubeClient env w = Ret ((Some mkClientset, None), w))
  \/ (exists err, getKubeClient env w = Ret ((None, Some err), w)).
Proof.
  unfold getKubeClient, mret.
  destruct (InClusterConfig env); [destruct (ClientConfig env)|];
    try destruct (NewForConfig env); eauto.
Qed.


(** [fetchFirstPodLogs] returns, and only talks to the cluster. *)
Lemma fetchFirstPodLogs_result (env : Env) (ctx : Context)
    (namespace selector : string) (w : World) :
  exists logs err w',
    fetchFirstPodLogs env ctx (Some mkClientset) namespace selector w
      = Ret ((logs, err), w')
    /\ only_log_retrieval w w'
    /\ (logs_available env namespace selector -> err = None).
Proof.
  unfold fetchFirstPodLogs, Pods_List, mbind, emit, mret.
  destruct (PodsList env namespace selector) as [pods err] eqn:Hpods.
  assert (Hlist : only_log_retrieval w
            {| now := now w;
               trace := EvPodsList namespace selector :: trace w;
               gen_calls := gen_calls w;
               rand_calls := rand_calls w |}).
  { exists [EvPodsList namespace selector]. repeat split.
    repeat constructor. }
  destruct err as [err|].
  { eexists _, _, _. split; [reflexivity|]. split; [exact Hlist|].
    intros (pod & rest & logs & Hp & _). congruence. }
  destruct pods as [|pod rest].
  { eexists _, _, _. split; [reflexivity|]. split; [exact Hlist|].
    intros (pod & rest & logs & Hp & _). congruence. }
  destruct (PodLogs env namespace pod) as [bytes err] eqn:Hlogs.
  assert (Hboth : only_log_retrieval w
            {| now := now w;
               trace := EvPodLogs namespace pod
                        :: EvPodsList namespace selector :: trace w;
               gen_calls := gen_calls w;
               rand_calls := rand_calls w |}).
  { exists [EvPodLogs namespace pod; EvPodsList namespace selector].
    repeat split. repeat constructor. }
  destruct err as [err|].
  - eexists _, _, _. split; [reflexivity|]. split; [exact Hboth|].
    intros (pod' & rest' & logs & Hp & Hl).
    rewrite Hpods in Hp. injection Hp as <- _. congruence.
  - eexists _, _, _. split; [reflexivity|]. split; [exact Hboth|].
    reflexivity.
Qed.





(** * Further properties *)

(** ** The search for a marker *)

Lemma first_at_or_absent (sub s : string) :
  absent sub s \/ exists k, first_at sub s k.
Proof.
  induction s as [|c s IH].
  - destruct (has_prefix sub EmptyString) eqn:Hp.
    + right. exists 0%nat. split; [exact Hp|]. intros j Hj. lia.
    + left. intros j Hocc. unfold occurs_at in Hocc.
      destruct j; cbn [drop] in Hocc; congruence.
  - destruct (has_prefix sub (String c s)) eqn:Hp.
    + right. exists 0%nat. split; [exact Hp|]. intros j Hj. lia.
    + destruct IH as [Ha|[k [Hk Hmin]]].
      * left. intros [|j] Hocc; unfold occurs_at in Hocc; cbn [drop] in Hocc.
        -- congruence.
        -- exact (Ha j Hocc).
      * right. exists (S k). split; [exact Hk|].
        intros [|j] Hj Hocc; unfold occurs_at in Hocc; cbn [drop] in Hocc.
        -- congruence.
        -- apply (Hmin j); [lia|exact Hocc].
Qed.

(** X1. [findIndex] never panics: it returns [-1] when the substring
    does not occur, and the offset of its first occurrence when it
    does. *)
Theorem findIndex_first_occurrence (s sub : string) :
  exists i,
    findIndex s sub = Ret i
    /\ ((i = -1 /\ absent sub s)
        \/ (0 <= i /\ first_at sub s (Z.to_nat i))).
Proof.
  exists (Index s sub). split; [apply findIndex_Index|].
  unfold Index.
  destruct (first_at_or_absent sub s) as [Ha|[k Hk]].
  - left. split; [apply Index_from_absent; exact Ha|exact Ha].
  - right. rewrite (Index_from_first_at _ _ _ _ Hk).
    split; [lia|]. replace (Z.to_nat (0 + Z.of_nat k)) with k by lia.
    exact Hk.
Qed.

(** ** The split of the context [Run] builds *)

Lemma occurs_at_length (sub s : string) (j : nat) :
  (0 < String.length sub)%nat ->
  occurs_at sub s j -> (j + String.length sub <= String.length s)%nat.
Proof.
  unfold occurs_at. intros Hsub Hocc.
  destruct (Nat.le_gt_cases (String.length sub) (String.length (drop j s)))
    as [Hle|Hgt].
  - rewrite length_drop in Hle.
    destruct (Nat.le_gt_cases j (String.length s)) as [Hj|Hj]; [lia|].
    rewrite drop_all in Hocc by lia.
    destruct sub; [cbn in *; lia|discriminate Hocc].
  - rewrite has_prefix_short in Hocc by exact Hgt. discriminate Hocc.
Qed.

Lemma occurs_at_take (sub s : string) (j : nat) :
  occurs_at sub s j -> take (String.length sub) (drop j s) = sub.
Proof.
  unfold occurs_at. rewrite has_prefix_take. apply String.eqb_eq.
Qed.

(** Where the first canary marker starts at or after the end of the
    first stable marker, [splitLogs] cuts at the two. *)
Lemma splitLogs_first_at (s : string) (i j : nat) :
  first_at stableMarker s i -> first_at canaryMarker s j ->
  (i + String.length stableMarker <= j)%nat ->
  splitLogs s
  = Ret (take (j - (i + String.length stableMarker))
           (drop (i + String.length stableMarker) s),
         drop (j + String.length canaryMarker) s).
Proof.
  intros Hs Hc Hle. unfold splitLogs.
  rewrite !findIndex_Index. unfold Index. cbn [obind].
  rewrite (Index_from_first_at _ _ _ _ Hs), (Index_from_first_at _ _ _ _ Hc).
  match goal with
  | |- context [(?x =? -1) || (?y =? -1)] =>
      replace ((x =? -1) || (y =? -1)) with false
  end.
  2:{ symmetry. apply orb_false_iff. split; apply Z.eqb_neq; lia. }
  assert (Hpos : (0 < String.length canaryMarker)%nat) by (cbn; lia).
  pose proof (occurs_at_length _ _ _ Hpos (proj1 Hc)) as Hlen.
  rewrite slice_in_range by (unfold len in *; lia).
  unfold slice_from. rewrite slice_in_range by (unfold len in *; lia).
  cbn [obind]. do 2 f_equal.
  - f_equal; [unfold len; lia|]. f_equal. unfold len. lia.
  - replace (Z.to_nat (0 + Z.of_nat j + len canaryMarker))
      with (j + String.length canaryMarker)%nat by (unfold len; lia).
    apply take_all. rewrite length_drop. unfold len. lia.
Qed.

Lemma logs_context_stable (stableLogs canaryLogs : string) :
  first_at stableMarker (logs_context stableLogs canaryLogs) 0.
Proof.
  split; [reflexivity|]. intros j Hj. lia.
Qed.

Lemma logs_context_head (stableLogs canaryLogs : string) (j : nat) :
  (j < 20)%nat -> ~ occurs_at canaryMarker (logs_context stableLogs canaryLogs) j.
Proof.
  intros Hj Hocc. unfold occurs_at in Hocc.
  do 20 (destruct j as [|j]; [vm_compute in Hocc; discriminate Hocc|]).
  lia.
Qed.

Lemma logs_context_drop (stableLogs canaryLogs : string) :
  drop 20 (logs_context stableLogs canaryLogs)
  = stableLogs +:+ nl +:+ nl +:+ canaryMarker +:+ nl +:+ canaryLogs.
Proof. reflexivity. Qed.

Lemma drop_app_le (n : nat) (a b : string) :
  (n <= String.length a)%nat -> drop n (a +:+ b) = drop n a +:+ b.
Proof.
  revert a. induction n as [|n IH]; intros a Hn.
  - rewrite !drop_0. reflexivity.
  - destruct a as [|c a]; [cbn in Hn; lia|].
    cbn [drop]. rewrite app_cons. cbn [drop]. apply IH. cbn in Hn. lia.
Qed.

Lemma logs_context_canary (stableLogs canaryLogs : string) :
  occurs_at canaryMarker (logs_context stableLogs canaryLogs)
    (22 + String.length stableLogs).
Proof.
  unfold occurs_at.
  replace (22 + String.length stableLogs)%nat
    with (20 + (String.length stableLogs + 2))%nat by lia.
  rewrite <- drop_drop, logs_context_drop, <- drop_drop, drop_app_length.
  reflexivity.
Qed.

(** The first canary marker of the context is in the stable logs, or is
    the one [Run] has written. *)
Lemma logs_context_first_canary (stableLogs canaryLogs : string) :
  exists k,
    first_at canaryMarker (logs_context stableLogs canaryLogs) k
    /\ (20 <= k <= 22 + String.length stableLogs)%nat.
Proof.
  destruct (first_at_or_absent canaryMarker
              (logs_context stableLogs canaryLogs)) as [Ha|[k Hk]].
  - exfalso. exact (Ha _ (logs_context_canary stableLogs canaryLogs)).
  - exists k. split; [exact Hk|]. split.
    + destruct (Nat.le_gt_cases 20 k) as [Hle|Hgt]; [exact Hle|].
      exfalso. exact (logs_context_head _ _ _ Hgt (proj1 Hk)).
    + destruct (Nat.le_gt_cases k (22 + String.length stableLogs))
        as [Hle|Hgt]; [exact Hle|].
      exfalso.
      exact (proj2 Hk _ Hgt (logs_context_canary stableLogs canaryLogs)).
Qed.

(** The cut [splitLogs] makes in a context [Run] has built. *)
Lemma splitLogs_logs_context_cut (stableLogs canaryLogs : string) :
  exists k,
    first_at canaryMarker (logs_context stableLogs canaryLogs) k
    /\ (20 <= k <= 22 + String.length stableLogs)%nat
    /\ splitLogs (logs_context stableLogs canaryLogs)
       = Ret (take (k - 19) (drop 19 (logs_context stableLogs canaryLogs)),
              drop (k + 19) (logs_context stableLogs canaryLogs)).
Proof.
  destruct (logs_context_first_canary stableLogs canaryLogs)
    as (k & Hk & Hlo & Hhi).
  exists k. split; [exact Hk|]. split; [split; assumption|].
  apply (splitLogs_first_at _ 0 k (logs_context_stable _ _) Hk).
  cbn. lia.
Qed.

(** X2. On every context [Run] builds, whatever the two logs hold,
    [splitLogs] returns without a panic, and the two pieces it returns
    are what is left of the context once the stable marker at its head
    and one canary marker are taken out. *)
Theorem splitLogs_logs_context (stableLogs canaryLogs : string) :
  exists stable canary,
    splitLogs (logs_context stableLogs canaryLogs) = Ret (stable, canary)
    /\ logs_context stableLogs canaryLogs
       = stableMarker +:+ stable +:+ canaryMarker +:+ canary.
Proof.
  destruct (splitLogs_logs_context_cut stableLogs canaryLogs)
    as (k & Hk & [Hlo Hhi] & Hsplit).
  set (s := logs_context stableLogs canaryLogs) in *.
  exists (take (k - 19) (drop 19 s)), (drop (k + 19) s).
  split; [exact Hsplit|].
  etransitivity; [symmetry; apply (take_drop 19 s)|].
  replace (take 19 s) with stableMarker by reflexivity. f_equal.
  etransitivity; [symmetry; apply (take_drop (k - 19) (drop 19 s))|].
  f_equal. rewrite drop_drop.
  replace (19 + (k - 19))%nat with k by lia.
  etransitivity; [symmetry; apply (take_drop 19 (drop k s))|].
  f_equal; [exact (occurs_at_take _ _ _ (proj1 Hk))|apply drop_drop].
Qed.

(** A marker found at the end of [a], across a byte [c] it does not
    hold, is found in [a] alone. *)
Lemma has_prefix_app_byte (p a b : string) (c : ascii) :
  mentions c p = false ->
  has_prefix p (a +:+ String c b) = true -> has_prefix p a = true.
Proof.
  revert a. induction p as [|x p IH]; intros a Hm Hp; [reflexivity|].
  cbn [mentions] in Hm. apply orb_false_iff in Hm. destruct Hm as [Hx Hm].
  destruct a as [|y a].
  - cbn in Hp. apply andb_true_iff in Hp. destruct Hp as [Hxc _].
    unfold eqb_byte in *. congruence.
  - rewrite app_cons in Hp. cbn [has_prefix] in *.
    apply andb_true_iff in Hp. destruct Hp as [Hxy Hp].
    rewrite Hxy. cbn [andb]. exact (IH a Hm Hp).
Qed.

Lemma logs_context_canary_first (stableLogs canaryLogs : string) :
  absent canaryMarker stableLogs ->
  first_at canaryMarker (logs_context stableLogs canaryLogs)
    (22 + String.length stableLogs).
Proof.
  intros Habs. split; [apply logs_context_canary|].
  intros j Hj Hocc.
  destruct (Nat.le_gt_cases 20 j) as [Hle|Hgt];
    [|exact (logs_context_head _ _ _ Hgt Hocc)].
  unfold occurs_at in Hocc.
  replace j with (20 + (j - 20))%nat in Hocc by lia.
  rewrite <- drop_drop, logs_context_drop in Hocc.
  destruct (Nat.le_gt_cases (String.length stableLogs) (j - 20)) as [Hge|Hlt].
  - replace (j - 20)%nat
      with (String.length stableLogs + (j - 20 - String.length stableLogs))%nat
      in Hocc by lia.
    rewrite <- drop_drop, drop_app_length in Hocc.
    assert (Hd : (j - 20 - String.length stableLogs = 0
                  \/ j - 20 - String.length stableLogs = 1)%nat) by lia.
    destruct Hd as [Hd|Hd]; rewrite Hd in Hocc; vm_compute in Hocc;
      discriminate Hocc.
  - rewrite drop_app_le in Hocc by lia.
    apply (Habs (j - 20)%nat). unfold occurs_at.
    assert (Hm : mentions (byte_of 10) canaryMarker = false) by reflexivity.
    exact (has_prefix_app_byte _ _ _ _ Hm Hocc).
Qed.

(** X3. Where the stable logs do not hold the canary marker,
    [splitLogs] gives back from the context [Run] builds the two logs
    [Run] has put in: the stable logs between the line break after the
    stable marker and the empty line before the canary marker, the
    canary logs after the line break that follows the canary marker. *)
Theorem splitLogs_logs_context_round_trip (stableLogs canaryLogs : string) :
  absent canaryMarker stableLogs ->
  splitLogs (logs_context stableLogs canaryLogs)
  = Ret (nl +:+ stableLogs +:+ nl +:+ nl, nl +:+ canaryLogs).
Proof.
  intros Habs.
  rewrite (splitLogs_first_at _ 0 (22 + String.length stableLogs)
             (logs_context_stable _ _)
             (logs_context_canary_first _ _ Habs))
    by (cbn; lia).
  do 2 f_equal.
  - change (drop (0 + String.length stableMarker)
              (logs_context stableLogs canaryLogs))
      with (nl +:+ stableLogs +:+ nl +:+ nl +:+ canaryMarker +:+ nl
            +:+ canaryLogs).
    replace (22 + String.length stableLogs
             - (0 + String.length stableMarker))%nat
      with (String.length (nl +:+ stableLogs +:+ nl +:+ nl)).
    2:{ rewrite !length_app. cbn. lia. }
    replace (nl +:+ stableLogs +:+ nl +:+ nl +:+ canaryMarker +:+ nl
             +:+ canaryLogs)
      with ((nl +:+ stableLogs +:+ nl +:+ nl) +:+ canaryMarker +:+ nl
            +:+ canaryLogs)
      by (rewrite !app_assoc_s; reflexivity).
    apply take_app_length.
  - replace (22 + String.length stableLogs + String.length canaryMarker)%nat
      with (20 + (String.length stableLogs + 21))%nat by (cbn; lia).
    rewrite <- drop_drop, logs_context_drop, <- drop_drop, drop_app_length.
    reflexivity.
Qed.

Lemma splitLogs_logs_context_round_trip_witness :
  absent canaryMarker "stable line"
  /\ splitLogs (logs_context "stable line" "canary line")
     = Ret (nl +:+ "stable line" +:+ nl +:+ nl, nl +:+ "canary line").
Proof.
  assert (H : absent canaryMarker "stable line")
    by (apply absentb_sound; vm_compute; reflexivity).
  split; [exact H|].
  exact (splitLogs_logs_context_round_trip "stable line" "canary line" H).
Defined.

(** ** The response extractor, once more *)

Lemma scan_close_take (r : string) (d : Z) (k : nat) :
  scan_close r d = Some k -> scan_close (take (S k) r) d = Some k.
Proof.
  revert d k. induction r as [|c r IH]; intros d k H; [discriminate H|].
  cbn [scan_close] in H. cbn [take scan_close].
  destruct (eqb_byte c "{").
  - destruct (scan_close r (d + 1)) as [k'|] eqn:Hk; [|discriminate H].
    injection H as <-. rewrite (IH _ _ Hk). reflexivity.
  - destruct (eqb_byte c "}").
    + destruct (d - 1 =? 0); [congruence|].
      destruct (scan_close r (d - 1)) as [k'|] eqn:Hk; [|discriminate H].
      injection H as <-. rewrite (IH _ _ Hk). reflexivity.
    + destruct (scan_close r d) as [k'|] eqn:Hk; [|discriminate H].
      injection H as <-. rewrite (IH _ _ Hk). reflexivity.
Qed.

(** X4. [extractFirstJSON] is idempotent: the block it returns is the
    block it finds in that block, so a second extraction changes
    nothing. *)
Theorem extractFirstJSON_idempotent (s : string) :
  exists r, extractFirstJSON s = Ret r /\ extractFirstJSON r = Ret r.
Proof.
  destruct (no_open_brace s) eqn:Hb.
  - exists EmptyString. split; [apply extractFirstJSON_no_brace; exact Hb|].
    reflexivity.
  - destruct (first_brace_split s Hb) as (pre & rest & -> & Hpre).
    rewrite (extractFirstJSON_from_brace pre rest Hpre).
    destruct (scan_close rest 1) as [k|] eqn:Hk.
    + eexists. split; [reflexivity|].
      pose proof (extractFirstJSON_from_brace EmptyString (take (S k) rest)
                    eq_refl) as H.
      rewrite app_nil_l in H. rewrite H, (scan_close_take _ _ _ Hk).
      rewrite take_take by lia. reflexivity.
    + exists EmptyString. split; reflexivity.
Qed.

(** ** truncate *)

(** X5. [truncate(s, n)] returns [s] itself when it has at most [n]
    bytes; for a longer [s] and [n >= 0] it returns the first [n] bytes
    followed by three dots, [n + 3] bytes in all; for a negative [n] it
    panics, whatever [s] is. *)
Theorem truncate_bounds (s : string) (n : Z) :
  (len s <= n -> truncate s n = Ret s)
  /\ (0 <= n < len s ->
      truncate s n = Ret (take (Z.to_nat n) s +:+ "...")
      /\ len (take (Z.to_nat n) s +:+ "...") = n + 3)
  /\ (n < 0 -> truncate s n = Panic "slice bounds out of range").
Proof.
  unfold truncate. pose proof (len_nonneg s) as Hs. repeat split.
  - intros H. apply Z.leb_le in H. rewrite H. reflexivity.
  - destruct (len s <=? n) eqn:E; [apply Z.leb_le in E; lia|].
    rewrite slice_in_range by lia. rewrite Z.sub_0_r. reflexivity.
  - rewrite len_app. unfold len in *. rewrite length_take. cbn. lia.
  - intros H. destruct (len s <=? n) eqn:E; [apply Z.leb_le in E; lia|].
    unfold slice. replace (0 <=? 0) with true by reflexivity.
    replace (0 <=? n) with false by (symmetry; apply Z.leb_gt; lia).
    reflexivity.
Qed.

Lemma truncate_bounds_witness :
  truncate "canary" 10 = Ret "canary"
  /\ truncate "canary logs" 6 = Ret "canary..."
  /\ truncate "canary" (-1) = Panic "slice bounds out of range".
Proof.
  destruct (truncate_bounds "canary" 10) as (H1 & _ & _).
  destruct (truncate_bounds "canary logs" 6) as (_ & H2 & _).
  destruct (truncate_bounds "canary" (-1)) as (_ & _ & H3).
  split; [apply H1; vm_compute; discriminate|].
  split; [apply H2; vm_compute; split; [discriminate|reflexivity]|].
  apply H3. reflexivity.
Defined.

(** ** concatCandidates *)

Lemma concatParts_Panic (parts : list (option genai.Part)) (msg : string) :
  fold_left
    (fun acc part =>
       (let* b := acc in
        match part with
        | None => Panic "nil pointer dereference"
        | Some part =>
            if negb (String.eqb (genai.Text part) EmptyString)
            then Ret (b +:+ genai.Text part) else Ret b
        end)%go)
    parts (Panic msg) = Panic msg.
Proof.
  induction parts as [|p parts IH]; [reflexivity|]. cbn [fold_left obind].
  exact IH.
Qed.

Lemma joined_app (a b : list string) : joined (a ++ b) = joined a +:+ joined b.
Proof.
  induction a as [|x a IH]; [reflexivity|].
  cbn [joined fold_right app] in *. fold (joined (a ++ b)). fold (joined a).
  rewrite IH, app_assoc_s. reflexivity.
Qed.

Lemma concatParts_spec (parts : list (option genai.Part)) (b : string) :
  concatParts parts b
  = if forallb part_present parts
    then Ret (b +:+ joined (part_texts parts))
    else Panic "nil pointer dereference".
Proof.
  unfold concatParts. revert b.
  induction parts as [|p parts IH]; intros b.
  - cbn. rewrite app_nil_r. reflexivity.
  - cbn [fold_left obind forallb]. destruct p as [p|].
    + cbn [part_present andb].
      change (part_texts (Some p :: parts))
        with (genai.Text p :: part_texts parts).
      cbn [joined fold_right]. fold (joined (part_texts parts)).
      destruct (String.eqb (genai.Text p) EmptyString) eqn:E; cbn [negb].
      * apply String.eqb_eq in E. rewrite E, app_nil_l. apply IH.
      * rewrite IH, app_assoc_s. reflexivity.
    + cbn [part_present andb]. apply concatParts_Panic.
Qed.

Lemma concatCandidates_Panic (cands : list (option genai.Candidate))
    (msg : string) :
  fold_left
    (fun acc cand =>
       (let* b := acc in
        match cand with
        | None => Panic "nil pointer dereference"
        | Some cand =>
            match genai.Content_ cand with
            | None => Panic "nil pointer dereference"
            | Some content => concatParts (genai.Parts content) b
            end
        end)%go)
    cands (Panic msg) = Panic msg.
Proof.
  induction cands as [|c cands IH]; [reflexivity|]. cbn [fold_left obind].
  exact IH.
Qed.

Lemma concatCandidates_loop (cands : list (option genai.Candidate))
    (b : string) :
  fold_left
    (fun acc cand =>
       (let* b := acc in
        match cand with
        | None => Panic "nil pointer dereference"
        | Some cand =>
            match genai.Content_ cand with
            | None => Panic "nil pointer dereference"
            | Some content => concatParts (genai.Parts content) b
            end
        end)%go)
    cands (Ret b)
  = if forallb candidate_present cands
    then Ret (b +:+ joined (flat_map candidate_texts cands))
    else Panic "nil pointer dereference".
Proof.
  revert b. induction cands as [|cand cands IH]; intros b.
  - cbn. rewrite app_nil_r. reflexivity.
  - cbn [fold_left obind forallb flat_map].
    destruct cand as [cand|]; cbn [candidate_present candidate_texts];
      [|apply concatCandidates_Panic].
    destruct (genai.Content_ cand) as [content|];
      [|apply concatCandidates_Panic].
    rewrite concatParts_spec.
    destruct (forallb part_present (genai.Parts content)); cbn [andb];
      [|apply concatCandidates_Panic].
    rewrite IH, joined_app, app_assoc_s. reflexivity.
Qed.

(** X6. [concatCandidates] panics on a response in which a candidate, the
    content of a candidate or a part is [nil], as the content of a
    candidate the model gave no text for is; on every other response
    it returns the texts of all parts of all candidates, in order and
    with nothing between them. *)
Theorem concatCandidates_texts (resp : genai.GenerateContentResponse) :
  concatCandidates (Some resp)
  = if no_nil_pointer resp
    then Ret (joined (response_texts resp))
    else Panic "nil pointer dereference".
Proof.
  unfold concatCandidates, no_nil_pointer, response_texts.
  rewrite concatCandidates_loop, app_nil_l. reflexivity.
Qed.

(** ** The wait an API error asks for *)

Lemma last_cons_default {A : Type} (x d : A) (l : list A) :
  List.last (x :: l) d = List.last l x.
Proof.
  revert x d. induction l as [|y l IH]; intros x d; [reflexivity|].
  change (List.last (x :: y :: l) d) with (List.last (y :: l) d).
  rewrite !IH. reflexivity.
Qed.

Lemma apiWaitTime_step (detail : gmap string json) (apiWaitTime : Z) :
  (let '(detailType, _) := as_string (detail !! "@type") in
   if String.eqb detailType typeURLRetryInfo then
     let '(retryDelayStr, ok) := as_string (detail !! "retryDelay") in
     if ok && negb (String.eqb retryDelayStr EmptyString) then
       match ParseDuration retryDelayStr with
       | Some parsed => parsed
       | None => apiWaitTime
       end
     else apiWaitTime
   else apiWaitTime)
  = match retry_delay_of detail with
    | Some d => d
    | None => apiWaitTime
    end.
Proof.
  unfold retry_delay_of, as_string.
  destruct (detail !! "@type") as [[| | |t| |]|]; try reflexivity.
  destruct (String.eqb t typeURLRetryInfo); [|destruct (detail !! "retryDelay") as [[| | |d| |]|]; reflexivity].
  destruct (detail !! "retryDelay") as [[| | |d| |]|]; try reflexivity.
  cbn [andb]. destruct (negb (String.eqb d EmptyString)); reflexivity.
Qed.

Lemma apiWaitTime_loop (details : list (gmap string json)) (a : Z) :
  fold_left
    (fun apiWaitTime detail =>
       let '(detailType, _) := as_string (detail !! "@type") in
       if String.eqb detailType typeURLRetryInfo then
         let '(retryDelayStr, ok) := as_string (detail !! "retryDelay") in
         if ok && negb (String.eqb retryDelayStr EmptyString) then
           match ParseDuration retryDelayStr with
           | Some parsed => parsed
           | None => apiWaitTime
           end
         else apiWaitTime
       else apiWaitTime)
    details a
  = List.last (retry_delays details) a.
Proof.
  revert a. induction details as [|detail details IH]; intros a;
    [reflexivity|].
  cbn [fold_left]. rewrite IH, apiWaitTime_step.
  change (retry_delays (detail :: details))
    with ((match retry_delay_of detail with
           | Some d => [d]
           | None => []
           end ++ retry_delays details)%list).
  destruct (retry_delay_of detail) as [d|]; [|reflexivity].
  cbn [app]. rewrite last_cons_default. reflexivity.
Qed.

Lemma retry_delays_app (a b : list (gmap string json)) :
  retry_delays (a ++ b) = (retry_delays a ++ retry_delays b)%list.
Proof. unfold retry_delays. apply flat_map_app. Qed.

Lemma retry_delay_of_quota_failure (violations : json) :
  retry_delay_of (quota_failure violations) = None.
Proof.
  unfold retry_delay_of.
  replace (quota_failure violations !! "retryDelay") with (@None json)
    by (symmetry; vm_compute; reflexivity).
  destruct (quota_failure violations !! "@type") as [[| | |t| |]|];
    reflexivity.
Qed.

(** X7. The wait [retryWithBackoff] reads from the details of a
    rate-limit error is the delay of the last [RetryInfo] entry whose
    [retryDelay] is a non-empty string that parses as a duration, and
    zero when there is no such entry: of two hints the later one is
    taken, also when it is the smaller.  A [QuotaFailure] entry,
    wherever it stands among the details, does not change the wait. *)
Theorem apiWaitTime_of_last_hint (details : list (gmap string json)) :
  apiWaitTime_of details = List.last (retry_delays details) 0
  /\ forall before after violations,
       details = (before ++ quota_failure violations :: after)%list ->
       apiWaitTime_of details = apiWaitTime_of (before ++ after).
Proof.
  split; [apply apiWaitTime_loop|].
  intros before after violations ->. unfold apiWaitTime_of.
  rewrite !apiWaitTime_loop, !retry_delays_app.
  change (retry_delays (quota_failure violations :: after))
    with ((match retry_delay_of (quota_failure violations) with
           | Some d => [d]
           | None => []
           end ++ retry_delays after)%list).
  rewrite retry_delay_of_quota_failure. reflexivity.
Qed.

Lemma apiWaitTime_of_last_hint_witness :
  apiWaitTime_of [retry_hint "30s"; quota_failure JNull; retry_hint "2s"]
  = apiWaitTime_of [retry_hint "30s"; retry_hint "2s"]
  /\ apiWaitTime_of [retry_hint "30s"; retry_hint "2s"] = 2 * Second.
Proof.
  split.
  - exact (proj2 (apiWaitTime_of_last_hint
                    [retry_hint "30s"; quota_failure JNull; retry_hint "2s"])
             [retry_hint "30s"] [retry_hint "2s"] JNull eq_refl).
  - vm_compute. reflexivity.
Defined.

(** ** The secret *)

Lemma getSecretValue_returns (env : Env) (namespace key : string)
    (w : World) :
  exists value err w',
    getSecretValue env namespace key w = Ret ((value, err), w')
    /\ (w' = w \/ calls_between w w' [EvSecretGet namespace "argo-rollouts"])
    /\ gen_calls w' = gen_calls w
    /\ match err with
       | None =>
           value <> EmptyString
           /\ (key = "google_api_key" \/ key = "github_token")
           /\ exists data,
                SecretGet env namespace "argo-rollouts" = (data, None)
                /\ data !! key = Some value
       | Some _ => value = EmptyString
       end.
Proof.
  unfold getSecretValue, calls_between, mbind, emit, mret.
  assert (Hfail : forall (e : error) (w0 : World),
            w0 = w ->
            exists value err w',
              Ret (A := string * option error * World)
                (EmptyString, Some e, w0) = Ret ((value, err), w')
              /\ (w' = w \/ trace w' = ([EvSecretGet namespace "argo-rollouts"]
                                        ++ trace w)%list)
              /\ gen_calls w' = gen_calls w
              /\ match err with
                 | None =>
                     value <> EmptyString
                     /\ (key = "google_api_key" \/ key = "github_token")
                     /\ exists data,
                          SecretGet env namespace "argo-rollouts" = (data, None)
                          /\ data !! key = Some value
                 | Some _ => value = EmptyString
                 end).
  { intros e w0 ->. eexists _, _, _. split; [reflexivity|].
    split; [left; reflexivity|]. split; reflexivity. }
  assert (Hfail2 : forall (e : error),
            exists value err w',
              Ret (A := string * option error * World)
                (EmptyString, Some e,
                 {| now := now w;
                    trace := EvSecretGet namespace "argo-rollouts" :: trace w;
                    gen_calls := gen_calls w;
                    rand_calls := rand_calls w |}) = Ret ((value, err), w')
              /\ (w' = w \/ trace w' = ([EvSecretGet namespace "argo-rollouts"]
                                        ++ trace w)%list)
              /\ gen_calls w' = gen_calls w
              /\ match err with
                 | None =>
                     value <> EmptyString
                     /\ (key = "google_api_key" \/ key = "github_token")
                     /\ exists data,
                          SecretGet env namespace "argo-rollouts" = (data, None)
                          /\ data !! key = Some value
                 | Some _ => value = EmptyString
                 end).
  { intros e. eexists _, _, _. split; [reflexivity|].
    split; [right; reflexivity|]. split; reflexivity. }
  destruct (match InClusterConfig env with
            | Some _ =>
                match BuildConfigFromFlags env with
                | Some err =>
                    Some (ErrorString
                            ("failed to get kubeconfig: " +:+ Error env err))
                | None => None
                end
            | None => None
            end); [apply Hfail; reflexivity|].
  destruct (NewForConfig env); [apply Hfail; reflexivity|].
  destruct (SecretGet env namespace "argo-rollouts") as [data [err|]] eqn:Hs.
  { destruct (IsNotFound err); apply Hfail2. }
  destruct (String.eqb key "google_api_key") eqn:Hk.
  { apply String.eqb_eq in Hk. subst key.
    destruct (data !! "google_api_key") as [v|] eqn:Hv;
      cbn [default from_option id]; [|apply Hfail2].
    destruct (String.eqb v EmptyString) eqn:Ev; [apply Hfail2|].
    eexists _, _, _. split; [reflexivity|]. split; [right; reflexivity|].
    split; [reflexivity|]. split; [apply String.eqb_neq; exact Ev|].
    split; [left; reflexivity|]. exists data. split; [reflexivity|exact Hv]. }
  destruct (String.eqb key "github_token") eqn:Hk2; [|apply Hfail2].
  apply String.eqb_eq in Hk2. subst key.
  destruct (data !! "github_token") as [v|] eqn:Hv;
    cbn [default from_option id]; [|apply Hfail2].
  destruct (String.eqb v EmptyString) eqn:Ev; [apply Hfail2|].
  eexists _, _, _. split; [reflexivity|]. split; [right; reflexivity|].
  split; [reflexivity|]. split; [apply String.eqb_neq; exact Ev|].
  split; [right; reflexivity|]. exists data. split; [reflexivity|exact Hv].
Qed.

(** X8. [getSecretValue] returns a value without an error only for the
    keys [google_api_key] and [github_token], and the value is then the
    non-empty entry of that key in the secret [argo-rollouts] of the
    namespace; with an error the value is empty.  It reads that one
    secret at most once, and reads nothing else. *)
Theorem getSecretValue_result (env : Env) (namespace key : string)
    (w : World) :
  exists value err w',
    getSecretValue env namespace key w = Ret ((value, err), w')
    /\ (w' = w \/ calls_between w w' [EvSecretGet namespace "argo-rollouts"])
    /\ gen_calls w' = gen_calls w
    /\ match err with
       | None =>
           value <> EmptyString
           /\ (key = "google_api_key" \/ key = "github_token")
           /\ exists data,
                SecretGet env namespace "argo-rollouts" = (data, None)
                /\ data !! key = Some value
       | Some _ => value = EmptyString
       end.
Proof. apply getSecretValue_returns. Qed.

(** ** The delegated analysis *)

Lemma HealthCheck_agent (env : Env) (w : World) :
  HealthCheck env (NewA2AClient (agent_url env)) w
  = Ret (match snd (HTTPGet env (agent_url env +:+ "/")) with
         | Some err =>
             Some (ErrorString ("health check failed: " +:+ Error env err))
         | None => None
         end,
         {| now := now w;
            trace := EvHTTPGet (agent_url env +:+ "/") :: trace w;
            gen_calls := gen_calls w;
            rand_calls := rand_calls w |}).
Proof.
  unfold HealthCheck, mbind, emit, mret. cbn [baseURL NewA2AClient].
  destruct (HTTPGet env (agent_url env +:+ "/")) as [status [err|]];
    reflexivity.
Qed.

(** X9. When the agent cannot be reached, the delegated analysis
    returns the error of the health check after that one request: it
    sends no analysis request, does not look at the log context, and
    does not turn to the model. *)
Theorem analyzeWithKubernetesAgent_unreachable (env : Env)
    (namespace podName logsContext : string) (w : World) (status : Z)
    (err : error) :
  HTTPGet env (agent_url env +:+ "/") = (status, Some err) ->
  exists w',
    analyzeWithKubernetesAgent env namespace podName logsContext w
    = Ret ((EmptyString, AIAnalysisResult_zero,
            Some (ErrorString ("health check failed: " +:+ Error env err))),
           w')
    /\ calls_between w w' [EvHTTPGet (agent_url env +:+ "/")]
    /\ gen_calls w' = gen_calls w.
Proof.
  intros Hget. unfold analyzeWithKubernetesAgent. fold (agent_url env).
  unfold mbind at 1. rewrite HealthCheck_agent, Hget. cbn [snd].
  eexists. split; [reflexivity|]. split; reflexivity.
Qed.

Lemma analyzeWithKubernetesAgent_unreachable_witness :
  let env := unreachable_agent
               (example_env (model_says EmptyString) one_pod EmptyString) in
  exists w',
    analyzeWithKubernetesAgent env "default" "pod-1" "no markers here"
      initial_world
    = Ret ((EmptyString, AIAnalysisResult_zero,
            Some (ErrorString "health check failed: connection refused")), w')
    /\ trace w'
       = [EvHTTPGet
            "http://kubernetes-agent.argo-rollouts.svc.cluster.local:8080/"]
    /\ gen_calls w' = 0%nat.
Proof.
  intros env.
  exact (analyzeWithKubernetesAgent_unreachable env "default" "pod-1"
           "no markers here" initial_world 0
           (ErrorString "connection refused") eq_refl).
Defined.

Lemma AnalyzeWithAgent_result (env : Env) (c : A2AClient)
    (namespace podName stableLogs canaryLogs : string) (w : World) :
  exists resp err w',
    AnalyzeWithAgent env c namespace podName stableLogs canaryLogs w
    = Ret ((resp, err), w')
    /\ (w' = w
        \/ exists body,
             w' = {| now := now w;
                     trace := EvHTTPPost (baseURL c +:+ "/a2a/analyze") body
                              :: trace w;
                     gen_calls := gen_calls w;
                     rand_calls := rand_calls w |})
    /\ (resp = None <-> err <> None).
Proof.
  unfold AnalyzeWithAgent, mbind, emit, mret.
  destruct (Marshal env _) as [body [err|]].
  { eexists _, _, _. split; [reflexivity|]. split; [left; reflexivity|].
    split; [discriminate|reflexivity]. }
  destruct (HTTPPost env (baseURL c +:+ "/a2a/analyze") body)
    as [[status respBody] [err|]].
  { eexists _, _, _. split; [reflexivity|]. split; [right; eexists; reflexivity|].
    split; [discriminate|reflexivity]. }
  destruct (negb (status =? StatusOK)).
  { eexists _, _, _. split; [reflexivity|]. split; [right; eexists; reflexivity|].
    split; [discriminate|reflexivity]. }
  destruct (Decode store_A2AResponse respBody A2AResponse_zero)
    as [result [err|]].
  { eexists _, _, _. split; [reflexivity|]. split; [right; eexists; reflexivity|].
    split; [discriminate|reflexivity]. }
  eexists _, _, _. split; [reflexivity|]. split; [right; eexists; reflexivity|].
  split; [discriminate|]. intros H. exfalso. apply H. reflexivity.
Qed.

(** The delegated analysis on a context [Run] has built. *)
Lemma analyzeWithKubernetesAgent_returns (env : Env)
    (namespace podName stableLogs canaryLogs : string) (w : World) :
  exists r w',
    analyzeWithKubernetesAgent env namespace podName
      (logs_context stableLogs canaryLogs) w = Ret (r, w')
    /\ gen_calls w' = gen_calls w
    /\ (calls_between w w' [EvHTTPGet (agent_url env +:+ "/")]
        \/ exists body,
             calls_between w w'
               [EvHTTPPost (agent_url env +:+ "/a2a/analyze") body;
                EvHTTPGet (agent_url env +:+ "/")]).
Proof.
  unfold analyzeWithKubernetesAgent, calls_between. fold (agent_url env).
  unfold mbind at 1. rewrite HealthCheck_agent.
  destruct (snd (HTTPGet env (agent_url env +:+ "/"))) as [err|].
  { eexists _, _. split; [reflexivity|]. split; [reflexivity|left; reflexivity]. }
  destruct (splitLogs_logs_context_cut stableLogs canaryLogs)
    as (k & _ & _ & Hsplit).
  unfold mbind at 1, lift at 1. rewrite Hsplit.
  unfold mbind at 1.
  match goal with
  | |- context [AnalyzeWithAgent env ?c ?n ?p ?s ?l ?w0] =>
      destruct (AnalyzeWithAgent_result env c n p s l w0)
        as (resp & err & w1 & Hcall & Hw1 & Hnil);
      rewrite Hcall
  end.
  cbn [baseURL NewA2AClient] in Hw1.
  assert (Hcalls :
            gen_calls w1 = gen_calls w
            /\ (trace w1 = ([EvHTTPGet (agent_url env +:+ "/")] ++ trace w)%list
                \/ exists body,
                     trace w1
                     = ([EvHTTPPost (agent_url env +:+ "/a2a/analyze") body;
                         EvHTTPGet (agent_url env +:+ "/")] ++ trace w)%list)).
  { destruct Hw1 as [->|[body ->]]; (split; [reflexivity|]);
      [left; reflexivity|right; exists body; reflexivity]. }
  destruct err as [err|].
  { eexists _, _. split; [reflexivity|]. exact Hcalls. }
  destruct resp as [resp|].
  2:{ exfalso. destruct Hnil as [Hnil _]. apply (Hnil eq_refl). reflexivity. }
  cbn beta iota.
  destruct (Marshal env _) as [rawJSON [err|]];
    (eexists _, _; split; [reflexivity|]; exact Hcalls).
Qed.

(** X10. On a context [Run] has built, whatever the two logs hold, the
    delegated analysis returns: it does not panic.  It sends the health
    request, after it at most one analysis request, both to the
    configured agent, and makes no call to the model. *)
Theorem analyzeWithKubernetesAgent_logs_context (env : Env)
    (namespace podName stableLogs canaryLogs : string) (w : World) :
  exists r w',
    analyzeWithKubernetesAgent env namespace podName
      (logs_context stableLogs canaryLogs) w = Ret (r, w')
    /\ gen_calls w' = gen_calls w
    /\ (calls_between w w' [EvHTTPGet (agent_url env +:+ "/")]
        \/ exists body,
             calls_between w w'
               [EvHTTPPost (agent_url env +:+ "/a2a/analyze") body;
                EvHTTPGet (agent_url env +:+ "/")]).
Proof. apply analyzeWithKubernetesAgent_returns. Qed.

(** ** GetMetadata *)

(** X11. [GetMetadata] always reports the provider.  With a
    configuration that parses it reports the model and the two label
    selectors that are configured and not empty, and no other key: the
    defaults [Run] falls back on are not reported.  With a
    configuration that does not parse it reports the provider alone,
    and no error. *)
Theorem GetMetadata_entries (metric : Metric) :
  GetMetadata metric !! "provider" = Some ProviderType
  /\ match plugin_config metric with
     | (cfg, None) =>
         forall key,
           GetMetadata metric !! key
           = if String.eqb key "provider" then Some ProviderType
             else if String.eqb key "model" then
               if String.eqb (Model cfg) EmptyString then None
               else Some (Model cfg)
             else if String.eqb key "stableLabel" then
               if String.eqb (StableLabel cfg) EmptyString then None
               else Some (StableLabel cfg)
             else if String.eqb key "canaryLabel" then
               if String.eqb (CanaryLabel cfg) EmptyString then None
               else Some (CanaryLabel cfg)
             else None
     | (_, Some _) => GetMetadata metric = {[ "provider" := ProviderType ]}
     end.
Proof.
  unfold GetMetadata, plugin_config.
  destruct (Plugin metric !! pluginName) as [pluginCfg|].
  2:{ split; [reflexivity|]. intros key.
      destruct (String.eqb key "provider") eqn:E1.
      { apply String.eqb_eq in E1. subst key. reflexivity. }
      apply String.eqb_neq in E1.
      rewrite lookup_insert_ne by congruence. rewrite lookup_empty.
      destruct (String.eqb key "model"); [reflexivity|].
      destruct (String.eqb key "stableLabel"); [reflexivity|].
      destruct (String.eqb key "canaryLabel"); reflexivity. }
  destruct (Unmarshal store_aiConfig pluginCfg aiConfig_zero)
    as [cfg [err|]]; [split; reflexivity|].
  assert (Hkeys : forall key : string,
            (<["provider" := ProviderType]> (∅ : gmap string string)) !! key
            = if String.eqb key "provider" then Some ProviderType else None).
  { intros key. destruct (String.eqb key "provider") eqn:E.
    - apply String.eqb_eq in E. subst key. reflexivity.
    - apply String.eqb_neq in E. rewrite lookup_insert_ne by congruence.
      apply lookup_empty. }
  assert (Hstep : forall (m : gmap string string) (k v key : string)
                         (b : bool),
            (if b then <[k := v]> m else m) !! key
            = if b && String.eqb key k then Some v else m !! key).
  { intros m k v key [|]; [|reflexivity]. cbn [andb].
    destruct (String.eqb key k) eqn:E.
    - apply String.eqb_eq in E. subst key. apply lookup_insert_eq.
    - apply String.eqb_neq in E. apply lookup_insert_ne. congruence. }
  split.
  - rewrite !Hstep, Hkeys. rewrite !andb_false_r. reflexivity.
  - intros key. rewrite !Hstep, Hkeys.
    destruct (String.eqb key "provider") eqn:E1.
    { apply String.eqb_eq in E1. subst key. rewrite !andb_false_r.
      reflexivity. }
    destruct (String.eqb key "model") eqn:E2.
    { apply String.eqb_eq in E2. subst key. rewrite !andb_false_r.
      rewrite andb_true_r. destruct (String.eqb (Model cfg) EmptyString);
        reflexivity. }
    destruct (String.eqb key "stableLabel") eqn:E3.
    { apply String.eqb_eq in E3. subst key. rewrite !andb_false_r.
      rewrite andb_true_r.
      destruct (String.eqb (StableLabel cfg) EmptyString); reflexivity. }
    rewrite !andb_false_r.
    destruct (String.eqb key "canaryLabel") eqn:E4;
      [|rewrite ?andb_false_r; reflexivity].
    rewrite andb_true_r.
    destruct (String.eqb (CanaryLabel cfg) EmptyString); reflexivity.
Qed.

(** ** The configuration loaded at startup *)

(** X12. When [loadConfigFromFiles] returns no error, [validateConfig]
    returns none either: the API key and the GitHub token it has stored
    are not empty, and are the contents of their files without the
    surrounding white space.  The project is that of its file when the
    file can be read, and is left as it was when it cannot. *)
Theorem loadConfigFromFiles_validates (env : Env)
    (ReadFile : string -> string * option error) (g g' : Globals) :
  loadConfigFromFiles env ReadFile g = (None, g') ->
  validateConfig g' = None
  /\ googleAPIKey g' <> EmptyString
  /\ githubToken g' <> EmptyString
  /\ (exists data,
        ReadFile "/etc/secrets/google_api_key" = (data, None)
        /\ googleAPIKey g' = TrimSpace data)
  /\ (exists data,
        ReadFile "/etc/secrets/github_token" = (data, None)
        /\ githubToken g' = TrimSpace data)
  /\ googleCloudProject g'
     = match ReadFile "/etc/secrets/google_cloud_project" with
       | (data, None) => TrimSpace data
       | (_, Some _) => googleCloudProject g
       end.
Proof.
  unfold loadConfigFromFiles, validateConfig.
  change (secret_file "google_api_key") with "/etc/secrets/google_api_key".
  change (secret_file "google_cloud_project")
    with "/etc/secrets/google_cloud_project".
  change (secret_file "github_token") with "/etc/secrets/github_token".
  destruct (ReadFile "/etc/secrets/google_api_key") as [key [e|]];
    [discriminate|].
  cbn [googleAPIKey googleCloudProject githubToken].
  destruct (String.eqb (TrimSpace key) EmptyString) eqn:Ek; [discriminate|].
  destruct (ReadFile "/etc/secrets/google_cloud_project") as [project perr].
  destruct (ReadFile "/etc/secrets/github_token") as [token [e|]];
    [discriminate|].
  destruct perr as [perr|]; cbn [googleAPIKey googleCloudProject githubToken];
    (destruct (String.eqb (TrimSpace token) EmptyString) eqn:Et;
     [discriminate|]);
    intros H; injection H as <-;
    cbn [googleAPIKey googleCloudProject githubToken];
    rewrite Ek, Et;
    (split; [reflexivity|]);
    (split; [apply String.eqb_neq; exact Ek|]);
    (split; [apply String.eqb_neq; exact Et|]);
    (split; [exists key; split; reflexivity|]);
    (split; [exists token; split; reflexivity|]); reflexivity.
Qed.

Lemma loadConfigFromFiles_validates_witness :
  exists g',
    loadConfigFromFiles
      (example_env (model_says EmptyString) one_pod EmptyString)
      example_files (mkGlobals EmptyString "old-project" EmptyString)
    = (None, g')
    /\ validateConfig g' = None
    /\ g' = mkGlobals "key" "old-project" "token".
Proof.
  eexists. split; [vm_compute; reflexivity|].
  split; [|reflexivity].
  exact (proj1 (loadConfigFromFiles_validates
                  (example_env (model_says EmptyString) one_pod EmptyString)
                  example_files
                  (mkGlobals EmptyString "old-project" EmptyString)
                  (mkGlobals "key" "old-project" "token") eq_refl)).
Defined.

(** ** The retry loop and the world *)

Section RetryWorld.
Context {L : Type}.
Variable env : Env.
Variable ctx : Context.
Variable operation : L -> M (option error * L).
Variable get_BackOff : L -> backoff.ExponentialBackOff.
Variable set_BackOff : backoff.ExponentialBackOff -> L -> L.

(** [I] holds when an attempt starts, [J] once an attempt is over. *)
Variable I J : L -> World -> Prop.

Hypothesis operation_gives :
  forall l w err l' w',
    I l w -> operation l w = Ret ((err, l'), w') -> J l' w'.
Hypothesis next_attempt : forall l w, J l w -> I l w.
Hypothesis set_BackOff_keeps :
  forall l w b, J l w -> J (set_BackOff b l) w.
Hypothesis rand_keeps :
  forall l w,
    J l w ->
    J l {| now := now w; trace := trace w; gen_calls := gen_calls w;
           rand_calls := S (rand_calls w) |}.
Hypothesis wait_keeps :
  forall l w next c w',
    J l w -> timer_wait ctx next w = Ret (c, w') -> J l w'.

Lemma Retry_loop_world (fuel : nat) :
  forall startedAt numTries l w err l' w',
    I l w ->
    Retry_loop env ctx operation get_BackOff set_BackOff fuel startedAt
      numTries l w = Ret ((err, l'), w') ->
    J l' w'.
Proof.
  induction fuel as [|fuel IH]; intros startedAt numTries l w err l' w' Hl Hrun.
  - discriminate Hrun.
  - cbn [Retry_loop] in Hrun. unfold mbind at 1 in Hrun.
    destruct (operation l w) as [[[r l1] w1]| |] eqn:Hop; try discriminate.
    pose proof (operation_gives _ _ _ _ _ Hl Hop) as Hl1.
    destruct r as [e|]; [|injection Hrun as _ <- <-; exact Hl1].
    destruct ((0 <? MaxTries) && (MaxTries <=? numTries));
      [injection Hrun as _ <- <-; exact Hl1|].
    destruct (backoff.as_permanent e);
      [injection Hrun as _ <- <-; exact Hl1|].
    unfold mbind at 1 in Hrun. unfold time_Now at 1 in Hrun.
    destruct (ctx_Err ctx (now w1));
      [injection Hrun as _ <- <-; exact Hl1|].
    unfold mbind at 1 in Hrun. unfold rand at 1 in Hrun.
    pose proof (rand_keeps _ _ Hl1) as Hl2.
    destruct (backoff.NextBackOff (rand_Float64 env (rand_calls w1))
                (get_BackOff l1)) as [next b].
    pose proof (set_BackOff_keeps _ _ b Hl2) as Hl3.
    destruct (next =? backoff.Stop);
      [injection Hrun as _ <- <-; exact Hl3|].
    unfold mbind at 1 in Hrun. unfold time_Now at 1 in Hrun.
    cbn beta iota in Hrun.
    match type of Hrun with
    | (if ?c then _ else _) _ = _ => destruct c
    end; [injection Hrun as _ <- <-; exact Hl3|].
    unfold mbind at 1 in Hrun.
    match type of Hrun with
    | match timer_wait ctx next ?w2 with _ => _ end = _ =>
        destruct (timer_wait ctx next w2) as [[c w3]| |] eqn:Hw;
        try discriminate Hrun
    end.
    pose proof (wait_keeps _ _ _ _ _ Hl3 Hw) as Hl4.
    destruct c; [injection Hrun as _ <- <-; exact Hl4|].
    exact (IH _ _ _ _ _ _ _ (next_attempt _ _ Hl4) Hrun).
Qed.

End RetryWorld.

(** A timer wait makes no call but the wait. *)
Lemma timer_wait_calls (ctx : Context) (next : Z) (w : World)
    (c : option error) (w' : World) :
  timer_wait ctx next w = Ret (c, w') ->
  gen_calls w' = gen_calls w
  /\ (trace w' = trace w \/ trace w' = EvSleep next :: trace w).
Proof.
  unfold timer_wait, mbind, time_Now, emit, advance, mret.
  destruct ctx as [cancelled|].
  - destruct (cancelled <=? now w + Z.max 0 next);
      intros H; injection H as _ <-; cbn; auto.
  - intros H; injection H as _ <-; cbn; auto.
Qed.

(** What [operationWithLogging] leaves in the variables. *)
Lemma operationWithLogging_vars {L : Type}
    (operation : L -> M (option error * L)) (v v' : retryVars L)
    (w w' : World) (err : option error) :
  operationWithLogging operation v w = Ret ((err, v'), w') ->
  exists r l',
    operation (captured v) w = Ret ((r, l'), w')
    /\ captured v' = l'
    /\ attempt v' = attempt v + 1
    /\ match r with
       | Some e => lastErr v' = Some e /\ err <> None
       | None => lastErr v' = lastErr v /\ err = None
       end.
Proof.
  unfold operationWithLogging, mbind, mret.
  destruct (operation (captured v) w) as [[[r l1] w1]| |]; try discriminate.
  intros H. exists r, l1.
  destruct r as [e|].
  - destruct e as [apiErr| | | | | | |];
      try (injection H as <- <- <-; repeat split; discriminate).
    destruct (is_rate_limit apiErr);
      injection H as <- <- <-; repeat split; discriminate.
  - injection H as <- <- <-. repeat split.
Qed.

(** When the retry loop gives up, an attempt has failed, and its error
    is the last one recorded. *)
Lemma Retry_loop_error_lastErr {L : Type} (env : Env) (ctx : Context)
    (operation : L -> M (option error * L)) (fuel : nat) :
  forall startedAt numTries v w e v' w',
    Retry_loop env ctx (operationWithLogging operation) backoffConfig
      set_backoffConfig fuel startedAt numTries v w = Ret ((Some e, v'), w') ->
    exists e0, lastErr v' = Some e0.
Proof.
  induction fuel as [|fuel IH]; intros startedAt numTries v w e v' w' Hrun.
  - discriminate Hrun.
  - cbn [Retry_loop] in Hrun. unfold mbind at 1 in Hrun.
    destruct (operationWithLogging operation v w) as [[[r v1] w1]| |] eqn:Hop;
      try discriminate.
    destruct (operationWithLogging_vars _ _ _ _ _ _ Hop)
      as (r0 & l1 & _ & _ & _ & Hlast).
    destruct r as [e1|]; [|discriminate Hrun].
    assert (H1 : exists e0, lastErr v1 = Some e0).
    { destruct r0 as [e0|]; [exists e0; apply Hlast|].
      destruct Hlast as [_ Hnone]. discriminate Hnone. }
    destruct ((0 <? MaxTries) && (MaxTries <=? numTries));
      [injection Hrun as _ <- _; exact H1|].
    destruct (backoff.as_permanent e1);
      [injection Hrun as _ <- _; exact H1|].
    unfold mbind at 1 in Hrun. unfold time_Now at 1 in Hrun.
    destruct (ctx_Err ctx (now w1));
      [injection Hrun as _ <- _; exact H1|].
    unfold mbind at 1 in Hrun. unfold rand at 1 in Hrun.
    destruct (backoff.NextBackOff (rand_Float64 env (rand_calls w1))
                (backoffConfig v1)) as [next b].
    destruct (next =? backoff.Stop);
      [injection Hrun as _ <- _; exact H1|].
    unfold mbind at 1 in Hrun. unfold time_Now at 1 in Hrun.
    cbn beta iota in Hrun.
    match type of Hrun with
    | (if ?c then _ else _) _ = _ => destruct c
    end; [injection Hrun as _ <- _; exact H1|].
    unfold mbind at 1 in Hrun.
    match type of Hrun with
    | match timer_wait ctx next ?w2 with _ => _ end = _ =>
        destruct (timer_wait ctx next w2) as [[c w3]| |] eqn:Hw;
        try discriminate Hrun
    end.
    destruct c; [injection Hrun as _ <- _; exact H1|].
    exact (IH _ _ _ _ _ _ _ Hrun).
Qed.

(** ** The calls of the direct analysis *)

Lemma generate_operation_world (env : Env) (params : AIAnalysisParams)
    (resp0 : option genai.GenerateContentResponse) (w : World) :
  generate_operation env params resp0 w
  = Ret ((gen_err (GenerateContent env (gen_calls w) (ModelName params)
                     (request_text params)),
          gen_resp (GenerateContent env (gen_calls w) (ModelName params)
                      (request_text params))),
         {| now := now w
                   + Z.max 0 (gen_elapsed
                                (GenerateContent env (gen_calls w)
                                   (ModelName params) (request_text params)));
            trace := EvGenerateContent (ModelName params) (request_text params)
                     :: trace w;
            gen_calls := S (gen_calls w);
            rand_calls := rand_calls w |}).
Proof. reflexivity. Qed.

Lemma is_direct_call_generate (params : AIAnalysisParams) :
  is_direct_call params
    (EvGenerateContent (ModelName params) (request_text params)) = true.
Proof. cbn [is_direct_call]. rewrite !String.eqb_refl. reflexivity. Qed.

(** The variables and the world [backoff.Retry] leaves, for the
    operation of [analyzeLogsWithAI]. *)
Lemma retryWithBackoff_vars_generate (env : Env) (ctx : Context)
    (params : AIAnalysisParams) (fuel : nat)
    (l : option genai.GenerateContentResponse) (w : World)
    (err : option error)
    (v : retryVars (option genai.GenerateContentResponse)) (w' : World) :
  retryWithBackoff_vars env ctx (generate_operation env params) fuel l w
  = Ret ((err, v), w') ->
  direct_calls_since params w (attempt v) w'
  /\ 1 <= attempt v
  /\ (err <> None -> exists e, lastErr v = Some e).
Proof.
  unfold retryWithBackoff_vars, Retry. unfold mbind at 1, time_Now at 1.
  intros Hrun. split; [|split].
  - assert (H : direct_calls_since params w (attempt v) w' /\ 1 <= attempt v);
      [|exact (proj1 H)].
    revert Hrun.
    apply (Retry_loop_world env ctx _ backoffConfig set_backoffConfig
             (fun v w1 => direct_calls_since params w (attempt v) w1
                          /\ 0 <= attempt v)
             (fun v w1 => direct_calls_since params w (attempt v) w1
                          /\ 1 <= attempt v)).
    + intros v0 w0 err0 v1 w1 [[Hn (events & Ht & Hev)] H0] Hop.
      destruct (operationWithLogging_vars _ _ _ _ _ _ Hop)
        as (r & l1 & Hgen & _ & Hatt & _).
      rewrite generate_operation_world in Hgen. injection Hgen as _ _ <-.
      unfold direct_calls_since. cbn [gen_calls trace]. split; [split|lia].
      * rewrite Hatt, Hn. lia.
      * exists (EvGenerateContent (ModelName params) (request_text params)
                :: events).
        split; [rewrite Ht; reflexivity|].
        cbn [forallb]. rewrite is_direct_call_generate, Hev. reflexivity.
    + intros v0 w0 [H H1]. split; [exact H|lia].
    + intros v0 w0 b H. exact H.
    + intros v0 w0 [[Hn (events & Ht & Hev)] H1]. split; [|exact H1].
      split; [exact Hn|]. exists events. split; assumption.
    + intros v0 w0 next c w1 [[Hn (events & Ht & Hev)] H1] Hw.
      destruct (timer_wait_calls _ _ _ _ _ Hw) as [Hg Htr].
      split; [|exact H1]. split; [rewrite Hg; exact Hn|].
      destruct Htr as [Htr|Htr]; rewrite Htr, Ht.
      * exists events. split; [reflexivity|exact Hev].
      * exists (EvSleep next :: events). split; [reflexivity|exact Hev].
    + cbn [attempt set_backoffConfig]. split; [split|lia].
      * lia.
      * exists []. split; reflexivity.
  - revert Hrun.
    apply (Retry_loop_world env ctx _ backoffConfig set_backoffConfig
             (fun v _ => 0 <= attempt v) (fun v _ => 1 <= attempt v)).
    + intros v0 w0 err0 v1 w1 H0 Hop.
      destruct (operationWithLogging_vars _ _ _ _ _ _ Hop)
        as (r & l1 & _ & _ & Hatt & _). lia.
    + intros v0 w0 H. lia.
    + intros v0 w0 b H. exact H.
    + intros v0 w0 H. exact H.
    + intros v0 w0 next c w1 H _. exact H.
    + cbn [attempt set_backoffConfig]. lia.
  - intros Herr. destruct err as [e|]; [|congruence].
    exact (Retry_loop_error_lastErr _ _ _ _ _ _ _ _ _ _ _ Hrun).
Qed.

(** What the retry loop leaves, for the operation of
    [analyzeLogsWithAI]: the response it has captured is that of the
    last call of the model; it gives up only when that call has failed,
    and the error recorded last is then the error of that call. *)
Lemma Retry_loop_generate (env : Env) (ctx : Context)
    (params : AIAnalysisParams) (fuel : nat) :
  forall startedAt numTries v w err v' w',
    Retry_loop env ctx (operationWithLogging (generate_operation env params))
      backoffConfig set_backoffConfig fuel startedAt numTries v w
    = Ret ((err, v'), w') ->
    (gen_calls w < gen_calls w')%nat
    /\ captured v'
       = gen_resp (model_answer env params (pred (gen_calls w')))
    /\ match err with
       | Some _ =>
           exists e,
             gen_err (model_answer env params (pred (gen_calls w'))) = Some e
             /\ lastErr v' = Some e
       | None =>
           gen_err (model_answer env params (pred (gen_calls w'))) = None
       end.
Proof.
  induction fuel as [|fuel IH]; intros startedAt numTries v w err v' w' Hrun.
  - discriminate Hrun.
  - cbn [Retry_loop] in Hrun. unfold mbind at 1 in Hrun.
    destruct (operationWithLogging (generate_operation env params) v w)
      as [[[r v1] w1]| |] eqn:Hop; try discriminate.
    destruct (operationWithLogging_vars _ _ _ _ _ _ Hop)
      as (r0 & l1 & Hgen & Hcap & _ & Hlast).
    rewrite generate_operation_world in Hgen.
    injection Hgen as Hr0 Hl1 Hw1.
    fold (model_answer env params (gen_calls w)) in Hr0, Hl1, Hw1.
    assert (Hg1 : gen_calls w1 = S (gen_calls w))
      by (rewrite <- Hw1; reflexivity).
    destruct r as [e1|].
    2:{ injection Hrun as <- <- <-. rewrite Hg1. cbn [pred].
        split; [lia|]. split; [congruence|].
        destruct r0 as [e0|]; [|first [exact Hr0|symmetry; exact Hr0]].
        destruct Hlast as [_ Hne]. exfalso. apply Hne. reflexivity. }
    assert (Hret : forall v2 w2,
               captured v2 = captured v1 -> lastErr v2 = lastErr v1 ->
               gen_calls w2 = gen_calls w1 ->
               (gen_calls w < gen_calls w2)%nat
               /\ captured v2
                  = gen_resp (model_answer env params (pred (gen_calls w2)))
               /\ exists e,
                    gen_err (model_answer env params (pred (gen_calls w2)))
                    = Some e
                    /\ lastErr v2 = Some e).
    { intros v2 w2 Hc Hl Hg. rewrite Hg, Hg1. cbn [pred].
      split; [lia|]. split; [congruence|].
      destruct r0 as [e0|].
      - exists e0. split; [first [exact Hr0|symmetry; exact Hr0]|].
        rewrite Hl. apply Hlast.
      - destruct Hlast as [_ Hnone]. discriminate Hnone. }
    destruct ((0 <? MaxTries) && (MaxTries <=? numTries));
      [injection Hrun as <- <- <-; apply Hret; reflexivity|].
    destruct (backoff.as_permanent e1);
      [injection Hrun as <- <- <-; apply Hret; reflexivity|].
    unfold mbind at 1 in Hrun. unfold time_Now at 1 in Hrun.
    destruct (ctx_Err ctx (now w1));
      [injection Hrun as <- <- <-; apply Hret; reflexivity|].
    unfold mbind at 1 in Hrun. unfold rand at 1 in Hrun.
    destruct (backoff.NextBackOff (rand_Float64 env (rand_calls w1))
                (backoffConfig v1)) as [next b].
    destruct (next =? backoff.Stop);
      [injection Hrun as <- <- <-; apply Hret; reflexivity|].
    unfold mbind at 1 in Hrun. unfold time_Now at 1 in Hrun.
    cbn beta iota in Hrun.
    match type of Hrun with
    | (if ?c then _ else _) _ = _ => destruct c
    end; [injection Hrun as <- <- <-; apply Hret; reflexivity|].
    unfold mbind at 1 in Hrun.
    match type of Hrun with
    | match timer_wait ctx next ?w2 with _ => _ end = _ =>
        destruct (timer_wait ctx next w2) as [[c w3]| |] eqn:Hw;
        try discriminate Hrun
    end.
    destruct (timer_wait_calls _ _ _ _ _ Hw) as [Hg3 _].
    cbn [gen_calls] in Hg3.
    destruct c;
      [injection Hrun as <- <- <-; apply Hret;
       [reflexivity|reflexivity|exact Hg3]|].
    destruct (IH _ _ _ _ _ _ _ Hrun) as (Hlt & Hc & He).
    split; [lia|]. split; [exact Hc|exact He].
Qed.

Lemma retryWithBackoff_generate_result (env : Env) (ctx : Context)
    (params : AIAnalysisParams) (maxRetries : Z) (fuel : nat)
    (l : option genai.GenerateContentResponse) (w : World)
    (r : option error) (l' : option genai.GenerateContentResponse)
    (w' : World) :
  retryWithBackoff env ctx (generate_operation env params) maxRetries fuel l w
  = Ret ((r, l'), w') ->
  (gen_calls w < gen_calls w')%nat
  /\ l' = gen_resp (model_answer env params (pred (gen_calls w')))
  /\ match r with
     | None => gen_err (model_answer env params (pred (gen_calls w'))) = None
     | Some err =>
         exists e,
           gen_err (model_answer env params (pred (gen_calls w'))) = Some e
           /\ err = ErrorString
                      ("max retries exceeded after "
                       +:+ itoa (Z.of_nat (gen_calls w' - gen_calls w))
                       +:+ " attempts, last error: " +:+ Error env e)
     end.
Proof.
  unfold retryWithBackoff. unfold mbind at 1.
  destruct (retryWithBackoff_vars env ctx (generate_operation env params)
              fuel l w) as [[[err v] w1]| |] eqn:Hvars; try discriminate.
  destruct (retryWithBackoff_vars_generate _ _ _ _ _ _ _ _ _ Hvars)
    as ([Hn _] & H1 & _).
  unfold retryWithBackoff_vars, Retry in Hvars.
  unfold mbind at 1, time_Now at 1 in Hvars.
  destruct (Retry_loop_generate _ _ _ _ _ _ _ _ _ _ _ Hvars)
    as (Hlt & Hcap & Herr).
  destruct err as [e|]; unfold mret; intros H; injection H as <- <- <-.
  - split; [exact Hlt|]. split; [exact Hcap|].
    destruct Herr as (e0 & Hlast & He0). exists e0. split; [exact Hlast|].
    rewrite He0. cbn [fmt_v].
    replace (Z.of_nat (gen_calls w1 - gen_calls w)) with (attempt v) by lia.
    reflexivity.
  - split; [exact Hlt|]. split; [exact Hcap|exact Herr].
Qed.

(** X13. Whenever [retryWithBackoff] returns for the operation of
    [analyzeLogsWithAI], at least one call of the model has been made.
    Without an error the last call has succeeded.  With an error, the
    last call has failed, the number of attempts the error names is the
    number of calls made, and the last error it names is the error that
    last call returned. *)
Theorem retryWithBackoff_counts_calls (env : Env) (ctx : Context)
    (params : AIAnalysisParams) (maxRetries : Z) (fuel : nat)
    (l : option genai.GenerateContentResponse) (w : World)
    (r : option error) (l' : option genai.GenerateContentResponse)
    (w' : World) :
  retryWithBackoff env ctx (generate_operation env params) maxRetries fuel l w
  = Ret ((r, l'), w') ->
  (gen_calls w < gen_calls w')%nat
  /\ l' = gen_resp (model_answer env params (pred (gen_calls w')))
  /\ match r with
     | None => gen_err (model_answer env params (pred (gen_calls w'))) = None
     | Some err =>
         exists e,
           gen_err (model_answer env params (pred (gen_calls w'))) = Some e
           /\ err = ErrorString
                      ("max retries exceeded after "
                       +:+ itoa (Z.of_nat (gen_calls w' - gen_calls w))
                       +:+ " attempts, last error: " +:+ Error env e)
     end.
Proof. apply retryWithBackoff_generate_result. Qed.

Lemma retryWithBackoff_counts_calls_witness :
  let env := example_env always_internal_error one_pod EmptyString in
  exists w',
    retryWithBackoff env Background (generate_operation env example_params)
      3 100 None initial_world
    = Ret ((Some (ErrorString
                    "max retries exceeded after 1 attempts, last error: <error>"),
            None), w')
    /\ (gen_calls initial_world < gen_calls w')%nat
    /\ gen_err (model_answer env example_params 0)
       = Some (ErrAPI (genai.mkAPIError 500 "internal" "INTERNAL" [])).
Proof.
  intros env.
  match eval vm_compute in
        (retryWithBackoff env Background
           (generate_operation env example_params) 3 100 None initial_world)
  with
  | Ret ((?r, ?l'), ?w') =>
      assert (H : retryWithBackoff env Background
                    (generate_operation env example_params) 3 100 None
                    initial_world = Ret ((r, l'), w'))
        by (vm_compute; reflexivity);
      destruct (retryWithBackoff_counts_calls env Background example_params 3
                  100 None initial_world r l' w' H) as (Hlt & _ & _);
      exists w'; split; [exact H|]; split; [exact Hlt|reflexivity]
  end.
Defined.

Lemma analyzeLogsWithAI_direct_calls (env : Env) (fuel : nat)
    (params : AIAnalysisParams) (w : World)
    (r : string * AIAnalysisResult * option error) (w' : World) :
  analyzeLogsWithAI env fuel params w = Ret (r, w') ->
  exists events,
    calls_between w w' events
    /\ forallb (is_direct_call params) events = true.
Proof.
  unfold analyzeLogsWithAI, calls_between. unfold mbind at 1.
  destruct (getSecretValue_returns env "argo-rollouts" "google_api_key" w)
    as (apiKey & err & w1 & Hsecret & Hw1 & _ & _).
  rewrite Hsecret.
  assert (H1 : exists events,
             trace w1 = (events ++ trace w)%list
             /\ forallb (is_direct_call params) events = true).
  { destruct Hw1 as [->|Hw1]; [exists []; split; reflexivity|].
    exists [EvSecretGet "argo-rollouts" "argo-rollouts"].
    split; [exact Hw1|reflexivity]. }
  destruct err as [err|].
  { unfold mret. intros H. injection H as _ <-. exact H1. }
  destruct (NewClient env) as [err|].
  { unfold mret. intros H. injection H as _ <-. exact H1. }
  unfold retryWithBackoff. unfold mbind at 1 2.
  destruct (retryWithBackoff_vars env Background
              (generate_operation env params) fuel None w1)
    as [[[err v] w2]| |] eqn:Hvars; try discriminate.
  destruct (retryWithBackoff_vars_generate _ _ _ _ _ _ _ _ _ Hvars)
    as ([_ (events2 & Ht2 & Hev2)] & _ & _).
  destruct H1 as (events1 & Ht1 & Hev1).
  assert (H2 : exists events,
             trace w2 = (events ++ trace w)%list
             /\ forallb (is_direct_call params) events = true).
  { exists (events2 ++ events1)%list. split.
    - rewrite Ht2, Ht1. apply app_assoc.
    - rewrite forallb_app, Hev2, Hev1. reflexivity. }
  destruct err as [err|]; unfold mret at 1; cbn beta iota.
  { unfold mret. intros H. injection H as _ <-. exact H2. }
  unfold mbind at 1, lift at 1.
  destruct (concatCandidates (captured v)) as [txt| |]; try discriminate.
  unfold mbind at 1, lift at 1.
  destruct (parse_result (TrimSpace txt)) as [[rawJSON obj]| |];
    try discriminate.
  unfold mret. intros H. injection H as _ <-. exact H2.
Qed.

(** X14. In every mode but [agent], the mode [default] and any
    unknown mode alike, the analysis is the direct one, and every call
    it makes is the read of the secret [argo-rollouts] in the namespace
    [argo-rollouts], a call of the model named with the one request
    text, or a timer wait: each retry sends the same request again, and
    the agent, the pods and the issue tracker are not contacted. *)
Theorem analyzeWithMode_direct_calls (env : Env) (fuel : nat)
    (mode modelName logsContext namespace podName extraPrompt : string)
    (w : World) (r : string * AIAnalysisResult * option error) (w' : World) :
  mode <> AnalysisModeAgent ->
  analyzeWithMode env (initial_vars env fuel) mode modelName logsContext
    namespace podName extraPrompt w = Ret (r, w') ->
  analyzeLogsWithAI env fuel
    {| ModelName := modelName; LogsContext := logsContext;
       ExtraPrompt := extraPrompt |} w = Ret (r, w')
  /\ exists events,
       calls_between w w' events
       /\ forallb (is_direct_call
                     {| ModelName := modelName; LogsContext := logsContext;
                        ExtraPrompt := extraPrompt |}) events = true.
Proof.
  intros Hmode. unfold analyzeWithMode.
  apply String.eqb_neq in Hmode. rewrite Hmode.
  cbn [initial_vars var_analyzeLogsWithAI]. intros Hrun.
  split; [exact Hrun|].
  exact (analyzeLogsWithAI_direct_calls _ _ _ _ _ _ Hrun).
Qed.

Lemma analyzeWithMode_direct_calls_witness :
  let env := example_env (rate_limited_once "{}") one_pod EmptyString in
  exists r w',
    analyzeWithMode env (initial_vars env 3) "Agent" "gemini-2.0-flash"
      (logs_context "a" "b") "ns" "pod-1" EmptyString initial_world
    = Ret (r, w')
    /\ gen_calls w' = 2%nat
    /\ exists events,
         calls_between initial_world w' events
         /\ forallb (is_direct_call
                       {| ModelName := "gemini-2.0-flash";
                          LogsContext := logs_context "a" "b";
                          ExtraPrompt := EmptyString |}) events = true.
Proof.
  intros env.
  match eval vm_compute in
        (analyzeWithMode env (initial_vars env 3) "Agent" "gemini-2.0-flash"
           (logs_context "a" "b") "ns" "pod-1" EmptyString initial_world)
  with
  | Ret (?r, ?w') =>
      assert (H : analyzeWithMode env (initial_vars env 3) "Agent"
                    "gemini-2.0-flash" (logs_context "a" "b") "ns" "pod-1"
                    EmptyString initial_world = Ret (r, w'))
        by (vm_compute; reflexivity);
      exists r, w'; split; [exact H|]; split; [reflexivity|];
      exact (proj2 (analyzeWithMode_direct_calls env 3 "Agent"
                      "gemini-2.0-flash" (logs_context "a" "b") "ns" "pod-1"
                      EmptyString initial_world r w'
                      ltac:(discriminate) H))
  end.
Defined.

(** ** The text and the record of the direct analysis *)

Lemma parse_result_cases (t : string) :
  exists raw obj,
    parse_result t = Ret (raw, obj)
    /\ (raw = t
        \/ (raw <> EmptyString
            /\ extractFirstJSON t = Ret raw
            /\ snd (Unmarshal_AIAnalysisResult t AIAnalysisResult_zero)
               <> None)).
Proof.
  unfold parse_result.
  destruct (Unmarshal_AIAnalysisResult t AIAnalysisResult_zero)
    as [obj [e|]] eqn:Hu; cbn [snd].
  2:{ eexists _, _. split; [reflexivity|]. left. reflexivity. }
  destruct (extractFirstJSON_total t) as [j Hj]. rewrite Hj. cbn [obind].
  destruct (String.eqb j EmptyString) eqn:Ej; cbn [negb].
  - eexists _, _. split; [reflexivity|]. left. reflexivity.
  - destruct (Unmarshal_AIAnalysisResult j obj) as [obj2 e2].
    eexists _, _. split; [reflexivity|]. right.
    split; [apply String.eqb_neq; exact Ej|]. split; [reflexivity|].
    discriminate.
Qed.

(** X15. The end of [analyzeLogsWithAI] never panics, and the text it
    returns, which [Run] stores as [analysisJSON], is the text it was
    given or, when that text does not decode, the non-empty block
    [extractFirstJSON] finds in it. *)
Theorem parse_result_returns (t : string) :
  exists raw obj,
    parse_result t = Ret (raw, obj)
    /\ (raw = t
        \/ (raw <> EmptyString
            /\ extractFirstJSON t = Ret raw
            /\ snd (Unmarshal_AIAnalysisResult t AIAnalysisResult_zero)
               <> None)).
Proof. apply parse_result_cases. Qed.

(** An operation that succeeds at once is called once. *)
Lemma retryWithBackoff_first_success {L : Type} (env : Env) (ctx : Context)
    (operation : L -> M (option error * L)) (maxRetries : Z) (fuel : nat)
    (l l' : L) (w w' : World) :
  operation l w = Ret ((None, l'), w') ->
  retryWithBackoff env ctx operation maxRetries (S fuel) l w
  = Ret ((None, l'), w').
Proof.
  intros Hop.
  unfold retryWithBackoff, retryWithBackoff_vars, Retry.
  unfold mbind at 1 2. unfold time_Now at 1. cbn [Retry_loop].
  unfold mbind at 1. unfold operationWithLogging at 1.
  cbn [captured set_backoffConfig]. unfold mbind at 1.
  rewrite Hop. reflexivity.
Qed.

(** X16. When the first call of the model succeeds with a response that
    has no [nil] pointer, the direct analysis makes that one call and
    no wait, and returns without an error the text and the record read
    from the texts of the response, joined and stripped of the white
    space around them. *)
Theorem analyzeLogsWithAI_first_call (env : Env) (fuel : nat)
    (params : AIAnalysisParams) (w w1 : World) (apiKey : string)
    (resp : genai.GenerateContentResponse) (elapsed : Z) :
  getSecretValue env "argo-rollouts" "google_api_key" w
    = Ret ((apiKey, None), w1) ->
  NewClient env = None ->
  GenerateContent env (gen_calls w1) (ModelName params) (request_text params)
    = mkGenResult (Some resp) None elapsed ->
  no_nil_pointer resp = true ->
  exists raw obj w',
    analyzeLogsWithAI env (S fuel) params w = Ret ((raw, obj, None), w')
    /\ parse_result (TrimSpace (joined (response_texts resp)))
       = Ret (raw, obj)
    /\ calls_between w1 w'
         [EvGenerateContent (ModelName params) (request_text params)]
    /\ gen_calls w' = S (gen_calls w1).
Proof.
  intros Hsecret Hclient Hgen Hresp.
  destruct (parse_result_cases (TrimSpace (joined (response_texts resp))))
    as (raw & obj & Hparse & _).
  pose proof (generate_operation_world env params None w1) as Hop.
  rewrite Hgen in Hop. cbn [gen_err gen_resp gen_elapsed] in Hop.
  pose proof (retryWithBackoff_first_success env Background _ 3 fuel _ _ _ _
                Hop) as Hretry.
  assert (Htxt : concatCandidates (Some resp)
                 = Ret (joined (response_texts resp))).
  { unfold concatCandidates, no_nil_pointer, response_texts in *.
    rewrite concatCandidates_loop, Hresp, app_nil_l. reflexivity. }
  rewrite (analyzeLogsWithAI_after_call env (S fuel) params w w1 _ apiKey
             (Some resp) _ Hsecret Hclient Hretry Htxt).
  rewrite Hparse. eexists _, _, _. split; [reflexivity|].
  split; [reflexivity|]. split; reflexivity.
Qed.

Lemma analyzeLogsWithAI_first_call_witness :
  let env :=
    example_env
      (model_says
         (json_text " {'text':'ok','promote':true,'confidence':80} "))
      one_pod EmptyString in
  exists raw w',
    analyzeLogsWithAI env 1 example_params initial_world
    = Ret ((raw, mkAIAnalysisResult "ok" true 80, None), w')
    /\ gen_calls w' = 1%nat.
Proof.
  intros env.
  match eval vm_compute in
        (getSecretValue env "argo-rollouts" "google_api_key" initial_world)
  with
  | Ret ((?k, None), ?w1) =>
      destruct (analyzeLogsWithAI_first_call env 0 example_params
                  initial_world w1 k
                  (text_response
                     (json_text
                        " {'text':'ok','promote':true,'confidence':80} "))
                  0
                  ltac:(vm_compute; reflexivity) eq_refl eq_refl eq_refl)
        as (raw & obj & w' & Hrun & Hparse & _ & Hcalls);
      exists raw, w'; split; [|exact Hcalls];
      rewrite Hrun; do 3 f_equal;
      vm_compute in Hparse; congruence
  end.
Defined.

(** ** Cancellation *)

(** X17. When the context is cancelled by the time a rate-limited
    attempt has failed, [retryWithBackoff] makes no further attempt and
    no wait; the error it returns is the max-retries error naming one
    attempt and the API error, not the cancellation. *)
Theorem retryWithBackoff_cancelled {L : Type} (env : Env) (ctx : Context)
    (operation : L -> M (option error * L)) (maxRetries : Z) (fuel : nat)
    (l l1 : L) (w w1 : World) (apiErr : genai.APIError) (ce : error) :
  operation l w = Ret ((Some (ErrAPI apiErr), l1), w1) ->
  is_rate_limit apiErr = true ->
  ctx_Err ctx (now w1) = Some ce ->
  retryWithBackoff env ctx operation maxRetries (S fuel) l w
  = Ret ((Some (ErrorString
                  ("max retries exceeded after 1 attempts, last error: "
                   +:+ Error env (ErrAPI apiErr))), l1), w1).
Proof.
  intros Hop Hrate Hctx.
  unfold retryWithBackoff, retryWithBackoff_vars, Retry.
  unfold mbind at 1 2. unfold time_Now at 1. cbn [Retry_loop].
  unfold mbind at 1. unfold operationWithLogging at 1.
  cbn [captured set_backoffConfig]. unfold mbind at 1.
  rewrite Hop. cbn beta iota. rewrite Hrate.
  unfold mret at 1. cbn beta iota.
  change ((0 <? MaxTries) && (MaxTries <=? 1)) with false. cbn iota.
  cbn [backoff.as_permanent].
  unfold mbind at 1. unfold time_Now at 1. rewrite Hctx.
  reflexivity.
Qed.

Lemma retryWithBackoff_cancelled_witness :
  let env := example_env always_rate_limited one_pod EmptyString in
  exists w1,
    retryWithBackoff env (Some 0) (generate_operation env example_params) 3
      100 None initial_world
    = Ret ((Some (ErrorString
                    "max retries exceeded after 1 attempts, last error: <error>"),
            None), w1)
    /\ gen_calls w1 = 1%nat /\ sleeps w1 = [].
Proof.
  intros env.
  match eval vm_compute in
        (generate_operation env example_params None initial_world) with
  | Ret ((Some (ErrAPI ?a), ?l1), ?w1) =>
      exists w1; split; [|split; reflexivity];
      exact (retryWithBackoff_cancelled env (Some 0)
               (generate_operation env example_params) 3 99 None l1
               initial_world w1 a ErrCanceled
               ltac:(vm_compute; reflexivity) eq_refl eq_refl)
  end.
Defined.

(** ** Run: the early returns *)

Lemma Run_inputs_unfold (env : Env) (vars : Vars) (ar : AnalysisRun)
    (metric : Metric) (w : World) :
  Run_inputs env vars ar metric w
  = let m0 := new_measurement (now w) in
    let fail (err : error) : M (Measurement + AnalysisInputs) :=
      mbind (markMeasurementError env m0 err) (fun m => mret (inl m)) in
    let cfg := fst (plugin_config metric) in
    match snd (plugin_config metric) with
    | Some err => fail err w
    | None =>
        mbind (var_acquireKubeClient vars)
          (fun '(kubeClient, err) =>
             match err with
             | Some err => fail err
             | None =>
                 mbind
                   (var_readFirstPodLogs vars Background kubeClient
                      (RunNamespace ar) (stable_selector cfg))
                   (fun '(stableLogs, err) =>
                      match err with
                      | Some err => fail err
                      | None =>
                          mbind
                            (var_readFirstPodLogs vars Background kubeClient
                               (RunNamespace ar) (canary_selector cfg))
                            (fun '(canaryLogs, err) =>
                               match err with
                               | Some err =>
                                   if IsNotFound err then
                                     mbind time_Now
                                       (fun finishedTime =>
                                          mret (inl (with_result m0
                                                       AnalysisPhaseSuccessful
                                                       "1" finishedTime)))
                                   else fail err
                               | None =>
                                   let logsContext :=
                                     logs_context stableLogs canaryLogs in
                                   let modelName :=
                                     if String.eqb (Model cfg) EmptyString
                                     then "gemini-2.0-flash" else Model cfg in
                                   let analysisMode := analysis_mode cfg in
                                   let namespace := Namespace cfg in
                                   let podName := PodName cfg in
                                   if String.eqb analysisMode AnalysisModeAgent
                                      && (String.eqb namespace EmptyString
                                          || String.eqb podName EmptyString)
                                   then
                                     fail (ErrorString agent_config_error)
                                   else if String.eqb analysisMode
                                             AnalysisModeAgent
                                           && negb (Contains podName "-")
                                   then
                                     mbind (var_getKubeClient vars)
                                       (fun '(k8sClient, err) =>
                                          match err with
                                          | Some err =>
                                              fail (ErrWrap
                                                      ("failed to create k8s client: "
                                                       +:+ Error env err) err)
                                          | None =>
                                              mbind
                                                (Pods_List env k8sClient
                                                   namespace
                                                   ("rollouts-pod-template-hash="
                                                    +:+ podName))
                                                (fun '(pods, err) =>
                                                   match err with
                                                   | Some err =>
                                                       fail (ErrWrap
                                                               ("failed to find pod with template hash "
                                                                +:+ podName
                                                                +:+ ": "
                                                                +:+ Error env err)
                                                               err)
                                                   | None =>
                                                       match pods with
                                                       | [] =>
                                                           fail (ErrorString
                                                                   ("no pods found with template hash "
                                                                    +:+ podName))
                                                       | resolvedPodName :: _ =>
                                                           mret (inr (mkAnalysisInputs
                                                                        m0 cfg
                                                                        modelName
                                                                        logsContext
                                                                        analysisMode
                                                                        namespace
                                                                        resolvedPodName))
                                                       end
                                                   end)
                                          end)
                                   else
                                     mret (inr (mkAnalysisInputs m0 cfg
                                                  modelName logsContext
                                                  analysisMode namespace
                                                  podName))
                               end)
                      end)
             end) w
    end.
Proof.
  unfold Run_inputs, plugin_config. unfold mbind at 1, time_Now at 1.
  destruct (match Plugin metric !! pluginName with
            | Some pluginCfg => Unmarshal store_aiConfig pluginCfg aiConfig_zero
            | None => (aiConfig_zero, None)
            end) as [cfg [err|]]; reflexivity.
Qed.

Lemma Run_early (env : Env) (vars : Vars) (ar : AnalysisRun) (metric : Metric)
    (w w' : World) (m : Measurement) :
  Run_inputs env vars ar metric w = Ret (inl m, w') ->
  Run env vars ar metric w = Ret (m, w').
Proof. intros H. unfold Run. unfold mbind at 1. rewrite H. reflexivity. Qed.

(** X18. A plugin configuration that does not parse makes [Run] return
    a measurement in phase Error with the message of the parse error,
    before any call is made: the cluster is not contacted. *)
Theorem Run_config_error (env : Env) (vars : Vars) (ar : AnalysisRun)
    (metric : Metric) (w : World) (cfg : aiConfig) (err : error) :
  plugin_config metric = (cfg, Some err) ->
  Run env vars ar metric w
  = Ret ({| Phase := AnalysisPhaseError;
            Message := Error env err;
            StartedAt := Some (now w);
            FinishedAt := Some (now w);
            Value := EmptyString;
            Metadata := None |}, w).
Proof.
  intros Hcfg. apply Run_early. rewrite Run_inputs_unfold, Hcfg. reflexivity.
Qed.

Lemma Run_config_error_witness :
  let env := example_env (model_says EmptyString) one_pod EmptyString in
  exists m,
    Run env (initial_vars env 100) test_run (test_metric "{'model': 7}")
      initial_world = Ret (m, initial_world)
    /\ Phase m = AnalysisPhaseError.
Proof.
  intros env.
  match eval vm_compute in (plugin_config (test_metric "{'model': 7}")) with
  | (?cfg, Some ?err) =>
      eexists; split;
      [exact (Run_config_error env (initial_vars env 100) test_run
                (test_metric "{'model': 7}") initial_world cfg err
                ltac:(vm_compute; reflexivity))
      |reflexivity]
  end.
Defined.

(** X19. When the logs of the stable pod cannot be read, for whatever
    reason and also when no stable pod is found, [Run] returns a
    measurement in phase Error with the message of that error; it has
    not asked for the canary logs. *)
Theorem Run_stable_logs_error (env : Env) (vars : Vars) (ar : AnalysisRun)
    (metric : Metric) (w w1 w2 : World) (cfg : aiConfig)
    (client : option Clientset) (logs : string) (err : error) :
  plugin_config metric = (cfg, None) ->
  var_acquireKubeClient vars w = Ret ((client, None), w1) ->
  var_readFirstPodLogs vars Background client (RunNamespace ar)
    (stable_selector cfg) w1 = Ret ((logs, Some err), w2) ->
  Run env vars ar metric w
  = Ret ({| Phase := AnalysisPhaseError;
            Message := Error env err;
            StartedAt := Some (now w);
            FinishedAt := Some (now w2);
            Value := EmptyString;
            Metadata := None |}, w2).
Proof.
  intros Hcfg Hclient Hstable. apply Run_early.
  rewrite Run_inputs_unfold, Hcfg. cbv zeta. cbn [fst snd].
  unfold mbind at 1. rewrite Hclient. cbn beta iota.
  unfold mbind at 1. rewrite Hstable. reflexivity.
Qed.

Lemma Run_stable_logs_error_witness :
  let env := example_env (model_says EmptyString) no_stable_pod EmptyString in
  exists m w',
    Run env (initial_vars env 100) test_run (test_metric "{}") initial_world
    = Ret (m, w')
    /\ Phase m = AnalysisPhaseError
    /\ trace w' = [EvPodsList "default" "role=stable"].
Proof.
  intros env.
  match eval vm_compute in
        (fetchFirstPodLogs env Background (Some mkClientset) "default"
           "role=stable" initial_world) with
  | Ret ((?logs, Some ?err), ?w2) =>
      eexists _, w2; split;
      [exact (Run_stable_logs_error env (initial_vars env 100) test_run
                (test_metric "{}") initial_world initial_world w2
                aiConfig_zero (Some mkClientset) logs err
                ltac:(vm_compute; reflexivity) ltac:(vm_compute; reflexivity)
                ltac:(vm_compute; reflexivity))
      |split; reflexivity]
  end.
Defined.

(** X20. When the stable logs are read and reading the canary logs
    fails with an error whose reason is NotFound, [Run] returns a
    measurement in phase Successful with the value 1, without metadata
    and without an analysis. *)
Theorem Run_canary_not_found (env : Env) (vars : Vars) (ar : AnalysisRun)
    (metric : Metric) (w w1 w2 w3 : World) (cfg : aiConfig)
    (client : option Clientset) (stableLogs logs : string) (err : error) :
  plugin_config metric = (cfg, None) ->
  var_acquireKubeClient vars w = Ret ((client, None), w1) ->
  var_readFirstPodLogs vars Background client (RunNamespace ar)
    (stable_selector cfg) w1 = Ret ((stableLogs, None), w2) ->
  var_readFirstPodLogs vars Background client (RunNamespace ar)
    (canary_selector cfg) w2 = Ret ((logs, Some err), w3) ->
  IsNotFound err = true ->
  Run env vars ar metric w
  = Ret ({| Phase := AnalysisPhaseSuccessful;
            Message := EmptyString;
            StartedAt := Some (now w);
            FinishedAt := Some (now w3);
            Value := "1";
            Metadata := None |}, w3).
Proof.
  intros Hcfg Hclient Hstable Hcanary Hnf. apply Run_early.
  rewrite Run_inputs_unfold, Hcfg. cbv zeta. cbn [fst snd].
  unfold mbind at 1. rewrite Hclient. cbn beta iota.
  unfold mbind at 1. rewrite Hstable. cbn beta iota.
  unfold mbind at 1. rewrite Hcanary. cbn beta iota. rewrite Hnf.
  reflexivity.
Qed.

Lemma Run_canary_not_found_witness :
  let env := example_env (model_says EmptyString) no_canary_pod EmptyString in
  exists m w',
    Run env (initial_vars env 100) test_run (test_metric "{}") initial_world
    = Ret (m, w')
    /\ Phase m = AnalysisPhaseSuccessful /\ Value m = "1"
    /\ gen_calls w' = 0%nat.
Proof.
  intros env.
  match eval vm_compute in
        (fetchFirstPodLogs env Background (Some mkClientset) "default"
           "role=stable" initial_world) with
  | Ret ((?slogs, None), ?w2) =>
      match eval vm_compute in
            (fetchFirstPodLogs env Background (Some mkClientset) "default"
               "role=canary" w2) with
      | Ret ((?logs, Some ?err), ?w3) =>
          eexists _, w3; split;
          [exact (Run_canary_not_found env (initial_vars env 100) test_run
                    (test_metric "{}") initial_world initial_world w2 w3
                    aiConfig_zero (Some mkClientset) slogs logs err
                    ltac:(vm_compute; reflexivity)
                    ltac:(vm_compute; reflexivity)
                    ltac:(vm_compute; reflexivity)
                    ltac:(vm_compute; reflexivity) eq_refl)
          |split; [|split]; reflexivity]
      end
  end.
Defined.

(** ** Run: what the analysis is called with *)

Lemma fail_is_early (env : Env) (m0 : Measurement) (err : error) (w w1 : World)
    (a : AnalysisInputs) :
  mbind (markMeasurementError env m0 err) (fun m => mret (inl m)) w
  = Ret (inr a, w1) -> False.
Proof. unfold mbind, markMeasurementError, time_Now, mret. discriminate. Qed.

Ltac early :=
  try discriminate;
  try (let H := fresh "H" in
       intros H; exfalso; exact (fail_is_early _ _ _ _ _ _ H)).

Lemma Run_inputs_analysis (env : Env) (vars : Vars) (ar : AnalysisRun)
    (metric : Metric) (w w1 : World) (a : AnalysisInputs) :
  Run_inputs env vars ar metric w = Ret (inr a, w1) ->
  exists cfg stableLogs canaryLogs,
    plugin_config metric = (cfg, None)
    /\ in_cfg a = cfg
    /\ in_measurement a = new_measurement (now w)
    /\ in_logsContext a = logs_context stableLogs canaryLogs
    /\ in_modelName a
       = (if String.eqb (Model cfg) EmptyString then "gemini-2.0-flash"
          else Model cfg)
    /\ in_analysisMode a = analysis_mode cfg
    /\ in_namespace a = Namespace cfg
    /\ (in_analysisMode a = AnalysisModeAgent ->
        Namespace cfg <> EmptyString /\ PodName cfg <> EmptyString)
    /\ (in_analysisMode a <> AnalysisModeAgent
        \/ Contains (PodName cfg) "-" = true ->
        in_podName a = PodName cfg).
Proof.
  rewrite Run_inputs_unfold. cbv zeta.
  destruct (plugin_config metric) as [cfg [err|]] eqn:Hcfg; cbn [fst snd];
    early.
  unfold mbind at 1.
  destruct (var_acquireKubeClient vars w) as [[[client [err|]] w0]| |];
    early.
  unfold mbind at 1.
  destruct (var_readFirstPodLogs vars Background client (RunNamespace ar)
              (stable_selector cfg) w0) as [[[stableLogs [err|]] w2]| |];
    early.
  unfold mbind at 1.
  destruct (var_readFirstPodLogs vars Background client (RunNamespace ar)
              (canary_selector cfg) w2) as [[[canaryLogs [err|]] w3]| |];
    early.
  { destruct (IsNotFound err); early. }
  destruct (String.eqb (analysis_mode cfg) AnalysisModeAgent) eqn:Hmode;
    cbn [andb].
  - destruct (String.eqb (Namespace cfg) EmptyString
              || String.eqb (PodName cfg) EmptyString) eqn:Hempty;
      early.
    apply orb_false_iff in Hempty. destruct Hempty as [Hns Hpod].
    apply String.eqb_neq in Hns, Hpod.
    destruct (Contains (PodName cfg) "-") eqn:Hdash; cbn [negb].
    + unfold mret. intros H. injection H as <- _.
      exists cfg, stableLogs, canaryLogs. cbn. repeat split; auto.
    + unfold mbind at 1.
      destruct (var_getKubeClient vars w3) as [[[k8sClient [err|]] w4]| |];
        try discriminate;
        early.
      unfold mbind at 1.
      destruct (Pods_List env k8sClient (Namespace cfg)
                  ("rollouts-pod-template-hash=" +:+ PodName cfg) w4)
        as [[[pods [err|]] w5]| |]; try discriminate;
        early.
      destruct pods as [|resolvedPodName pods];
        early.
      unfold mret. intros H. injection H as <- _.
      exists cfg, stableLogs, canaryLogs. cbn. repeat split; auto.
      intros [Hne|Hc]; [|congruence].
      exfalso. apply Hne. apply String.eqb_eq. exact Hmode.
  - unfold mret. intros H. injection H as <- _.
    exists cfg, stableLogs, canaryLogs. cbn.
    apply String.eqb_neq in Hmode. repeat split; auto; contradiction.
Qed.

(** X21. Every analysis [Run] asks for carries a log context of the
    form it builds from two logs, the measurement started at the time
    of the call, the configured model or [gemini-2.0-flash] when none is
    configured, and the configured mode or [default] when none is.  In
    agent mode the namespace and the pod name of the configuration are
    not empty, and the pod name is passed on as configured when it
    holds a dash: only a name without a dash is looked up as a template
    hash. *)
Theorem Run_inputs_invariants (env : Env) (vars : Vars) (ar : AnalysisRun)
    (metric : Metric) (w w1 : World) (a : AnalysisInputs) :
  Run_inputs env vars ar metric w = Ret (inr a, w1) ->
  exists cfg stableLogs canaryLogs,
    plugin_config metric = (cfg, None)
    /\ in_cfg a = cfg
    /\ in_measurement a = new_measurement (now w)
    /\ in_logsContext a = logs_context stableLogs canaryLogs
    /\ in_modelName a
       = (if String.eqb (Model cfg) EmptyString then "gemini-2.0-flash"
          else Model cfg)
    /\ in_analysisMode a = analysis_mode cfg
    /\ in_namespace a = Namespace cfg
    /\ (in_analysisMode a = AnalysisModeAgent ->
        Namespace cfg <> EmptyString /\ PodName cfg <> EmptyString)
    /\ (in_analysisMode a <> AnalysisModeAgent
        \/ Contains (PodName cfg) "-" = true ->
        in_podName a = PodName cfg).
Proof. apply Run_inputs_analysis. Qed.

Lemma Run_inputs_invariants_witness :
  let env := example_env (model_says EmptyString) one_pod EmptyString in
  exists a w1,
    Run_inputs env (initial_vars env 100) test_run (test_metric "{}")
      initial_world = Ret (inr a, w1)
    /\ in_modelName a = "gemini-2.0-flash"
    /\ in_analysisMode a = "default"
    /\ in_logsContext a = logs_context "log line" "log line".
Proof.
  intros env.
  match eval vm_compute in
        (Run_inputs env (initial_vars env 100) test_run (test_metric "{}")
           initial_world) with
  | Ret (inr ?a, ?w1) =>
      assert (H : Run_inputs env (initial_vars env 100) test_run
                    (test_metric "{}") initial_world = Ret (inr a, w1))
        by (vm_compute; reflexivity);
      destruct (Run_inputs_invariants env _ _ _ _ _ _ H)
        as (cfg & s & c & _ & _ & _ & _ & _ & _ & _ & _ & _);
      exists a, w1; split; [exact H|]; repeat split; vm_compute; reflexivity
  end.
Defined.

(** ** Run: the verdict *)

Lemma Run_verdict_new (env : Env) (a : AnalysisInputs) (analysisJSON : string)
    (result : AIAnalysisResult) (aiErr : option error) (w : World) (t : Z) :
  in_measurement a = new_measurement t ->
  Run_verdict env a analysisJSON result aiErr w
  = match aiErr with
    | Some e =>
        Ret ({| Phase := AnalysisPhaseError;
                Message := Error env e;
                StartedAt := Some t;
                FinishedAt := Some (now w);
                Value := EmptyString;
                Metadata := None |}, w)
    | None =>
        if Promote result then
          Ret ({| Phase := AnalysisPhaseSuccessful;
                  Message := EmptyString;
                  StartedAt := Some t;
                  FinishedAt := Some (now w);
                  Value := Float64.Sprintf_2f
                             (Float64.div (Float64.of_int (Confidence result))
                                (Float64.of_int 100));
                  Metadata := Some (verdict_metadata analysisJSON result) |},
               w)
        else
          Ret ({| Phase := AnalysisPhaseFailed;
                  Message := EmptyString;
                  StartedAt := Some t;
                  FinishedAt := Some (now w);
                  Value := "0";
                  Metadata := Some (verdict_metadata analysisJSON result) |},
               {| now := now w;
                  trace := EvCreateIssue (in_logsContext a) (Text result)
                             (GitHubURL (in_cfg a)) :: trace w;
                  gen_calls := gen_calls w;
                  rand_calls := rand_calls w |})
    end.
Proof.
  intros Hm. unfold Run_verdict. rewrite Hm.
  destruct aiErr as [e|]; [reflexivity|].
  destruct (Promote result); reflexivity.
Qed.

Lemma verdict_metadata_lookup (analysisJSON : string)
    (result : AIAnalysisResult) (key : string) :
  verdict_metadata analysisJSON result !! key
  = if String.eqb key "confidence" then Some (itoa (Confidence result))
    else if String.eqb key "analysisJSON" then Some analysisJSON
    else if String.eqb key "analysis" then Some (Text result)
    else None.
Proof.
  unfold verdict_metadata.
  destruct (String.eqb key "confidence") eqn:E1.
  { apply String.eqb_eq in E1. subst key. apply lookup_insert_eq. }
  apply String.eqb_neq in E1. rewrite lookup_insert_ne by congruence.
  destruct (String.eqb key "analysisJSON") eqn:E2.
  { apply String.eqb_eq in E2. subst key. apply lookup_insert_eq. }
  apply String.eqb_neq in E2. rewrite lookup_insert_ne by congruence.
  destruct (String.eqb key "analysis") eqn:E3.
  { apply String.eqb_eq in E3. subst key. apply lookup_insert_eq. }
  apply String.eqb_neq in E3. rewrite lookup_insert_ne by congruence.
  apply lookup_empty.
Qed.

(** X22. When the analysis returns without an error, the measurement
    [Run] returns carries, for either verdict, a metadata map with
    exactly three keys: [analysis] with the narrative, [analysisJSON]
    with the text of the analysis, and [confidence] with the confidence
    in decimal, as it was returned.  Its start is the time of the call
    and its end the time of the return. *)
Theorem Run_metadata (env : Env) (vars : Vars) (ar : AnalysisRun)
    (metric : Metric) (w w1 w2 : World) (a : AnalysisInputs)
    (analysisJSON : string) (result : AIAnalysisResult) :
  Run_inputs env vars ar metric w = Ret (inr a, w1) ->
  analyzeWithMode env vars (in_analysisMode a) (in_modelName a)
    (in_logsContext a) (in_namespace a) (in_podName a)
    (ExtraPrompt_ (in_cfg a)) w1 = Ret ((analysisJSON, result, None), w2) ->
  exists m w3 metadata,
    Run env vars ar metric w = Ret (m, w3)
    /\ Metadata m = Some metadata
    /\ (forall key,
          metadata !! key
          = if String.eqb key "confidence"
            then Some (itoa (Confidence result))
            else if String.eqb key "analysisJSON" then Some analysisJSON
            else if String.eqb key "analysis" then Some (Text result)
            else None)
    /\ StartedAt m = Some (now w)
    /\ FinishedAt m = Some (now w3).
Proof.
  intros Hin Han.
  rewrite (Run_after_analysis _ _ _ _ _ _ _ _ _ _ _ Hin Han).
  destruct (Run_inputs_analysis _ _ _ _ _ _ _ Hin)
    as (cfg & s & c & _ & _ & Hm & _).
  rewrite (Run_verdict_new _ _ _ _ _ _ _ Hm).
  destruct (Promote result);
    (eexists _, _, _; split; [reflexivity|]; split; [reflexivity|];
     split; [apply verdict_metadata_lookup|]; split; reflexivity).
Qed.

Lemma Run_metadata_witness :
  let env := example_env (model_says EmptyString) one_pod EmptyString in
  exists m w3 metadata,
    Run env
      (test_vars env
         (json_text "{'text':'bad','promote':false,'confidence':90}",
          mkAIAnalysisResult "bad" false 90, None))
      test_run (test_metric "{}") initial_world = Ret (m, w3)
    /\ Metadata m = Some metadata
    /\ metadata !! "confidence" = Some "90"
    /\ metadata !! "analysis" = Some "bad".
Proof.
  intros env.
  set (vars := test_vars env
                 (json_text "{'text':'bad','promote':false,'confidence':90}",
                  mkAIAnalysisResult "bad" false 90, None)).
  match eval vm_compute in
        (Run_inputs env vars test_run (test_metric "{}") initial_world) with
  | Ret (inr ?a, ?w1) =>
      destruct (Run_metadata env vars test_run (test_metric "{}")
                  initial_world w1 w1 a
                  (json_text "{'text':'bad','promote':false,'confidence':90}")
                  (mkAIAnalysisResult "bad" false 90)
                  ltac:(vm_compute; reflexivity)
                  ltac:(vm_compute; reflexivity))
        as (m & w3 & metadata & Hrun & Hmeta & Hkeys & _);
      exists m, w3, metadata; split; [exact Hrun|]; split; [exact Hmeta|];
      split; [exact (Hkeys "confidence")|exact (Hkeys "analysis")]
  end.
Defined.

(** X23. [Run] calls the remediation collaborator exactly when the
    analysis has returned without an error and with [promote] false:
    once, with the log context, the narrative and the repository of
    the configuration, and whatever it answers the measurement is in
    phase Failed with the value 0.  With [promote] true, and when the
    analysis fails, [Run] makes no call after the analysis; a failed
    analysis gives phase Error, the message of the error and no
    metadata, whatever text and record came with the error. *)
Theorem Run_remediation (env : Env) (vars : Vars) (ar : AnalysisRun)
    (metric : Metric) (w w1 w2 : World) (a : AnalysisInputs)
    (analysisJSON : string) (result : AIAnalysisResult)
    (aiErr : option error) :
  Run_inputs env vars ar metric w = Ret (inr a, w1) ->
  analyzeWithMode env vars (in_analysisMode a) (in_modelName a)
    (in_logsContext a) (in_namespace a) (in_podName a)
    (ExtraPrompt_ (in_cfg a)) w1 = Ret ((analysisJSON, result, aiErr), w2) ->
  exists m w3,
    Run env vars ar metric w = Ret (m, w3)
    /\ match aiErr, Promote result with
       | None, false =>
           calls_between w2 w3
             [EvCreateIssue (in_logsContext a) (Text result)
                (GitHubURL (in_cfg a))]
           /\ Phase m = AnalysisPhaseFailed /\ Value m = "0"
       | None, true => w3 = w2 /\ Phase m = AnalysisPhaseSuccessful
       | Some e, _ =>
           w3 = w2 /\ Phase m = AnalysisPhaseError
           /\ Message m = Error env e /\ Metadata m = None
           /\ Value m = EmptyString
       end.
Proof.
  intros Hin Han.
  rewrite (Run_after_analysis _ _ _ _ _ _ _ _ _ _ _ Hin Han).
  destruct (Run_inputs_analysis _ _ _ _ _ _ _ Hin)
    as (cfg & s & c & _ & _ & Hm & _).
  rewrite (Run_verdict_new _ _ _ _ _ _ _ Hm).
  destruct aiErr as [e|]; [|destruct (Promote result)];
    (eexists _, _; split; [reflexivity|]); repeat split.
Qed.

Lemma Run_remediation_witness :
  let env := example_env (model_says EmptyString) one_pod EmptyString in
  exists m w3,
    Run env
      (test_vars env
         (json_text "{'text':'bad','promote':false,'confidence':90}",
          mkAIAnalysisResult "bad" false 90, None))
      test_run (test_metric "{'githubUrl':'https://github.com/owner/repo'}")
      initial_world = Ret (m, w3)
    /\ trace w3
       = [EvCreateIssue (logs_context "dummy" "dummy") "bad"
            "https://github.com/owner/repo"]
    /\ Phase m = AnalysisPhaseFailed.
Proof.
  intros env.
  set (vars := test_vars env
                 (json_text "{'text':'bad','promote':false,'confidence':90}",
                  mkAIAnalysisResult "bad" false 90, None)).
  set (metric := test_metric "{'githubUrl':'https://github.com/owner/repo'}").
  match eval vm_compute in
        (Run_inputs env vars test_run metric initial_world) with
  | Ret (inr ?a, ?w1) =>
      destruct (Run_remediation env vars test_run metric
                  initial_world w1 w1 a
                  (json_text "{'text':'bad','promote':false,'confidence':90}")
                  (mkAIAnalysisResult "bad" false 90) None
                  ltac:(vm_compute; reflexivity)
                  ltac:(vm_compute; reflexivity))
        as (m & w3 & Hrun & Hcalls & Hphase & _);
      exists m, w3; split; [exact Hrun|]; split; [|exact Hphase];
      rewrite Hcalls; vm_compute; reflexivity
  end.
Defined.

(** ** Run in agent mode *)

Lemma Pods_List_returns (env : Env) (namespace selector : string) (w : World) :
  exists r w',
    Pods_List env (Some mkClientset) namespace selector w = Ret (r, w')
    /\ gen_calls w' = gen_calls w.
Proof.
  unfold Pods_List, mbind, emit, mret. eexists _, _.
  split; reflexivity.
Qed.

(** With the variables as the package initialises them, [Run] reaches
    the analysis or an early return, without a call to the model. *)
Lemma Run_inputs_production (env : Env) (fuel : nat) (ar : AnalysisRun)
    (metric : Metric) (w : World) :
  exists r w1,
    Run_inputs env (initial_vars env fuel) ar metric w = Ret (r, w1)
    /\ gen_calls w1 = gen_calls w.
Proof.
  rewrite Run_inputs_unfold. cbv zeta.
  destruct (plugin_config metric) as [cfg [err|]]; cbn [fst snd].
  { eexists _, _. split; reflexivity. }
  cbn [initial_vars var_acquireKubeClient var_readFirstPodLogs
       var_getKubeClient].
  unfold mbind at 1.
  destruct (getKubeClient_result env w) as [Hk|[err Hk]]; rewrite Hk;
    cbn beta iota.
  2:{ eexists _, _. split; reflexivity. }
  unfold mbind at 1.
  destruct (fetchFirstPodLogs_result env Background (RunNamespace ar)
              (stable_selector cfg) w)
    as (slogs & serr & w2 & Hs & (_ & _ & _ & Hg2) & _).
  rewrite Hs. cbn beta iota.
  destruct serr as [serr|].
  { eexists _, _. split; [reflexivity|exact Hg2]. }
  unfold mbind at 1.
  destruct (fetchFirstPodLogs_result env Background (RunNamespace ar)
              (canary_selector cfg) w2)
    as (clogs & cerr & w3 & Hc & (_ & _ & _ & Hg3) & _).
  rewrite Hc. cbn beta iota.
  assert (Hg : gen_calls w3 = gen_calls w) by congruence.
  destruct cerr as [cerr|].
  { destruct (IsNotFound cerr); eexists _, _;
      (split; [reflexivity|exact Hg]). }
  destruct (String.eqb (analysis_mode cfg) AnalysisModeAgent
            && (String.eqb (Namespace cfg) EmptyString
                || String.eqb (PodName cfg) EmptyString)).
  { eexists _, _. split; [reflexivity|exact Hg]. }
  destruct (String.eqb (analysis_mode cfg) AnalysisModeAgent
            && negb (Contains (PodName cfg) "-")).
  2:{ eexists _, _. split; [reflexivity|exact Hg]. }
  unfold mbind at 1.
  destruct (getKubeClient_result env w3) as [Hk3|[err Hk3]]; rewrite Hk3;
    cbn beta iota.
  2:{ eexists _, _. split; [reflexivity|exact Hg]. }
  unfold mbind at 1. unfold Pods_List, mbind, emit, mret.
  destruct (PodsList env (Namespace cfg)
              ("rollouts-pod-template-hash=" +:+ PodName cfg))
    as [pods [err|]].
  { eexists _, _. split; [reflexivity|exact Hg]. }
  destruct pods as [|pod pods]; eexists _, _;
    (split; [reflexivity|exact Hg]).
Qed.

(** X24. With a configuration that asks for agent mode and the
    collaborators of the package, [Run] always gets as far as its
    verdict, whatever the cluster and the agent answer and whatever the
    logs hold, without a panic and without a call of the model: it
    returns early, or its analysis returns, and a failure of the agent
    is not made up for by the direct analysis.  Unless the analysis has
    returned [promote] false without an error, which is where the
    remediation collaborator is called, [Run] then returns a
    measurement at once. *)
Theorem Run_agent_mode_analysis (env : Env) (fuel : nat) (ar : AnalysisRun)
    (metric : Metric) (w : World) (cfg : aiConfig) (err : option error) :
  plugin_config metric = (cfg, err) ->
  AnalysisMode cfg = AnalysisModeAgent ->
  exists r w1,
    Run_inputs env (initial_vars env fuel) ar metric w = Ret (r, w1)
    /\ gen_calls w1 = gen_calls w
    /\ match r with
       | inl m => Run env (initial_vars env fuel) ar metric w = Ret (m, w1)
       | inr a =>
           exists analysisJSON result aiErr w2,
             analyzeWithMode env (initial_vars env fuel) (in_analysisMode a)
               (in_modelName a) (in_logsContext a) (in_namespace a)
               (in_podName a) (ExtraPrompt_ (in_cfg a)) w1
             = Ret ((analysisJSON, result, aiErr), w2)
             /\ gen_calls w2 = gen_calls w
             /\ (aiErr <> None \/ Promote result = true ->
                 exists m,
                   Run env (initial_vars env fuel) ar metric w = Ret (m, w2))
       end.
Proof.
  intros Hcfg Hmode.
  destruct (Run_inputs_production env fuel ar metric w)
    as ([m|a] & w1 & Hin & Hg1).
  { exists (inl m), w1. split; [exact Hin|]. split; [exact Hg1|].
    apply Run_early. exact Hin. }
  exists (inr a), w1. split; [exact Hin|]. split; [exact Hg1|].
  destruct (Run_inputs_analysis _ _ _ _ _ _ _ Hin)
    as (cfg' & s & c & Hcfg' & _ & Hm & Hctx & _ & Hamode & _).
  assert (cfg' = cfg) by congruence. subst cfg'.
  assert (Hagent : in_analysisMode a = AnalysisModeAgent).
  { rewrite Hamode. unfold analysis_mode. rewrite Hmode. reflexivity. }
  destruct (analyzeWithKubernetesAgent_returns env (in_namespace a)
              (in_podName a) s c w1) as ([[j result] aiErr] & w2 & Han & Hg2 & _).
  assert (Han' : analyzeWithMode env (initial_vars env fuel)
                   (in_analysisMode a) (in_modelName a) (in_logsContext a)
                   (in_namespace a) (in_podName a) (ExtraPrompt_ (in_cfg a)) w1
                 = Ret ((j, result, aiErr), w2)).
  { unfold analyzeWithMode. rewrite Hagent, Hctx.
    change (String.eqb AnalysisModeAgent AnalysisModeAgent) with true.
    exact Han. }
  exists j, result, aiErr, w2. split; [exact Han'|].
  split; [congruence|].
  intros Hcase.
  rewrite (Run_after_analysis _ _ _ _ _ _ _ _ _ _ _ Hin Han').
  rewrite (Run_verdict_new _ _ _ _ _ _ _ Hm).
  destruct aiErr as [e|]; [eexists; reflexivity|].
  destruct (Promote result); [eexists; reflexivity|].
  destruct Hcase as [Hne|Hp]; [exfalso; apply Hne; reflexivity|discriminate Hp].
Qed.

Lemma Run_agent_mode_analysis_witness :
  let env := example_env (model_says EmptyString) one_pod
               overconfident_agent_body in
  exists r w1,
    Run_inputs env (initial_vars env 100) test_run agent_metric initial_world
    = Ret (r, w1)
    /\ gen_calls w1 = gen_calls initial_world.
Proof.
  intros env.
  match eval vm_compute in (plugin_config agent_metric) with
  | (?cfg, ?err) =>
      destruct (Run_agent_mode_analysis env 100 test_run agent_metric
                  initial_world cfg err ltac:(vm_compute; reflexivity) eq_refl)
        as (r & w1 & Hin & Hg & _);
      exists r, w1; split; [exact Hin|exact Hg]
  end.
Defined.

(** ** The logs of the first pod *)

(** X25. [fetchFirstPodLogs] reads the logs of the first pod of the
    list, and of no other.  The error it returns has the reason
    NotFound when no pod matches the selector, and also when the list
    request or the log request itself fails with that reason, since
    both errors are wrapped: so for [Run] a canary pod that is gone by
    the time its logs are read counts as a canary that is not there. *)
Theorem fetchFirstPodLogs_cases (env : Env) (ctx : Context)
    (namespace selector : string) (w : World) :
  match PodsList env namespace selector with
  | (_, Some e) =>
      exists err,
        fetchFirstPodLogs env ctx (Some mkClientset) namespace selector w
        = Ret ((EmptyString, Some err),
               {| now := now w;
                  trace := EvPodsList namespace selector :: trace w;
                  gen_calls := gen_calls w;
                  rand_calls := rand_calls w |})
        /\ IsNotFound err = IsNotFound e
  | ([], None) =>
      exists err,
        fetchFirstPodLogs env ctx (Some mkClientset) namespace selector w
        = Ret ((EmptyString, Some err),
               {| now := now w;
                  trace := EvPodsList namespace selector :: trace w;
                  gen_calls := gen_calls w;
                  rand_calls := rand_calls w |})
        /\ IsNotFound err = true
  | (pod :: _, None) =>
      let w' := {| now := now w;
                   trace := EvPodLogs namespace pod
                            :: EvPodsList namespace selector :: trace w;
                   gen_calls := gen_calls w;
                   rand_calls := rand_calls w |} in
      match PodLogs env namespace pod with
      | (logs, None) =>
          fetchFirstPodLogs env ctx (Some mkClientset) namespace selector w
          = Ret ((logs, None), w')
      | (_, Some e) =>
          exists err,
            fetchFirstPodLogs env ctx (Some mkClientset) namespace selector w
            = Ret ((EmptyString, Some err), w')
            /\ IsNotFound err = IsNotFound e
      end
  end.
Proof.
  unfold fetchFirstPodLogs, Pods_List, mbind, emit, mret.
  destruct (PodsList env namespace selector) as [[|pod rest] [e|]];
    cbv zeta; try (eexists; split; reflexivity).
  destruct (PodLogs env namespace pod) as [logs [e|]]; [|reflexivity].
  eexists. split; reflexivity.
Qed.

(** ** The records the engine produces, and the calls they come from *)





(** ** The split of the log context, on the contexts [Run] builds *)







(** ** The wait after a retry hint *)

(** C5. The wait after a retry hint is not the hinted duration, by a
    slip of the code against its own comments ("using API-suggested
    wait time", "Override backoff with API-suggested wait time").  The
    first call fails with a rate-limit error whose [RetryInfo] detail
    carries the delay [30s].  The closure calls [Reset] before it
    assigns the two intervals, so that the current interval is the
    former initial interval: the wait before the next attempt is one
    second, not the thirty seconds of the hint.  The pin of the max
    interval stays: with no further hint the waits double up to thirty
    seconds and stay there; with the same hint at every failure each
    [Reset] takes up the interval pinned at the failure before, and
    the waits are thirty seconds from the second one on. *)
Theorem retry_hint_next_wait :
  (let env := example_env (hinted_once "30s") one_pod EmptyString in
   let op := generate_operation env example_params in
   exists v1 w1,
     operationWithLogging op (mkRetryVars None initial_backoffConfig None 0)
       initial_world
     = Ret ((Some (rate_limit_error [retry_hint "30s"]), v1), w1)
     /\ apiWaitTime_of [retry_hint "30s"] = 30 * Second
     /\ backoff.InitialInterval (backoffConfig v1) = 30 * Second
     /\ backoff.MaxInterval (backoffConfig v1) = 30 * Second
     /\ backoff.currentInterval (backoffConfig v1) = 1 * Second
     /\ fst (backoff.NextBackOff (rand_Float64 env 0) (backoffConfig v1))
        = 1 * Second)
  /\ (let env := example_env (hinted_once "30s") one_pod EmptyString in
      exists r w',
        retryWithBackoff env Background
          (generate_operation env example_params) 3 1000 None initial_world
        = Ret (r, w')
        /\ firstn 8 (sleeps w')
           = map (fun s => s * Second) [1; 2; 4; 8; 16; 30; 30; 30])
  /\ (let env := example_env (always_hinted "30s") one_pod EmptyString in
      exists r w',
        retryWithBackoff env Background
          (generate_operation env example_params) 3 1000 None initial_world
        = Ret (r, w')
        /\ firstn 4 (sleeps w')
           = map (fun s => s * Second) [1; 30; 30; 30]).
Proof.
  split; [|split].
  - intros env op.
    match eval vm_compute in
          (operationWithLogging op
             (mkRetryVars None initial_backoffConfig None 0) initial_world)
    with
    | Ret ((_, ?v1), ?w1) => exists v1, w1
    end.
    vm_compute. repeat split; reflexivity.
  - intros env.
    match eval vm_compute in
          (retryWithBackoff env Background
             (generate_operation env example_params) 3 1000 None
             initial_world)
    with
    | Ret (?r1, ?w1) => exists r1, w1
    end.
    vm_compute. split; reflexivity.
  - intros env.
    match eval vm_compute in
          (retryWithBackoff env Background
             (generate_operation env example_params) 3 1000 None
             initial_world)
    with
    | Ret (?r1, ?w1) => exists r1, w1
    end.
    vm_compute. split; reflexivity.
Qed.
